(** * Fraud-detection training pipeline (train_fraud_model.py)

    A shallow embedding of [backend/datasets/fraud/train_fraud_model.py]:
    the table handling, the feature engineering, the feature selection and
    the export steps are embedded as they are written; the numerical
    routines of numpy, scikit-learn, skl2onnx and onnx are the fields of two
    interfaces ([Numpy], [Sklearn]), so every statement below holds for any
    implementation of them.

    Python exceptions are values of [exn]; a function that may raise returns
    a [result]; a function that also touches the file system is a
    computation [M] over a [world].

    Console output is embedded where the script handles exceptions around
    it, in [convert_to_onnx]: there every [print] is a step that raises
    when the console cannot encode its text.  The progress messages of the
    other steps are straight-line output and are not embedded. *)

From Stdlib Require Import ZArith QArith String List Lia.
From stdpp Require Import gmap strings list fin_maps.

Open Scope list_scope.
Open Scope string_scope.
Open Scope Z_scope.

(** ** Exceptions and results *)

(** The instances of Python's [Exception] the script can meet.  A library
    routine that fails for a reason of its own raises [LibraryError]. *)
Inductive exn : Type :=
| KeyError (key : string)
| TypeError (msg : string)
| ValueError (msg : string)
| IndexError (msg : string)
| AttributeError (msg : string)
| ZeroDivisionError
| FileNotFoundError (path : string)
| FileExistsError (path : string)
| PermissionError (path : string)
| UnicodeEncodeError (text : string)
| NotFittedError
| LibraryError (msg : string).

Inductive result (A : Type) : Type :=
| Ok (a : A)
| Raise (e : exn).
Arguments Ok {A} a.
Arguments Raise {A} e.

Definition rbind {A B} (r : result A) (k : A -> result B) : result B :=
  match r with
  | Ok a => k a
  | Raise e => Raise e
  end.

Notation "'let?' x ':=' r 'in' k" := (rbind r (fun x => k))
  (at level 10, x name, r at level 100, k at level 200).
Notation "'let?' ' x ':=' r 'in' k" := (rbind r (fun x : _ => k))
  (at level 10, x pattern, r at level 100, k at level 200).

Fixpoint rmapM {A B} (f : A -> result B) (l : list A) : result (list B) :=
  match l with
  | [] => Ok []
  | x :: l' =>
      let? y := f x in
      let? ys := rmapM f l' in
      Ok (y :: ys)
  end.

Fixpoint rfoldlM {A S} (f : A -> S -> result S) (l : list A) (s : S) : result S :=
  match l with
  | [] => Ok s
  | x :: l' => let? s' := f x s in rfoldlM f l' s'
  end.

(** ** Computations: exceptions over a state

    A raised exception leaves the state as it was when it was raised: what
    was written to a file stays written. *)

Definition M (W A : Type) : Type := W -> result A * W.

Definition ret {W A} (a : A) : M W A := fun w => (Ok a, w).

Definition bind {W A B} (m : M W A) (k : A -> M W B) : M W B :=
  fun w =>
    match m w with
    | (Ok a, w') => k a w'
    | (Raise e, w') => (Raise e, w')
    end.

Definition lift {W A} (r : result A) : M W A := fun w => (r, w).

(** [try: body / except Exception as e: handler e] *)
Definition try_except {W A} (body : M W A) (handler : exn -> M W A) : M W A :=
  fun w =>
    match body w with
    | (Ok a, w') => (Ok a, w')
    | (Raise e, w') => handler e w'
    end.

Notation "'let*' x ':=' m 'in' k" := (bind m (fun x => k))
  (at level 10, x name, m at level 100, k at level 200).
Notation "'let*' ' x ':=' m 'in' k" := (bind m (fun x : _ => k))
  (at level 10, x pattern, m at level 100, k at level 200).

(** [for x in l: f x] *)
Fixpoint for_each {W A} (f : A -> M W unit) (l : list A) : M W unit :=
  match l with
  | [] => ret tt
  | x :: l' => let* _ := f x in for_each f l'
  end.

(** ** numpy and pandas: float64, its ufuncs, and the text of an Index *)

Class Numpy : Type := {
  float : Type;
  (** int64 -> float64 *)
  of_int : Z -> float;
  np_pi : float;
  fadd : float -> float -> float;
  fsub : float -> float -> float;
  fmul : float -> float -> float;
  fdiv : float -> float -> float;
  fmax : float -> float -> float;
  fleb : float -> float -> bool;
  fltb : float -> float -> bool;
  feqb : float -> float -> bool;
  np_log1p : float -> float;
  np_sqrt : float -> float;
  np_sin : float -> float;
  np_cos : float -> float;
  (** mean of a column, and its standard deviation as StandardScaler keeps
      it in [scale_] *)
  np_mean : list float -> float;
  np_scale : list float -> float;
  (** [str(pd.Index(names))], as pandas lays it out *)
  index_repr : list string -> string
}.

(** int64 arithmetic wraps around *)
Definition wrap64 (z : Z) : Z := (z + 2 ^ 63) mod 2 ^ 64 - 2 ^ 63.

(** ** pandas: columns and tables *)

Section Pipeline.
Context `{np : Numpy}.

(** A column (Series) with its dtype.  An [Object] column holds category
    strings; missing values are not part of the embedding. *)
Inductive column : Type :=
| Int64 (l : list Z)
| Float64 (l : list float)
| Object (l : list string).

(** A Python dict with string keys, in insertion order. *)
Fixpoint dict_lookup {V} (key : string) (d : list (string * V)) : option V :=
  match d with
  | [] => None
  | (k, v) :: d' => if String.eqb k key then Some v else dict_lookup key d'
  end.

(** [d[key] = v]: replaces the entry in place, or appends it *)
Fixpoint dict_set {V} (key : string) (v : V) (d : list (string * V)) : list (string * V) :=
  match d with
  | [] => [(key, v)]
  | (k, v0) :: d' =>
      if String.eqb k key then (k, v) :: d' else (k, v0) :: dict_set key v d'
  end.

(** A DataFrame: its columns by name, in their order. *)
Definition DataFrame : Type := list (string * column).

(** [df[name]] *)
Definition df_getitem (name : string) (df : DataFrame) : result column :=
  match dict_lookup name df with
  | Some c => Ok c
  | None => Raise (KeyError name)
  end.

(** [df[name] = c] *)
Definition df_setitem (name : string) (c : column) (df : DataFrame) : DataFrame :=
  dict_set name c df.

(** [repr] of a list of column names: ['a', 'b'] *)
Definition python_list_repr (names : list string) : string :=
  "[" ++ String.concat ", " ((fun name => "'" ++ name ++ "'") <$> names) ++ "]".

(** The names of [names] that are not columns of [df]. *)
Definition missing_columns (names : list string) (df : DataFrame) : list string :=
  filter (fun name => dict_lookup name df = None) names.

(** The message of the [KeyError] a selection by a list of names raises:
    when none of the names is a column it shows the whole selection, and
    otherwise the list of the names that are missing. *)
Definition not_in_index (names missing : list string) : string :=
  if (length missing =? length names)%nat
  then "None of [" ++ index_repr names ++ "] are in the [columns]"
  else python_list_repr missing ++ " not in index".

(** [df[names]] for a list of names: the columns in the order asked for,
    or one [KeyError] for all the names that are missing *)
Definition df_getitems (names : list string) (df : DataFrame) : result (list column) :=
  match missing_columns names df with
  | [] => rmapM (fun name => df_getitem name df) names
  | missing => Raise (KeyError (not_in_index names missing))
  end.

(** The cell of row [i] in a float64 column, and in an int64 column. *)
Definition row_float (name : string) (i : nat) (df : DataFrame) : option float :=
  match dict_lookup name df with
  | Some (Float64 l) => l !! i
  | _ => None
  end.

Definition row_int (name : string) (i : nat) (df : DataFrame) : option Z :=
  match dict_lookup name df with
  | Some (Int64 l) => l !! i
  | _ => None
  end.

(** The values of a column as float64, for a ufunc or a true division;
    a string has no such value. *)
Definition as_float (c : column) : result (list float) :=
  match c with
  | Int64 l => Ok (of_int <$> l)
  | Float64 l => Ok l
  | Object [] => Ok []
  | Object (_ :: _) => Raise (TypeError "ufunc does not support str")
  end.

(** [np.log1p(c)], [np.sqrt(c)], ... *)
Definition np_ufunc (f : float -> float) (c : column) : result column :=
  let? l := as_float c in Ok (Float64 (f <$> l)).

(** [k * c] and [c / k] for a Python float [k] *)
Definition scalar_mul (k : float) (c : column) : result column :=
  let? l := as_float c in Ok (Float64 (fmul k <$> l)).

Definition div_scalar (c : column) (k : Z) : result column :=
  let? l := as_float c in Ok (Float64 ((fun x => fdiv x (of_int k)) <$> l)).

(** [c >= k] and [c <= k] for an int [k] *)
Definition col_ge (c : column) (k : Z) : result (list bool) :=
  match c with
  | Int64 l => Ok ((fun x => k <=? x) <$> l)
  | Float64 l => Ok ((fun x => fleb (of_int k) x) <$> l)
  | Object [] => Ok []
  | Object (_ :: _) => Raise (TypeError ">= not supported between str and int")
  end.

Definition col_le (c : column) (k : Z) : result (list bool) :=
  match c with
  | Int64 l => Ok ((fun x => x <=? k) <$> l)
  | Float64 l => Ok ((fun x => fleb x (of_int k)) <$> l)
  | Object [] => Ok []
  | Object (_ :: _) => Raise (TypeError "<= not supported between str and int")
  end.

(** [a & b], [a | b] on boolean columns, and [.astype(int)] *)
Definition col_and (a b : list bool) : list bool := zip_with andb a b.
Definition col_or (a b : list bool) : list bool := zip_with orb a b.
Definition astype_int (a : list bool) : column := Int64 (Z.b2z <$> a).

(** [a * b], [a + b] and the row-wise maximum of two columns: int64 when
    both are int64, float64 otherwise *)
Definition col_binop (iop : Z -> Z -> Z) (fop : float -> float -> float)
    (opname : string) (a b : column) : result column :=
  match a, b with
  | Int64 x, Int64 y => Ok (Int64 (zip_with (fun u v => wrap64 (iop u v)) x y))
  | Object (_ :: _), _ | _, Object (_ :: _) => Raise (TypeError opname)
  | _, _ =>
      let? x := as_float a in
      let? y := as_float b in
      Ok (Float64 (zip_with fop x y))
  end.

Definition col_mul : column -> column -> result column := col_binop Z.mul fmul "*".
Definition col_add : column -> column -> result column := col_binop Z.add fadd "+".
Definition col_max : column -> column -> result column := col_binop Z.max fmax "max".

(** Number of rows of a column, and the rows of a column at the given
    positions (numpy's [c[idx]]) *)
Definition column_len (c : column) : nat :=
  match c with
  | Int64 l => length l
  | Float64 l => length l
  | Object l => length l
  end.

Definition column_take (idx : list nat) (c : column) : column :=
  match c with
  | Int64 l => Int64 (omap (fun i => l !! i) idx)
  | Float64 l => Float64 (omap (fun i => l !! i) idx)
  | Object l => Object (omap (fun i => l !! i) idx)
  end.

(** ** sklearn.preprocessing.LabelEncoder *)

Inductive label : Type :=
| LInt (z : Z)
| LFloat (x : float)
| LStr (s : string).

Definition column_labels (c : column) : list label :=
  match c with
  | Int64 l => LInt <$> l
  | Float64 l => LFloat <$> l
  | Object l => LStr <$> l
  end.

Definition label_eqb (a b : label) : bool :=
  match a, b with
  | LInt x, LInt y => (x =? y)%Z
  | LFloat x, LFloat y => feqb x y
  | LStr x, LStr y => String.eqb x y
  | _, _ => false
  end.

Definition label_ltb (a b : label) : bool :=
  match a, b with
  | LInt x, LInt y => (x <? y)%Z
  | LFloat x, LFloat y => fltb x y
  | LStr x, LStr y => String.ltb x y
  | _, _ => false
  end.

(** Modelled from the spec: numpy's [np.unique] is not in the repository;
    the distinct values of a column in sorted order. *)
Fixpoint insert_unique (x : label) (l : list label) : list label :=
  match l with
  | [] => [x]
  | y :: l' =>
      if label_eqb x y then l
      else if label_ltb x y then x :: l
      else y :: insert_unique x l'
  end.

Definition np_unique (l : list label) : list label := foldr insert_unique [] l.

Fixpoint index_of (x : label) (l : list label) : option nat :=
  match l with
  | [] => None
  | y :: l' => if label_eqb x y then Some 0%nat else S <$> index_of x l'
  end.

(** A label that [label_eqb] identifies with itself only: strings and
    integers are, whatever the float comparison is. *)
Definition exact_label (x : label) : Prop :=
  label_eqb x x = true /\ forall y, label_eqb x y = true -> y = x.

(** An encoder; [classes_] is absent until it is fitted. *)
Record LabelEncoder : Type := { classes_ : option (list label) }.

Definition LabelEncoder_new : LabelEncoder := {| classes_ := None |}.

(** Modelled from the spec: sklearn's [LabelEncoder.fit] is not in the
    repository; it maps each observed category to a dense integer index
    assigned in sorted order. *)
Definition LabelEncoder_fit (y : column) : LabelEncoder :=
  {| classes_ := Some (np_unique (column_labels y)) |}.

(** Modelled from the spec: sklearn's [LabelEncoder.transform] is not in the
    repository; the index of each category, and a defined error for a
    category that was not observed at fit time. *)
Definition transform_label (classes : list label) (x : label) : result Z :=
  match index_of x classes with
  | Some i => Ok (Z.of_nat i)
  | None => Raise (ValueError "y contains previously unseen labels")
  end.

Definition LabelEncoder_transform (le : LabelEncoder) (y : column) : result (list Z) :=
  match classes_ le with
  | None => Raise NotFittedError
  | Some classes => rmapM (transform_label classes) (column_labels y)
  end.

(** Modelled from the spec: sklearn's [LabelEncoder.inverse_transform] is not
    in the repository; the category of each index, and a defined error for an
    index outside the encoder's range. *)
Definition inverse_label (classes : list label) (i : Z) : result label :=
  if (i <? 0)%Z then Raise (ValueError "y contains previously unseen labels")
  else match classes !! Z.to_nat i with
       | Some x => Ok x
       | None => Raise (ValueError "y contains previously unseen labels")
       end.

Definition LabelEncoder_inverse_transform (le : LabelEncoder) (y : list Z)
    : result (list label) :=
  match classes_ le with
  | None => Raise NotFittedError
  | Some classes => rmapM (inverse_label classes) y
  end.

(** [le.fit_transform(y)]: fits, then encodes the same column *)
Definition LabelEncoder_fit_transform (le : LabelEncoder) (y : column)
    : result (LabelEncoder * list Z) :=
  let le := LabelEncoder_fit y in
  let? codes := LabelEncoder_transform le y in
  Ok (le, codes).

(** ** sklearn.preprocessing.StandardScaler *)

(** A 2-D float64 array, one list per feature column. *)
Definition matrix : Type := list (list float).

(** A 2-D array as [df[cols].values] gives it: the selected columns. *)
Definition ndarray : Type := list column.

Definition n_samples (X : ndarray) : nat :=
  match X with
  | [] => 0%nat
  | c :: _ => column_len c
  end.

Definition column_float64 (c : column) : result (list float) :=
  match c with
  | Int64 l => Ok (of_int <$> l)
  | Float64 l => Ok l
  | Object [] => Ok []
  | Object (_ :: _) => Raise (ValueError "could not convert string to float")
  end.

(** sklearn's input validation: a float64 array with at least one row *)
Definition check_array (X : ndarray) : result matrix :=
  let? cols := rmapM column_float64 X in
  if (n_samples X =? 0)%nat then Raise (ValueError "Found array with 0 sample(s)")
  else Ok cols.

(** A scaler; [mean_] and [scale_] are absent until it is fitted. *)
Record StandardScaler : Type := {
  mean_ : option (list float);
  scale_ : option (list float)
}.

Definition StandardScaler_new : StandardScaler := {| mean_ := None; scale_ := None |}.

Definition standardize (m s : float) (col : list float) : list float :=
  (fun x => fdiv (fsub x m) s) <$> col.

(** Modelled from the spec: sklearn's [StandardScaler.transform] is not in
    the repository; every feature column is shifted by the fitted mean and
    divided by the fitted standard deviation. *)
Definition StandardScaler_transform (scaler : StandardScaler) (X : ndarray)
    : result matrix :=
  match mean_ scaler, scale_ scaler with
  | Some means, Some stds =>
      let? cols := check_array X in
      if (length cols =? length means)%nat
      then Ok (zip_with (fun col ms => standardize ms.1 ms.2 col) cols (zip means stds))
      else Raise (ValueError "X has a different number of features than the scaler")
  | _, _ => Raise NotFittedError
  end.

(** Modelled from the spec: sklearn's [StandardScaler.fit] is not in the
    repository; per-feature mean and standard deviation computed over the
    array it is given. *)
Definition StandardScaler_fit (X : ndarray) : result StandardScaler :=
  let? cols := check_array X in
  Ok {| mean_ := Some (np_mean <$> cols); scale_ := Some (np_scale <$> cols) |}.

(** [scaler.fit_transform(X)]: fits on [X], then transforms [X] *)
Definition StandardScaler_fit_transform (scaler : StandardScaler) (X : ndarray)
    : result (StandardScaler * matrix) :=
  let? scaler := StandardScaler_fit X in
  let? Xs := StandardScaler_transform scaler X in
  Ok (scaler, Xs).

(** ** scikit-learn, skl2onnx and onnx *)

Record RandomForestParams : Type := {
  n_estimators : Z;
  max_depth : Z;
  min_samples_split : Z;
  min_samples_leaf : Z;
  random_state : Z;
  n_jobs : Z;
  class_weight : string;
  verbose : Z
}.

(** [FloatTensorType(shape)]; [None] is a free dimension *)
Record TensorType : Type := FloatTensorType { tensor_shape : list (option nat) }.

Class Sklearn : Type := {
  (** the rows [train_test_split] assigns to the training and to the test
      partition of [n] rows, for a test fraction, a seed and the labels to
      stratify on *)
  train_test_indices : Q -> Z -> list label -> nat -> result (list nat * list nat);
  (** a fitted [RandomForestClassifier] *)
  RandomForestClassifier : Type;
  rf_fit : RandomForestParams -> matrix -> column -> result RandomForestClassifier;
  rf_score : RandomForestClassifier -> matrix -> column -> result float;
  rf_predict : RandomForestClassifier -> matrix -> result column;
  (** one row of class probabilities per sample *)
  rf_predict_proba : RandomForestClassifier -> matrix -> result (list (list float));
  feature_importances_ : RandomForestClassifier -> list float;
  classification_report : column -> column -> list string -> result string;
  confusion_matrix : column -> column -> result (list (list Z));
  roc_auc_score : column -> list float -> result float;
  (** the row order [sort_values(ascending=False)] gives *)
  argsort_descending : list float -> list nat;
  (** whether [skl2onnx] and [onnx] could be imported *)
  ONNX_AVAILABLE : bool;
  ModelProto : Type;
  convert_sklearn : RandomForestClassifier -> list (string * TensorType) -> Z -> result ModelProto;
  SerializeToString : ModelProto -> result (list Byte.byte);
  onnx_parse : list Byte.byte -> result ModelProto;
  check_model : ModelProto -> result unit;
  (** [str(e)], the text an f-string shows for [{e}]: the message the
      library or the interpreter gave the exception *)
  exn_str : exn -> string
}.

Context `{sk : Sklearn}.

(** ** Artifacts and the file system *)

Record Metrics : Type := {
  train_accuracy : float;
  test_accuracy : float;
  roc_auc : float;
  metrics_confusion_matrix : list (list Z);
  feature_importance : list (string * float)
}.

Record ModelConfig : Type := {
  config_n_estimators : Z;
  config_max_depth : Z;
  config_min_samples_split : Z;
  config_min_samples_leaf : Z
}.

(** scaler_params.json *)
Record ScalerParams : Type := {
  means : list float;
  stds : list float;
  params_n_features : nat
}.

(** model_metadata.json *)
Record Metadata : Type := {
  n_features : nat;
  feature_names : list string;
  metrics : Metrics;
  model_config : ModelConfig
}.

(** What a file holds: a delimited table as [pd.read_csv] parses it, an
    object pickled by joblib, one of the two JSON documents, or bytes. *)
Inductive file : Type :=
| CsvTable (df : DataFrame)
| PickledEncoder (le : LabelEncoder)
| PickledScaler (scaler : StandardScaler)
| PickledModel (model : RandomForestClassifier)
| JsonScalerParams (p : ScalerParams)
| JsonMetadata (m : Metadata)
| Bytes (b : list Byte.byte).

(** The files by path, the paths that cannot be created or opened for
    writing, the directories the script has asked for, and the texts the
    console's encoding can encode. *)
Record world : Type := {
  fs : gmap string file;
  write_protected : gset string;
  dirs : gset string;
  stdout_accepts : string -> bool
}.

(** ** Reading and writing files *)

(** [open(path, "w")]: creates or truncates the file *)
Definition open_w (path : string) : M world unit :=
  fun w =>
    if decide (path ∈ write_protected w) then (Raise (PermissionError path), w)
    else (Ok tt, {| fs := <[path := Bytes []]> (fs w);
                    write_protected := write_protected w;
                    dirs := dirs w;
                    stdout_accepts := stdout_accepts w |}).

(** the contents of an open file once it is written and closed *)
Definition put_contents (path : string) (f : file) : M world unit :=
  fun w => (Ok tt, {| fs := <[path := f]> (fs w);
                      write_protected := write_protected w;
                      dirs := dirs w;
                      stdout_accepts := stdout_accepts w |}).

(** [os.makedirs(path, exist_ok=True)]: nothing to do for a directory that
    is there; a file of that name is in the way; a directory that cannot be
    created is refused.  The directories above [path] are not tracked. *)
Definition makedirs (path : string) : M world unit :=
  fun w =>
    if decide (path ∈ dirs w) then (Ok tt, w)
    else if decide (is_Some (fs w !! path)) then (Raise (FileExistsError path), w)
    else if decide (path ∈ write_protected w) then (Raise (PermissionError path), w)
    else (Ok tt, {| fs := fs w;
                    write_protected := write_protected w;
                    dirs := {[ path ]} ∪ dirs w;
                    stdout_accepts := stdout_accepts w |}).

(** [print(text)]: raises when the console cannot encode the text *)
Definition print (text : string) : M world unit :=
  fun w =>
    if stdout_accepts w text then (Ok tt, w)
    else (Raise (UnicodeEncodeError text), w).

(** ["\n"], and [s * n] *)
Definition newline : string := String (Ascii.ascii_of_nat 10) "".

Fixpoint str_repeat (s : string) (n : nat) : string :=
  match n with
  | O => ""
  | S n' => s ++ str_repeat s n'
  end.

Definition read_file (path : string) : M world file :=
  fun w =>
    match fs w !! path with
    | Some f => (Ok f, w)
    | None => (Raise (FileNotFoundError path), w)
    end.

(** [only_writes paths w w']: from [w] to [w'] no file outside [paths] has
    changed, and neither have the permissions or the console;
    [writes_within paths m]: so it is for every run of [m], whether it
    returns or raises. *)
Definition only_writes (paths : list string) (w w' : world) : Prop :=
  write_protected w' = write_protected w /\
  stdout_accepts w' = stdout_accepts w /\
  forall p, p ∉ paths -> fs w' !! p = fs w !! p.

Definition writes_within {A} (paths : list string) (m : M world A) : Prop :=
  forall w r w', m w = (r, w') -> only_writes paths w w'.

Definition write_file (path : string) (f : file) : M world unit :=
  let* _ := open_w path in
  put_contents path f.

(** [pd.read_csv(path)] *)
Definition read_csv (path : string) : M world DataFrame :=
  let* f := read_file path in
  match f with
  | CsvTable df => ret df
  | _ => lift (Raise (LibraryError "ParserError"))
  end.

(** ** The script *)

Definition DATA_FILE : string := "fraud_dataset.csv".
Definition MODELS_DIR : string := "../../src/main/resources/models".
Definition TEST_SIZE : Q := 0.2%Q.
Definition RANDOM_STATE : Z := 42.

Definition N_ESTIMATORS : Z := 150.
Definition MAX_DEPTH : Z := 15.
Definition MIN_SAMPLES_SPLIT : Z := 20.
Definition MIN_SAMPLES_LEAF : Z := 10.

(** The files of the encoding step, and the files of the steps after it. *)
Definition encoder_artifacts : list string := [
  MODELS_DIR ++ "/encoder_transaction_type.pkl";
  MODELS_DIR ++ "/encoder_merchant_category.pkl";
  MODELS_DIR ++ "/encoder_country.pkl"
].

Definition later_artifacts : list string := [
  MODELS_DIR ++ "/feature_importance.csv";
  MODELS_DIR ++ "/scaler.pkl";
  MODELS_DIR ++ "/fraud_model.pkl";
  MODELS_DIR ++ "/scaler_params.json";
  MODELS_DIR ++ "/model_metadata.json";
  MODELS_DIR ++ "/fraud_detection.onnx"
].

Definition create_dirs : M world unit := makedirs MODELS_DIR.

(** [fraud_count / len(df)], where [fraud_count] is the sum of a column: a
    number for a numeric column, [0] for an empty object column, a string
    for category strings *)
Definition fraud_percentage (c : column) : result unit :=
  match c with
  | Object [] => Raise ZeroDivisionError
  | Object (_ :: _) => Raise (TypeError "unsupported operand type(s) for /: str and int")
  | _ => Ok tt
  end.

Definition load_and_explore_data : M world DataFrame :=
  let* df := read_csv DATA_FILE in
  let* is_fraud := lift (df_getitem "is_fraud" df) in
  let* _ := lift (fraud_percentage is_fraud) in
  ret df.

(** One round of the encoding loop of [feature_engineering]. *)
Definition encode_column (col : string)
    (st : DataFrame * list (string * LabelEncoder))
    : result (DataFrame * list (string * LabelEncoder)) :=
  let '(df, encoders) := st in
  let le := LabelEncoder_new in
  let? c := df_getitem col df in
  let? '(le, codes) := LabelEncoder_fit_transform le c in
  let df := df_setitem (col ++ "_encoded") (Int64 codes) df in
  let encoders := dict_set col le encoders in
  Ok (df, encoders).

Definition feature_engineering (df : DataFrame)
    : M world (DataFrame * list (string * LabelEncoder)) :=
  (* df = df.copy(): the caller's table is not changed *)
  let* '(df, encoders) := lift (
    (* Numeric transformations *)
    let? amount := df_getitem "amount" df in
    let? amount_log := np_ufunc np_log1p amount in
    let df := df_setitem "amount_log" amount_log df in
    let? amount := df_getitem "amount" df in
    let? amount_sqrt := np_ufunc np_sqrt amount in
    let df := df_setitem "amount_sqrt" amount_sqrt df in
    (* Time features *)
    let? hour := df_getitem "hour" df in
    let? angle := scalar_mul (fmul (of_int 2) np_pi) hour in
    let? angle := div_scalar angle 24 in
    let? hour_sin := np_ufunc np_sin angle in
    let df := df_setitem "hour_sin" hour_sin df in
    let? hour := df_getitem "hour" df in
    let? angle := scalar_mul (fmul (of_int 2) np_pi) hour in
    let? angle := div_scalar angle 24 in
    let? hour_cos := np_ufunc np_cos angle in
    let df := df_setitem "hour_cos" hour_cos df in
    let? hour := df_getitem "hour" df in
    let? ge0 := col_ge hour 0 in
    let? hour := df_getitem "hour" df in
    let? le6 := col_le hour 6 in
    let? hour := df_getitem "hour" df in
    let? ge22 := col_ge hour 22 in
    let df := df_setitem "is_night" (astype_int (col_or (col_and ge0 le6) ge22)) df in
    let? hour := df_getitem "hour" df in
    let? ge9 := col_ge hour 9 in
    let? hour := df_getitem "hour" df in
    let? le17 := col_le hour 17 in
    let df := df_setitem "is_business_hours" (astype_int (col_and ge9 le17)) df in
    (* Encode categorical features *)
    rfoldlM encode_column ["transaction_type"; "merchant_category"; "country"] (df, [])) in
  (* Save encoders *)
  let* _ := for_each (fun '(name, encoder) =>
              write_file (MODELS_DIR ++ "/encoder_" ++ name ++ ".pkl") (PickledEncoder encoder))
            encoders in
  (* Risk score interactions *)
  let* df := lift (
    let? device := df_getitem "device_risk_score" df in
    let? ip := df_getitem "ip_risk_score" df in
    let? risk_score_product := col_mul device ip in
    let df := df_setitem "risk_score_product" risk_score_product df in
    let? device := df_getitem "device_risk_score" df in
    let? ip := df_getitem "ip_risk_score" df in
    let? total := col_add device ip in
    let? risk_score_avg := div_scalar total 2 in
    let df := df_setitem "risk_score_avg" risk_score_avg df in
    let? device := df_getitem "device_risk_score" df in
    let? ip := df_getitem "ip_risk_score" df in
    let? risk_score_max := col_max device ip in
    let df := df_setitem "risk_score_max" risk_score_max df in
    Ok df) in
  ret (df, encoders).

Definition prepare_features (df : DataFrame) : result (ndarray * column * list string) :=
  (* Feature columns (matching the order that will be used in Java) *)
  let feature_columns := [
    (* Amount features *)
    "amount";
    "amount_log";
    "amount_sqrt";
    (* Time features *)
    "hour";
    "hour_sin";
    "hour_cos";
    "is_night";
    "is_business_hours";
    (* Categorical encoded features *)
    "transaction_type_encoded";
    "merchant_category_encoded";
    "country_encoded";
    (* Risk scores *)
    "device_risk_score";
    "ip_risk_score";
    "risk_score_product";
    "risk_score_avg";
    "risk_score_max"
  ] in
  let? X := df_getitems feature_columns df in
  let? y := df_getitem "is_fraud" df in
  Ok (X, y, feature_columns).

(** [train_test_split(X, y, test_size=.., random_state=.., stratify=..)] *)
Definition train_test_split (X : ndarray) (y : column) (test_size : Q)
    (random_state : Z) (stratify : column)
    : result (ndarray * ndarray * column * column) :=
  if negb (n_samples X =? column_len y)%nat
  then Raise (ValueError "Found input variables with inconsistent numbers of samples")
  else
    let? '(train, test) :=
      train_test_indices test_size random_state (column_labels stratify) (n_samples X) in
    Ok (column_take train <$> X, column_take test <$> X,
        column_take train y, column_take test y).

Definition train_model (X_train : matrix) (y_train : column) : result RandomForestClassifier :=
  rf_fit {| n_estimators := N_ESTIMATORS;
            max_depth := MAX_DEPTH;
            min_samples_split := MIN_SAMPLES_SPLIT;
            min_samples_leaf := MIN_SAMPLES_LEAF;
            random_state := RANDOM_STATE;
            n_jobs := -1;
            class_weight := "balanced";
            verbose := 1 |} X_train y_train.

(** [cm[i, j]] *)
Definition cm_at (cm : list (list Z)) (i j : nat) : result Z :=
  match cm !! i with
  | Some row =>
      match row !! j with
      | Some v => Ok v
      | None => Raise (IndexError "index is out of bounds for axis 1")
      end
  | None => Raise (IndexError "index is out of bounds for axis 0")
  end.

(** [proba[:, 1]] *)
Definition second_column (proba : list (list float)) : result (list float) :=
  rmapM (fun row =>
           match row !! 1%nat with
           | Some v => Ok v
           | None => Raise (IndexError "index 1 is out of bounds for axis 1")
           end) proba.

Definition evaluate_model (model : RandomForestClassifier) (X_train X_test : matrix)
    (y_train y_test : column) (feature_columns : list string) : M world Metrics :=
  (* Training performance *)
  let* train_score := lift (rf_score model X_train y_train) in
  (* Test performance *)
  let* test_score := lift (rf_score model X_test y_test) in
  (* Predictions *)
  let* y_pred := lift (rf_predict model X_test) in
  let* proba := lift (rf_predict_proba model X_test) in
  let* y_pred_proba := lift (second_column proba) in
  (* Classification report *)
  let* _ := lift (classification_report y_test y_pred ["Legitimate"; "Fraud"]) in
  (* Confusion matrix *)
  let* cm := lift (confusion_matrix y_test y_pred) in
  let* _ := lift (cm_at cm 0 0) in
  let* _ := lift (cm_at cm 0 1) in
  let* _ := lift (cm_at cm 1 0) in
  let* _ := lift (cm_at cm 1 1) in
  (* ROC AUC *)
  let* roc_auc := lift (roc_auc_score y_test y_pred_proba) in
  (* Feature importance *)
  let importances := feature_importances_ model in
  let* _ := lift (if (length feature_columns =? length importances)%nat then Ok tt
                  else Raise (ValueError "All arrays must be of the same length")) in
  let order := argsort_descending importances in
  let features_sorted := omap (fun i => feature_columns !! i) order in
  let importances_sorted := omap (fun i => importances !! i) order in
  (* Save feature importance *)
  let* _ := write_file (MODELS_DIR ++ "/feature_importance.csv")
              (CsvTable [("feature", Object features_sorted);
                         ("importance", Float64 importances_sorted)]) in
  ret {| train_accuracy := train_score;
         test_accuracy := test_score;
         roc_auc := roc_auc;
         metrics_confusion_matrix := cm;
         feature_importance := zip features_sorted importances_sorted |}.

(** [scaler.mean_], [scaler.scale_] *)
Definition get_attr {A} (name : string) (attr : option A) : result A :=
  match attr with
  | Some a => Ok a
  | None => Raise (AttributeError name)
  end.

Definition save_scaler_and_model (scaler : StandardScaler) (model : RandomForestClassifier)
    (feature_columns : list string) (metrics : Metrics) : M world unit :=
  (* Save scaler *)
  let scaler_path := MODELS_DIR ++ "/scaler.pkl" in
  let* _ := write_file scaler_path (PickledScaler scaler) in
  (* Save model (sklearn format) *)
  let model_path := MODELS_DIR ++ "/fraud_model.pkl" in
  let* _ := write_file model_path (PickledModel model) in
  (* Extract scaler parameters for Java *)
  let* scaler_mean := lift (get_attr "mean_" (mean_ scaler)) in
  let* scaler_scale := lift (get_attr "scale_" (scale_ scaler)) in
  let scaler_params := {| means := scaler_mean;
                          stds := scaler_scale;
                          params_n_features := length feature_columns |} in
  let* _ := write_file (MODELS_DIR ++ "/scaler_params.json") (JsonScalerParams scaler_params) in
  (* Save metadata *)
  let metadata := {| n_features := length feature_columns;
                     feature_names := feature_columns;
                     metrics := metrics;
                     model_config := {| config_n_estimators := N_ESTIMATORS;
                                        config_max_depth := MAX_DEPTH;
                                        config_min_samples_split := MIN_SAMPLES_SPLIT;
                                        config_min_samples_leaf := MIN_SAMPLES_LEAF |} |} in
  write_file (MODELS_DIR ++ "/model_metadata.json") (JsonMetadata metadata).

(** [onnx.load(path)] *)
Definition onnx_load (path : string) : M world ModelProto :=
  let* f := read_file path in
  match f with
  | Bytes b => lift (onnx_parse b)
  | _ => lift (Raise (LibraryError "DecodeError"))
  end.

Definition convert_to_onnx (model : RandomForestClassifier) (feature_columns : list string)
    : M world bool :=
  let* _ := print (newline ++ str_repeat "=" 60) in
  let* _ := print "STEP 7: ONNX Conversion" in
  let* _ := print (str_repeat "=" 60) in
  if negb ONNX_AVAILABLE then
    let* _ := print "✗ ONNX conversion skipped - skl2onnx not installed" in
    let* _ := print "  Install with: pip install skl2onnx onnx" in
    ret false
  else
    try_except
      ((* Define input type *)
       let initial_type :=
         [("float_input", FloatTensorType [None; Some (length feature_columns)])] in
       (* Convert to ONNX *)
       let* _ := print (newline ++ "Converting model to ONNX format...") in
       let* onnx_model := lift (convert_sklearn model initial_type 12) in
       (* Save ONNX model *)
       let onnx_path := MODELS_DIR ++ "/fraud_detection.onnx" in
       let* _ := open_w onnx_path in
       let* serialized := lift (SerializeToString onnx_model) in
       let* _ := put_contents onnx_path (Bytes serialized) in
       let* _ := print ("✓ ONNX model saved: " ++ onnx_path) in
       (* Verify ONNX model *)
       let* onnx_model_check := onnx_load onnx_path in
       let* _ := lift (check_model onnx_model_check) in
       let* _ := print "✓ ONNX model validation passed" in
       ret true)
      (fun e =>
         let* _ := print ("✗ ONNX conversion failed: " ++ exn_str e) in
         ret false).

Definition main : M world unit :=
  (* Create directories *)
  let* _ := create_dirs in
  (* Load data *)
  let* df := load_and_explore_data in
  (* Feature engineering *)
  let* '(df, encoders) := feature_engineering df in
  (* Prepare features *)
  let* '(X, y, feature_columns) := lift (prepare_features df) in
  (* Split data *)
  let* '(X_train, X_test, y_train, y_test) :=
    lift (train_test_split X y TEST_SIZE RANDOM_STATE y) in
  (* Scale features *)
  let scaler := StandardScaler_new in
  let* '(scaler, X_train_scaled) := lift (StandardScaler_fit_transform scaler X_train) in
  let* X_test_scaled := lift (StandardScaler_transform scaler X_test) in
  (* Train model *)
  let* model := lift (train_model X_train_scaled y_train) in
  (* Evaluate *)
  let* metrics := evaluate_model model X_train_scaled X_test_scaled
                    y_train y_test feature_columns in
  (* Save artifacts *)
  let* _ := save_scaler_and_model scaler model feature_columns metrics in
  (* Convert to ONNX *)
  let* onnx_success := convert_to_onnx model feature_columns in
  ret tt.

(** ** Predicates of the statements below *)

(** The partitions [main] works on when it starts in [w]: the table it
    loads once the models directory is there, engineers and selects from,
    split with the fixed test fraction and seed, stratified on the label. *)
Definition main_partitions (w : world) (X_train X_test : ndarray)
    (y_train y_test : column) : Prop :=
  exists w0 df0 w1 df encoders w2 X y feature_columns,
    create_dirs w = (Ok tt, w0) /\
    load_and_explore_data w0 = (Ok df0, w1) /\
    feature_engineering df0 w1 = (Ok (df, encoders), w2) /\
    prepare_features df = Ok (X, y, feature_columns) /\
    train_test_split X y TEST_SIZE RANDOM_STATE y = Ok (X_train, X_test, y_train, y_test).

(** [raises_only Q r]: if [r] is an exception, it satisfies [Q]. *)
Definition raises_only {A} (Q : exn -> Prop) (r : result A) : Prop :=
  forall e, r = Raise e -> Q e.

(** A [KeyError] names a column the table does not have. *)
Definition names_missing_column (df : DataFrame) (e : exn) : Prop :=
  forall k, e = KeyError k -> dict_lookup k df = None.

Definition no_KeyError (e : exn) : Prop := forall k, e <> KeyError k.

(** [d] has every column of [df]. *)
Definition extends (df d : DataFrame) : Prop :=
  forall k, dict_lookup k d = None -> dict_lookup k df = None.

(** The same for a computation. *)
Definition raises_only_M {A} (Q : exn -> Prop) (m : M world A) : Prop :=
  forall w e w', m w = (Raise e, w') -> Q e.

(** [untouched_on_raise p m]: a run of [m] that raises leaves the file at
    [p] as it was. *)
Definition untouched_on_raise {A} (p : string) (m : M world A) : Prop :=
  forall w e w', m w = (Raise e, w') -> fs w' !! p = fs w !! p.

(** The same, but for the runs that raise an exception in [Q]. *)
Definition untouched_unless {A} (Q : exn -> Prop) (p : string) (m : M world A) : Prop :=
  forall w e w', m w = (Raise e, w') -> ~ Q e -> fs w' !! p = fs w !! p.

(** The columns [feature_engineering] adds. *)
Definition engineered_columns : list string := [
  "amount_log"; "amount_sqrt"; "hour_sin"; "hour_cos"; "is_night"; "is_business_hours";
  "transaction_type_encoded"; "merchant_category_encoded"; "country_encoded";
  "risk_score_product"; "risk_score_avg"; "risk_score_max"
].

(** A [KeyError] names one of [names]. *)
Definition raises_key_among (names : list string) (e : exn) : Prop :=
  forall k, e = KeyError k -> k ∈ names.

(** The columns [prepare_features] reads: the 16 features and the label. *)
Definition needed_columns : list string := [
  "amount"; "amount_log"; "amount_sqrt"; "hour"; "hour_sin"; "hour_cos";
  "is_night"; "is_business_hours"; "transaction_type_encoded";
  "merchant_category_encoded"; "country_encoded"; "device_risk_score";
  "ip_risk_score"; "risk_score_product"; "risk_score_avg"; "risk_score_max";
  "is_fraud"
].

(** The 16 features among them, in the order of the selection. *)
Definition selected_features : list string := take 16 needed_columns.

(** An exception raised by [print]. *)
Definition console_error (e : exn) : Prop := exists text, e = UnicodeEncodeError text.

(** [console_raises m]: an exception [m] raises is the [UnicodeEncodeError]
    of a text that the console [m] started on cannot encode. *)
Definition console_raises {A} (m : M world A) : Prop :=
  forall w e w', m w = (Raise e, w') ->
    exists text, e = UnicodeEncodeError text /\ stdout_accepts w text = false.

(** A console that can encode every text. *)
Definition console_accepts_all (w : world) : Prop :=
  forall text, stdout_accepts w text = true.

(** *** One row of a table

    The value of row [i] of a column with its dtype, and the arithmetic of
    single values the derived columns are stated with: a number as float64,
    its comparison with an int, and an operation on two numbers, which is
    the int64 one (wrapping around) for two int64 values and the float64
    one otherwise. *)
Definition row_value (name : string) (i : nat) (df : DataFrame) : option label :=
  match dict_lookup name df with
  | Some c => column_labels c !! i
  | None => None
  end.

Definition value_float (v : label) : option float :=
  match v with
  | LInt z => Some (of_int z)
  | LFloat x => Some x
  | LStr _ => None
  end.

Definition value_ge (v : label) (k : Z) : bool :=
  match v with
  | LInt z => k <=? z
  | LFloat x => fleb (of_int k) x
  | LStr _ => false
  end.

Definition value_le (v : label) (k : Z) : bool :=
  match v with
  | LInt z => z <=? k
  | LFloat x => fleb x (of_int k)
  | LStr _ => false
  end.

Definition value_binop (iop : Z -> Z -> Z) (fop : float -> float -> float)
    (a b : label) : option label :=
  match a, b with
  | LInt x, LInt y => Some (LInt (wrap64 (iop x y)))
  | _, _ =>
      match value_float a, value_float b with
      | Some x, Some y => Some (LFloat (fop x y))
      | _, _ => None
      end
  end.

(** *** Well-formed tables

    A column of numbers; and a table that, apart from the column [c], has
    the raw columns of the dataset: numbers for the amount, the hour, the
    two risk scores and the label, category strings for the three
    categorical columns. *)
Definition numeric (c : column) : Prop :=
  match c with
  | Object _ => False
  | _ => True
  end.

Definition well_formed_except (c : string) (df : DataFrame) : Prop :=
  (forall name,
     name ∈ ["amount"; "hour"; "device_risk_score"; "ip_risk_score"; "is_fraud"] ->
     name <> c -> exists col, dict_lookup name df = Some col /\ numeric col) /\
  (forall name,
     name ∈ ["transaction_type"; "merchant_category"; "country"] ->
     name <> c -> exists strs, dict_lookup name df = Some (Object strs)).

End Pipeline.

(** ** A symbolic implementation of the interfaces

    Floats are expressions over the ufuncs, not rounded values, and the
    learner is a stub that remembers the shape of its training data.  It
    serves to run the script on sample tables. *)

Module Sample.

Inductive sym : Type :=
| SInt (z : Z)
| SPi
| SAdd (a b : sym)
| SSub (a b : sym)
| SMul (a b : sym)
| SDiv (a b : sym)
| SMax (a b : sym)
| SLog1p (a : sym)
| SSqrt (a : sym)
| SSin (a : sym)
| SCos (a : sym).

Fixpoint sym_eqb (a b : sym) : bool :=
  match a, b with
  | SInt x, SInt y => (x =? y)%Z
  | SPi, SPi => true
  | SAdd a1 a2, SAdd b1 b2 | SSub a1 a2, SSub b1 b2 | SMul a1 a2, SMul b1 b2
  | SDiv a1 a2, SDiv b1 b2 | SMax a1 a2, SMax b1 b2 => sym_eqb a1 b1 && sym_eqb a2 b2
  | SLog1p a1, SLog1p b1 | SSqrt a1, SSqrt b1 | SSin a1, SSin b1 | SCos a1, SCos b1 =>
      sym_eqb a1 b1
  | _, _ => false
  end.

Definition sym_leb (a b : sym) : bool :=
  match a, b with
  | SInt x, SInt y => (x <=? y)%Z
  | _, _ => false
  end.

Definition sym_ltb (a b : sym) : bool :=
  match a, b with
  | SInt x, SInt y => (x <? y)%Z
  | _, _ => false
  end.

Definition sym_mean (l : list sym) : sym :=
  SDiv (foldr SAdd (SInt 0) l) (SInt (Z.of_nat (length l))).

Definition sym_scale (l : list sym) : sym :=
  SSqrt (sym_mean ((fun x => SMul (SSub x (sym_mean l)) (SSub x (sym_mean l))) <$> l)).

#[export] Instance sym_numpy : Numpy := {|
  float := sym;
  of_int := SInt;
  np_pi := SPi;
  fadd := SAdd;
  fsub := SSub;
  fmul := SMul;
  fdiv := SDiv;
  fmax := SMax;
  fleb := sym_leb;
  fltb := sym_ltb;
  feqb := sym_eqb;
  np_log1p := SLog1p;
  np_sqrt := SSqrt;
  np_sin := SSin;
  np_cos := SCos;
  np_mean := sym_mean;
  np_scale := sym_scale;
  index_repr := fun names =>
    "Index([" ++ String.concat ", " ((fun name => "'" ++ name ++ "'") <$> names)
      ++ "], dtype='object')"
|}.

(** The message an exception of the sample learners carries. *)
Definition sample_exn_str (e : exn) : string :=
  match e with
  | KeyError msg | TypeError msg | ValueError msg | IndexError msg
  | AttributeError msg | LibraryError msg | UnicodeEncodeError msg => msg
  | FileNotFoundError path | FileExistsError path | PermissionError path => path
  | ZeroDivisionError => "division by zero"
  | NotFittedError => "not fitted"
  end.

(** every fifth row goes to the test partition *)
Definition every_fifth (n : nat) : list nat * list nat :=
  (filter (fun i => (i mod 5 <> 4)%nat) (seq 0 n),
   filter (fun i => (i mod 5 = 4)%nat) (seq 0 n)).

(** A stub learner: the fitted object is the number of features, it
    predicts class 0 everywhere.  [onnx_ok] says whether the exported graph
    passes the checker. *)
Definition stub_sklearn (available onnx_ok : bool) : Sklearn := {|
  train_test_indices := fun _ _ _ n => Ok (every_fifth n);
  RandomForestClassifier := nat;
  rf_fit := fun _ X _ => Ok (length X);
  rf_score := fun _ _ _ => Ok (SInt 1);
  rf_predict := fun _ X => Ok (Int64 (repeat 0 (length (default [] (head X)))));
  rf_predict_proba := fun _ X => Ok (repeat [SInt 1; SInt 0] (length (default [] (head X))));
  feature_importances_ := fun model => repeat (SInt 0) model;
  classification_report := fun _ _ _ => Ok "";
  confusion_matrix := fun y _ => Ok [[Z.of_nat (column_len y); 0]; [0; 0]];
  roc_auc_score := fun _ _ => Ok (SInt 0);
  argsort_descending := fun l => seq 0 (length l);
  ONNX_AVAILABLE := available;
  ModelProto := nat;
  convert_sklearn := fun model _ _ => Ok model;
  SerializeToString := fun proto => Ok (repeat Byte.x00 proto);
  onnx_parse := fun b => Ok (length b);
  check_model := fun _ => if onnx_ok then Ok tt else Raise (LibraryError "ValidationError");
  exn_str := sample_exn_str
|}.

(** A table of five transactions with the expected columns. *)
Definition transactions : DataFrame := [
  ("amount", Float64 [SInt 120; SInt 15; SInt 9800; SInt 42; SInt 310]);
  ("hour", Int64 [3; 10; 23; 14; 7]);
  ("transaction_type", Object ["purchase"; "transfer"; "purchase"; "withdrawal"; "transfer"]);
  ("merchant_category", Object ["retail"; "travel"; "retail"; "food"; "food"]);
  ("country", Object ["TN"; "FR"; "TN"; "TN"; "DE"]);
  ("device_risk_score", Float64 [SInt 1; SInt 2; SInt 9; SInt 1; SInt 3]);
  ("ip_risk_score", Float64 [SInt 2; SInt 1; SInt 8; SInt 1; SInt 5]);
  ("is_fraud", Int64 [0; 0; 1; 0; 0])
].

(** The dataset file alone, on a console that encodes everything. *)
Definition disk `{sk : Sklearn} (df : DataFrame) : world :=
  {| fs := {[ DATA_FILE := CsvTable df ]};
     write_protected := ∅;
     dirs := ∅;
     stdout_accepts := fun _ => true |}.

(** The learner with the converter installed and a valid export, and the
    table after feature engineering. *)
Definition sk_ok : Sklearn := stub_sklearn true true.

Definition engineered : DataFrame :=
  match (@feature_engineering _ sk_ok transactions (disk transactions)).1 with
  | Ok (df, _) => df
  | Raise _ => []
  end.

Definition encoders : list (string * LabelEncoder) :=
  match (@feature_engineering _ sk_ok transactions (disk transactions)).1 with
  | Ok (_, encs) => encs
  | Raise _ => []
  end.

(** The file system after a run on the five transactions. *)
Definition final : world := (@main _ sk_ok (disk transactions)).2.

(** The same table without its label column, and without its amount
    column. *)
Definition unlabelled : DataFrame := take 7 transactions.
Definition no_amount : DataFrame := drop 1 transactions.

(** One transaction whose hour is negative. *)
Definition negative_hour : DataFrame := [
  ("amount", Float64 [SInt 120]);
  ("hour", Int64 [-1]);
  ("transaction_type", Object ["purchase"]);
  ("merchant_category", Object ["retail"]);
  ("country", Object ["TN"]);
  ("device_risk_score", Float64 [SInt 1]);
  ("ip_risk_score", Float64 [SInt 2]);
  ("is_fraud", Int64 [0])
].

Definition engineered_negative_hour : DataFrame :=
  match (@feature_engineering _ sk_ok negative_hour (disk negative_hour)).1 with
  | Ok (df, _) => df
  | Raise _ => []
  end.

(** A table without its country column whose amounts are not numbers. *)
Definition garbled : DataFrame := [
  ("amount", Object ["n/a"]);
  ("hour", Int64 [3]);
  ("transaction_type", Object ["purchase"]);
  ("merchant_category", Object ["retail"]);
  ("device_risk_score", Float64 [SInt 1]);
  ("ip_risk_score", Float64 [SInt 2]);
  ("is_fraud", Int64 [0])
].

(** One transaction whose risk scores are large integers. *)
Definition large_scores : DataFrame := [
  ("amount", Float64 [SInt 120]);
  ("hour", Int64 [12]);
  ("transaction_type", Object ["purchase"]);
  ("merchant_category", Object ["retail"]);
  ("country", Object ["TN"]);
  ("device_risk_score", Int64 [2 ^ 62]);
  ("ip_risk_score", Int64 [2 ^ 62]);
  ("is_fraud", Int64 [0])
].

Definition engineered_large_scores : DataFrame :=
  match (@feature_engineering _ sk_ok large_scores (disk large_scores)).1 with
  | Ok (df, _) => df
  | Raise _ => []
  end.

(** The worlds after feature engineering of the five transactions, and
    after the run on the table without its amount column. *)
Definition engineered_world : @world sym_numpy sk_ok :=
  (@feature_engineering _ sk_ok transactions (disk transactions)).2.

Definition aborted : @world sym_numpy sk_ok := (@main _ sk_ok (disk no_amount)).2.

(** The table without its device risk score, and the world after feature
    engineering has failed on it. *)
Definition no_device : DataFrame := (take 5 transactions ++ drop 6 transactions)%list.

Definition no_device_world : @world sym_numpy sk_ok :=
  (@feature_engineering _ sk_ok no_device (disk no_device)).2.

(** An empty file system, and one where the importance table cannot be
    written. *)
Definition blank `{sk : Sklearn} : world :=
  {| fs := ∅; write_protected := ∅; dirs := ∅; stdout_accepts := fun _ => true |}.

Definition locked : @world sym_numpy sk_ok :=
  {| fs := ∅;
     write_protected := {[ MODELS_DIR ++ "/feature_importance.csv" ]};
     dirs := ∅;
     stdout_accepts := fun _ => true |}.

(** An empty file system on a console whose encoding is ASCII. *)
Definition ascii_only (text : string) : bool :=
  forallb (fun c => (Ascii.N_of_ascii c <? 128)%N) (list_ascii_of_string text).

Definition teletype `{sk : Sklearn} : world :=
  {| fs := ∅; write_protected := ∅; dirs := ∅; stdout_accepts := ascii_only |}.

(** A learner whose exported graph cannot be serialized. *)
Definition stub_unserializable : Sklearn := {|
  train_test_indices := fun _ _ _ n => Ok (every_fifth n);
  RandomForestClassifier := nat;
  rf_fit := fun _ X _ => Ok (length X);
  rf_score := fun _ _ _ => Ok (SInt 1);
  rf_predict := fun _ X => Ok (Int64 (repeat 0 (length (default [] (head X)))));
  rf_predict_proba := fun _ X => Ok (repeat [SInt 1; SInt 0] (length (default [] (head X))));
  feature_importances_ := fun model => repeat (SInt 0) model;
  classification_report := fun _ _ _ => Ok "";
  confusion_matrix := fun y _ => Ok [[Z.of_nat (column_len y); 0]; [0; 0]];
  roc_auc_score := fun _ _ => Ok (SInt 0);
  argsort_descending := fun l => seq 0 (length l);
  ONNX_AVAILABLE := true;
  ModelProto := nat;
  convert_sklearn := fun model _ _ => Ok model;
  SerializeToString := fun _ => Raise (LibraryError "EncodeError");
  onnx_parse := fun b => Ok (length b);
  check_model := fun _ => Ok tt;
  exn_str := sample_exn_str
|}.

(** The ONNX step on the ASCII console, with the converter installed and
    without it. *)
Definition refused : result bool * @world sym_numpy sk_ok :=
  @convert_to_onnx _ sk_ok 3%nat ["amount"] (teletype (sk := sk_ok)).

Definition refused_skip : result bool * @world sym_numpy (stub_sklearn false true) :=
  @convert_to_onnx _ (stub_sklearn false true) 3%nat ["amount"]
    (teletype (sk := stub_sklearn false true)).

(** The world after a run without the dataset file. *)
Definition no_dataset : @world sym_numpy sk_ok := (@main _ sk_ok (blank (sk := sk_ok))).2.

(** A fitted scaler for one feature, and the metrics of an evaluation. *)
Definition fitted : StandardScaler :=
  {| mean_ := Some [SInt 3]; scale_ := Some [SInt 2] |}.

Definition sample_metrics : Metrics :=
  {| train_accuracy := SInt 1; test_accuracy := SInt 1; roc_auc := SInt 0;
     metrics_confusion_matrix := [[4; 0]; [0; 1]];
     feature_importance := [("amount", SInt 0)] |}.

Definition evaluated : result Metrics * @world sym_numpy sk_ok :=
  @evaluate_model _ sk_ok 2%nat [[SInt 1]; [SInt 2]] [[SInt 1]; [SInt 2]]
    (Int64 [0]) (Int64 [0]) ["amount"; "hour"] (blank (sk := sk_ok)).

Definition saved : @world sym_numpy sk_ok :=
  (@save_scaler_and_model _ sk_ok fitted 1%nat ["amount"] sample_metrics
     (blank (sk := sk_ok))).2.

End Sample.

(** * Properties *)

(** ** Results and computations *)

Lemma rbind_ok_inv {A B} (r : result A) (k : A -> result B) (b : B) :
  rbind r k = Ok b -> exists a, r = Ok a /\ k a = Ok b.
Proof. destruct r as [a|e]; simpl; [eauto | discriminate]. Qed.

Lemma bind_ok_inv {W A B} (m : M W A) (k : A -> M W B) (w w' : W) (b : B) :
  bind m k w = (Ok b, w') -> exists a w1, m w = (Ok a, w1) /\ k a w1 = (Ok b, w').
Proof.
  unfold bind. destruct (m w) as [[a|e] w1]; [eauto | discriminate].
Qed.

Lemma lift_ok_inv {W A} (r : result A) (w w' : W) (a : A) :
  lift r w = (Ok a, w') -> r = Ok a /\ w' = w.
Proof. unfold lift. intros H. by inversion H. Qed.

Lemma ret_inv {W A} (a b : A) (w w' : W) :
  ret a w = (Ok b, w') -> b = a /\ w' = w.
Proof. unfold ret. intros H. by inversion H. Qed.

Lemma rmapM_length {A B} (f : A -> result B) (l : list A) (l' : list B) :
  rmapM f l = Ok l' -> length l' = length l.
Proof.
  revert l'. induction l as [|x l IH]; simpl; intros l' H.
  - by inversion H.
  - apply rbind_ok_inv in H as (y & _ & H).
    apply rbind_ok_inv in H as (ys & Hys & H).
    inversion H; subst. simpl. f_equal. by apply IH.
Qed.

(** ** Dictionaries and tables *)

Lemma dict_lookup_set_eq {V} (k : string) (v : V) (d : list (string * V)) :
  dict_lookup k (dict_set k v d) = Some v.
Proof.
  induction d as [|[k0 v0] d IH]; simpl.
  - by rewrite String.eqb_refl.
  - destruct (String.eqb k0 k) eqn:E; simpl; rewrite E; [done | apply IH].
Qed.

Lemma dict_lookup_set_ne {V} (k k' : string) (v : V) (d : list (string * V)) :
  String.eqb k k' = false -> dict_lookup k' (dict_set k v d) = dict_lookup k' d.
Proof.
  intros Hne. induction d as [|[k0 v0] d IH]; simpl.
  - by rewrite Hne.
  - destruct (String.eqb k0 k) eqn:E; simpl.
    + apply String.eqb_eq in E as ->. by rewrite Hne.
    + destruct (String.eqb k0 k'); [done | apply IH].
Qed.

(** Inversion of successful runs: every [Ok] result of a chain of binds
    gives the [Ok] result of each step. *)
Ltac invert_ok H :=
  repeat first
    [ apply rbind_ok_inv in H as (? & ? & H)
    | apply bind_ok_inv in H as (? & ? & ? & H) ].

Ltac invert_pure H :=
  let E := fresh "E" in
  apply lift_ok_inv in H as [H E]; try subst.

Section Properties.
Context {np : Numpy} {sk : Sklearn}.

Lemma df_getitem_setitem_eq (k : string) (c : column) (df : DataFrame) :
  df_getitem k (df_setitem k c df) = Ok c.
Proof. unfold df_getitem, df_setitem. by rewrite dict_lookup_set_eq. Qed.

Lemma df_getitem_setitem_ne (k k' : string) (c : column) (df : DataFrame) :
  String.eqb k k' = false -> df_getitem k' (df_setitem k c df) = df_getitem k' df.
Proof. intros H. unfold df_getitem, df_setitem. by rewrite dict_lookup_set_ne. Qed.

Lemma df_getitem_ok (k : string) (df : DataFrame) (c : column) :
  df_getitem k df = Ok c <-> dict_lookup k df = Some c.
Proof.
  unfold df_getitem. destruct (dict_lookup k df); split; intros H; by inversion H.
Qed.

Lemma encode_column_inv col df encoders df' encoders' :
  encode_column col (df, encoders) = Ok (df', encoders') ->
  exists c codes,
    df_getitem col df = Ok c /\
    LabelEncoder_transform (LabelEncoder_fit c) c = Ok codes /\
    df' = df_setitem (col ++ "_encoded") (Int64 codes) df /\
    encoders' = dict_set col (LabelEncoder_fit c) encoders.
Proof.
  unfold encode_column, LabelEncoder_fit_transform. intros H.
  apply rbind_ok_inv in H as (c & Hc & H).
  apply rbind_ok_inv in H as ([le codes] & Hle & H).
  apply rbind_ok_inv in Hle as (codes' & Hcodes & Hle).
  inversion Hle; subst. inversion H; subst. eauto 10.
Qed.

(** Two paths built from constants are different. *)
Ltac paths_differ :=
  let E := fresh "E" in intros E; vm_compute in E; discriminate E.

(** A successful run of [feature_engineering], step by step. *)
Ltac fe_invert H :=
  let Hpure := fresh "Hpure" in
  let Hsave := fresh "Hsave" in
  let Hrisk := fresh "Hrisk" in
  unfold feature_engineering in H;
  apply bind_ok_inv in H as ([? ?] & ? & Hpure & H);
  invert_pure Hpure; invert_ok Hpure;
  repeat match goal with
  | x : (DataFrame * list (string * LabelEncoder))%type |- _ => destruct x
  | E : encode_column _ _ = Ok _ |- _ =>
      apply encode_column_inv in E as (? & ? & ? & ? & ? & ?)
  end;
  inversion Hpure; subst; clear Hpure;
  apply bind_ok_inv in H as ([] & ? & Hsave & H);
  apply bind_ok_inv in H as (? & ? & Hrisk & H);
  invert_pure Hrisk; invert_ok Hrisk;
  apply ret_inv in H as [H ->];
  inversion Hrisk; subst; clear Hrisk; inversion H; subst; clear H;
  simpl in *;
  rewrite ?df_getitem_setitem_ne in * by reflexivity.

(** Reads of one column of the input table all return the same column. *)
Ltac same_column Hlookup :=
  repeat match goal with
  | E : df_getitem ?k ?df = Ok ?c |- _ =>
      match type of Hlookup with
      | dict_lookup k df = Some _ =>
          apply df_getitem_ok in E; rewrite Hlookup in E; inversion E; subst; clear E
      end
  end.

Ltac lookup_column :=
  unfold row_float, row_int, df_setitem;
  rewrite ?dict_lookup_set_ne by reflexivity;
  rewrite dict_lookup_set_eq.

Lemma np_ufunc_inv f c l c' :
  as_float c = Ok l -> np_ufunc f c = Ok c' -> c' = Float64 (f <$> l).
Proof. unfold np_ufunc. intros -> H. simpl in H. by inversion H. Qed.

Lemma scalar_mul_inv k c l c' :
  as_float c = Ok l -> scalar_mul k c = Ok c' -> c' = Float64 (fmul k <$> l).
Proof. unfold scalar_mul. intros -> H. simpl in H. by inversion H. Qed.

Lemma div_scalar_inv k c l c' :
  as_float c = Ok l -> div_scalar c k = Ok c' ->
  c' = Float64 ((fun x => fdiv x (of_int k)) <$> l).
Proof. unfold div_scalar. intros -> H. simpl in H. by inversion H. Qed.

(** ** Label encoders *)

Lemma exact_label_str (s : string) : exact_label (LStr s).
Proof.
  split; simpl; [apply String.eqb_refl |].
  intros [z|f|t]; simpl; try discriminate.
  by intros ->%String.eqb_eq.
Qed.

Lemma elem_of_insert_unique (x y : label) (l : list label) :
  exact_label x -> y ∈ insert_unique x l <-> y = x \/ y ∈ l.
Proof.
  intros [_ Hx]. induction l as [|z l IH]; simpl.
  - rewrite list_elem_of_singleton, elem_of_nil. tauto.
  - destruct (label_eqb x z) eqn:E.
    + apply Hx in E as ->. rewrite elem_of_cons. tauto.
    + destruct (label_ltb x z).
      * rewrite (elem_of_cons (z :: l)). tauto.
      * rewrite !elem_of_cons, IH. tauto.
Qed.

Lemma elem_of_np_unique (y : label) (l : list label) :
  Forall exact_label l -> y ∈ np_unique l <-> y ∈ l.
Proof.
  induction 1 as [|x l Hx _ IH]; simpl; [done |].
  rewrite elem_of_insert_unique, IH, elem_of_cons by done. tauto.
Qed.

Lemma index_of_Some (x : label) (l : list label) (i : nat) :
  index_of x l = Some i -> exists y, l !! i = Some y /\ label_eqb x y = true.
Proof.
  revert i. induction l as [|z l IH]; simpl; intros i H; [discriminate |].
  destruct (label_eqb x z) eqn:E.
  - inversion H; subst. eauto.
  - destruct (index_of x l) as [j|]; [|discriminate].
    inversion H; subst. simpl. by apply IH.
Qed.

Lemma index_of_elem (x : label) (l : list label) :
  label_eqb x x = true -> x ∈ l -> is_Some (index_of x l).
Proof.
  intros Hx. induction l as [|z l IH]; simpl; intros Hin.
  - by apply elem_of_nil in Hin.
  - destruct (label_eqb x z) eqn:E; [eauto |].
    apply elem_of_cons in Hin as [-> | Hin]; [congruence |].
    destruct (IH Hin) as [j ->]. simpl. eauto.
Qed.

Lemma index_of_None (x : label) (l : list label) :
  exact_label x -> x ∉ l -> index_of x l = None.
Proof.
  intros [_ Hx] Hnot. destruct (index_of x l) as [i|] eqn:E; [|done].
  apply index_of_Some in E as (y & Hy & Heq).
  apply Hx in Heq as ->. apply list_elem_of_lookup_2 in Hy. done.
Qed.

Lemma Forall_exact_strings (strs : list string) :
  Forall exact_label (LStr <$> strs).
Proof. apply Forall_fmap, Forall_forall. intros s _. apply exact_label_str. Qed.

Lemma LabelEncoder_known (strs : list string) (s : string) :
  s ∈ strs ->
  exists i, LabelEncoder_transform (LabelEncoder_fit (Object strs)) (Object [s]) = Ok [i] /\
            LabelEncoder_inverse_transform (LabelEncoder_fit (Object strs)) [i] = Ok [LStr s].
Proof.
  intros Hs. unfold LabelEncoder_transform, LabelEncoder_inverse_transform. simpl.
  set (classes := np_unique (LStr <$> strs)).
  assert (Hin : LStr s ∈ classes).
  { apply elem_of_np_unique; [apply Forall_exact_strings |].
    by apply list_elem_of_fmap_2. }
  destruct (index_of_elem (LStr s) classes) as [i Hi]; [apply String.eqb_refl | done |].
  apply index_of_Some in Hi as Hi'. destruct Hi' as (y & Hy & Heq).
  apply exact_label_str in Heq as ->.
  exists (Z.of_nat i). unfold transform_label, inverse_label. rewrite Hi. simpl.
  destruct (Z.of_nat i <? 0) eqn:E; [apply Z.ltb_lt in E; lia |].
  by rewrite Nat2Z.id, Hy.
Qed.

Lemma LabelEncoder_unseen (strs : list string) (s : string) :
  s ∉ strs ->
  LabelEncoder_transform (LabelEncoder_fit (Object strs)) (Object [s]) =
    Raise (ValueError "y contains previously unseen labels").
Proof.
  intros Hs. unfold LabelEncoder_transform. simpl. unfold transform_label.
  rewrite index_of_None; [done | apply exact_label_str |].
  rewrite elem_of_np_unique by apply Forall_exact_strings.
  intros (t & [= ->] & Ht)%list_elem_of_fmap. done.
Qed.

Lemma as_float_row c l i v :
  as_float c = Ok l -> column_labels c !! i = Some v ->
  exists x, value_float v = Some x /\ l !! i = Some x.
Proof.
  destruct c as [l0|l0|[|s l0]]; simpl; intros [= <-] H; [ | | by destruct i];
    rewrite ?list_lookup_fmap in *;
    destruct (l0 !! i) as [z|]; try discriminate; inversion H; subst; simpl; eauto.
Qed.

Lemma col_ge_row c k l i v :
  col_ge c k = Ok l -> column_labels c !! i = Some v -> l !! i = Some (value_ge v k).
Proof.
  destruct c as [l0|l0|[|s l0]]; simpl; intros [= <-] H; [ | | by destruct i];
    rewrite ?list_lookup_fmap in *;
    destruct (l0 !! i) as [z|]; try discriminate; by inversion H.
Qed.

Lemma col_le_row c k l i v :
  col_le c k = Ok l -> column_labels c !! i = Some v -> l !! i = Some (value_le v k).
Proof.
  destruct c as [l0|l0|[|s l0]]; simpl; intros [= <-] H; [ | | by destruct i];
    rewrite ?list_lookup_fmap in *;
    destruct (l0 !! i) as [z|]; try discriminate; by inversion H.
Qed.

Lemma col_binop_row iop fop name a b c i x y :
  col_binop iop fop name a b = Ok c ->
  column_labels a !! i = Some x -> column_labels b !! i = Some y ->
  exists v, value_binop iop fop x y = Some v /\ column_labels c !! i = Some v.
Proof.
  destruct a as [la|la|[|s la]], b as [lb|lb|[|t lb]]; simpl; intros [= <-] Hx Hy;
    rewrite ?list_lookup_fmap in *; simpl;
    rewrite ?list_lookup_fmap, ?lookup_zip_with, ?list_lookup_fmap;
    try (destruct (la !! i) as [u|]; [| discriminate]);
    try (destruct (lb !! i) as [u'|]; [| discriminate]);
    try discriminate;
    inversion Hx; inversion Hy; subst; simpl; eauto.
Qed.

Ltac lookup_row :=
  unfold row_value, df_setitem;
  rewrite ?dict_lookup_set_ne by reflexivity;
  rewrite dict_lookup_set_eq.

(** C3 (as amended): every derived column of a row is the stated function
    of the raw columns of that row, in the arithmetic of the columns'
    dtypes: amount_log = log1p(amount), amount_sqrt = sqrt(amount), hour_sin
    and hour_cos the sine and cosine of 2*pi*hour/24, is_night = 1 exactly
    when 0 <= hour <= 6 or hour >= 22, is_business_hours = 1 exactly when
    9 <= hour <= 17, risk_score_product the product, risk_score_avg the sum
    divided by 2 and risk_score_max the maximum of the two risk scores,
    where product, sum and maximum are those of float64 unless both scores
    are int64, and then those of int64, which wrap around at 64 bits. *)
Theorem feature_engineering_derived_columns
    (df df' : DataFrame) (encs : list (string * LabelEncoder)) (w w' : world)
    (i : nat) (a h d p : label) :
  feature_engineering df w = (Ok (df', encs), w') ->
  row_value "amount" i df = Some a ->
  row_value "hour" i df = Some h ->
  row_value "device_risk_score" i df = Some d ->
  row_value "ip_risk_score" i df = Some p ->
  exists amount hour product total total_float maximum,
    value_float a = Some amount /\
    value_float h = Some hour /\
    row_value "amount_log" i df' = Some (LFloat (np_log1p amount)) /\
    row_value "amount_sqrt" i df' = Some (LFloat (np_sqrt amount)) /\
    row_value "hour_sin" i df' =
      Some (LFloat (np_sin (fdiv (fmul (fmul (of_int 2) np_pi) hour) (of_int 24)))) /\
    row_value "hour_cos" i df' =
      Some (LFloat (np_cos (fdiv (fmul (fmul (of_int 2) np_pi) hour) (of_int 24)))) /\
    row_value "is_night" i df' =
      Some (LInt (if value_ge h 0 && value_le h 6 || value_ge h 22 then 1 else 0)) /\
    row_value "is_business_hours" i df' =
      Some (LInt (if value_ge h 9 && value_le h 17 then 1 else 0)) /\
    value_binop Z.mul fmul d p = Some product /\
    row_value "risk_score_product" i df' = Some product /\
    value_binop Z.add fadd d p = Some total /\
    value_float total = Some total_float /\
    row_value "risk_score_avg" i df' = Some (LFloat (fdiv total_float (of_int 2))) /\
    value_binop Z.max fmax d p = Some maximum /\
    row_value "risk_score_max" i df' = Some maximum.
Proof.
  intros H Ha Hh Hd Hp.
  fe_invert H.
  repeat match goal with
  | E : df_getitem _ df = Ok _ |- _ => apply df_getitem_ok in E
  end.
  repeat match goal with
  | E : dict_lookup ?k df = Some _, E' : dict_lookup ?k df = Some _ |- _ =>
      rewrite E in E'; inversion E'; subst; clear E'
  end.
  unfold row_value in Ha, Hh, Hd, Hp.
  repeat match goal with
  | E : dict_lookup ?k df = Some _, R : context [dict_lookup ?k df] |- _ =>
      rewrite E in R
  end.
  match type of Ha with
  | column_labels ?c !! i = _ =>
      assert (Hfa : exists l, as_float c = Ok l)
        by (match goal with
            | E : np_ufunc np_log1p c = Ok _ |- _ =>
                unfold np_ufunc in E; destruct (as_float c); [eauto | discriminate E]
            end)
  end.
  match type of Hh with
  | column_labels ?c !! i = _ =>
      assert (Hfh : exists l, as_float c = Ok l)
        by (match goal with
            | E : scalar_mul _ c = Ok _ |- _ =>
                unfold scalar_mul in E; destruct (as_float c); [eauto | discriminate E]
            end)
  end.
  destruct Hfa as (amounts & Hfa), Hfh as (hours & Hfh).
  destruct (as_float_row _ _ _ _ Hfa Ha) as (amount & Hamount_float & Hamount_row).
  destruct (as_float_row _ _ _ _ Hfh Hh) as (hour & Hhour_float & Hhour_row).
  repeat match goal with
  | E : np_ufunc _ _ = Ok _ |- _ => eapply np_ufunc_inv in E; [subst | done]
  | E : scalar_mul _ _ = Ok _ |- _ => eapply scalar_mul_inv in E; [subst | done]
  | E : div_scalar (Float64 _) _ = Ok _ |- _ =>
      eapply div_scalar_inv in E; [subst | reflexivity]
  | E : col_ge _ _ = Ok _ |- _ => eapply col_ge_row in E; [| exact Hh]
  | E : col_le _ _ = Ok _ |- _ => eapply col_le_row in E; [| exact Hh]
  end.
  repeat match goal with
  | E : col_mul _ _ = Ok _ |- _ =>
      eapply col_binop_row in E; [| exact Hd | exact Hp]; destruct E as (? & ? & ?)
  | E : col_add _ _ = Ok _ |- _ =>
      eapply col_binop_row in E; [| exact Hd | exact Hp]; destruct E as (? & ? & ?)
  | E : col_max _ _ = Ok _ |- _ =>
      eapply col_binop_row in E; [| exact Hd | exact Hp]; destruct E as (? & ? & ?)
  end.
  match goal with
  | E : div_scalar ?total _ = Ok _, R : column_labels ?total !! i = Some ?v |- _ =>
      let Ht := fresh "Ht" in
      assert (Ht : exists l, as_float total = Ok l)
        by (unfold div_scalar in E; destruct (as_float total); [eauto | discriminate E]);
      destruct Ht as [totals Ht];
      destruct (as_float_row _ _ _ _ Ht R) as (total_float & Htotal_float & Htotal_row);
      eapply div_scalar_inv in E; [| exact Ht]
  end.
  subst. do 6 eexists.
  split; [exact Hamount_float |]. split; [exact Hhour_float |].
  repeat match goal with
  | |- _ /\ _ => split
  end;
    try eassumption;
    lookup_row; unfold astype_int, col_or, col_and; simpl;
    rewrite ?list_lookup_fmap, ?lookup_zip_with, ?list_lookup_fmap;
    repeat match goal with
    | R : _ !! i = Some _ |- _ => rewrite R
    end;
    try done.
Qed.

(** C9: for a row whose hour is in 0..23, at most one of is_night and
    is_business_hours is 1 after feature engineering. *)
Theorem night_and_business_hours_exclusive
    (df df' : DataFrame) (encs : list (string * LabelEncoder)) (w w' : world)
    (hour : list Z) (i : nat) (h : Z) :
  feature_engineering df w = (Ok (df', encs), w') ->
  dict_lookup "hour" df = Some (Int64 hour) ->
  hour !! i = Some h ->
  0 <= h <= 23 ->
  exists n b,
    row_int "is_night" i df' = Some n /\
    row_int "is_business_hours" i df' = Some b /\
    (n = 0 \/ n = 1) /\ (b = 0 \/ b = 1) /\
    ~ (n = 1 /\ b = 1).
Proof.
  intros H Hhour Hh Hrange.
  fe_invert H. same_column Hhour.
  repeat match goal with
  | E : col_ge (Int64 _) _ = Ok _ |- _ => inversion E; subst; clear E
  | E : col_le (Int64 _) _ = Ok _ |- _ => inversion E; subst; clear E
  end.
  exists (Z.b2z ((0 <=? h) && (h <=? 6) || (22 <=? h))), (Z.b2z ((9 <=? h) && (h <=? 17))).
  split; [|split].
  - lookup_column. unfold astype_int, col_or, col_and.
    by rewrite list_lookup_fmap, !lookup_zip_with, !list_lookup_fmap, Hh.
  - lookup_column. unfold astype_int, col_and.
    by rewrite list_lookup_fmap, !lookup_zip_with, !list_lookup_fmap, Hh.
  - destruct (0 <=? h) eqn:E0, (h <=? 6) eqn:E6, (22 <=? h) eqn:E22,
      (9 <=? h) eqn:E9, (h <=? 17) eqn:E17; simpl; intuition lia.
Qed.

(** C4: the encoder [feature_engineering] keeps for a categorical column
    round-trips every category string of that column through its integer
    index, and raises [ValueError] on a string that is not in the column. *)
Theorem label_encoder_round_trip
    (df df' : DataFrame) (encs : list (string * LabelEncoder)) (w w' : world)
    (col : string) (strs : list string) :
  feature_engineering df w = (Ok (df', encs), w') ->
  col ∈ ["transaction_type"; "merchant_category"; "country"] ->
  dict_lookup col df = Some (Object strs) ->
  exists le,
    dict_lookup col encs = Some le /\
    (forall s, s ∈ strs ->
       exists i, LabelEncoder_transform le (Object [s]) = Ok [i] /\
                 LabelEncoder_inverse_transform le [i] = Ok [LStr s]) /\
    (forall s, s ∉ strs ->
       exists msg, LabelEncoder_transform le (Object [s]) = Raise (ValueError msg)).
Proof.
  intros H Hcol Hstrs.
  fe_invert H.
  exists (LabelEncoder_fit (Object strs)).
  split; [|split].
  - repeat (apply elem_of_cons in Hcol as [-> | Hcol]);
      [same_column Hstrs; reflexivity .. | by apply elem_of_nil in Hcol].
  - apply LabelEncoder_known.
  - intros s Hs. eexists. by apply LabelEncoder_unseen.
Qed.

(** ** What a run writes *)

Lemma only_writes_refl paths w : only_writes paths w w.
Proof. by repeat split. Qed.

Lemma only_writes_trans paths w1 w2 w3 :
  only_writes paths w1 w2 -> only_writes paths w2 w3 -> only_writes paths w1 w3.
Proof.
  intros (Hp1 & Hc1 & Hf1) (Hp2 & Hc2 & Hf2). split; [congruence |]. split; [congruence |].
  intros p Hp. by rewrite Hf2, Hf1.
Qed.

Lemma only_writes_weaken paths paths' w w' :
  paths ⊆ paths' -> only_writes paths w w' -> only_writes paths' w w'.
Proof.
  intros Hsub (Hp & Hc & Hf). split; [done |]. split; [done |].
  intros p Hp'. apply Hf. intros Hin. by apply Hp', Hsub.
Qed.

Lemma writes_ret {A} paths (a : A) : writes_within paths (ret a).
Proof. intros w r w' H. inversion H; subst. apply only_writes_refl. Qed.

Lemma writes_lift {A} paths (r : result A) : writes_within paths (lift r).
Proof. intros w r' w' H. inversion H; subst. apply only_writes_refl. Qed.

Lemma writes_bind {A B} paths (m : M world A) (k : A -> M world B) :
  writes_within paths m -> (forall a, writes_within paths (k a)) ->
  writes_within paths (bind m k).
Proof.
  intros Hm Hk w r w' H. unfold bind in H.
  destruct (m w) as [[a|e] w1] eqn:E.
  - eapply only_writes_trans; [by eapply Hm | by eapply Hk].
  - inversion H; subst. by eapply Hm.
Qed.

Lemma writes_try_except {A} paths (m : M world A) (h : exn -> M world A) :
  writes_within paths m -> (forall e, writes_within paths (h e)) ->
  writes_within paths (try_except m h).
Proof.
  intros Hm Hh w r w' H. unfold try_except in H.
  destruct (m w) as [[a|e] w1] eqn:E.
  - inversion H; subst. by eapply Hm.
  - eapply only_writes_trans; [by eapply Hm | by eapply Hh].
Qed.

Lemma writes_open_w paths path : path ∈ paths -> writes_within paths (open_w path).
Proof.
  intros Hin w r w' H. unfold open_w in H.
  destruct (decide (path ∈ write_protected w)); inversion H; subst.
  - apply only_writes_refl.
  - split; [done |]. split; [done |].
    intros p Hp. simpl. apply lookup_insert_ne. by intros ->.
Qed.

Lemma writes_put_contents paths path f :
  path ∈ paths -> writes_within paths (put_contents path f).
Proof.
  intros Hin w r w' H. inversion H; subst. split; [done |]. split; [done |].
  intros p Hp. simpl. apply lookup_insert_ne. by intros ->.
Qed.

Lemma writes_print paths text : writes_within paths (print text).
Proof.
  intros w r w' H. unfold print in H.
  destruct (stdout_accepts w text); inversion H; subst; apply only_writes_refl.
Qed.

Lemma writes_makedirs paths path : writes_within paths (makedirs path).
Proof.
  intros w r w' H. unfold makedirs in H.
  repeat case_decide; inversion H; subst; by repeat split.
Qed.

Lemma writes_read_file paths path : writes_within paths (read_file path).
Proof.
  intros w r w' H. unfold read_file in H.
  destruct (fs w !! path); inversion H; subst; apply only_writes_refl.
Qed.

Lemma writes_write_file paths path f :
  path ∈ paths -> writes_within paths (write_file path f).
Proof.
  intros Hin. apply writes_bind; [by apply writes_open_w |].
  intros _. by apply writes_put_contents.
Qed.

Lemma writes_weaken {A} paths paths' (m : M world A) :
  paths ⊆ paths' -> writes_within paths m -> writes_within paths' m.
Proof. intros Hsub Hm w r w' H. eapply only_writes_weaken; [done | by eapply Hm]. Qed.

Lemma write_file_ok_inv path f w w' :
  write_file path f w = (Ok tt, w') ->
  (path ∉ write_protected w) /\
  w' = {| fs := <[path := f]> (fs w);
          write_protected := write_protected w;
          dirs := dirs w;
          stdout_accepts := stdout_accepts w |}.
Proof.
  unfold write_file, bind, open_w, put_contents. intros H.
  destruct (decide (path ∈ write_protected w)); [discriminate |].
  inversion H; subst. simpl. by rewrite insert_insert_eq.
Qed.

Create HintDb writes.
#[local] Hint Resolve writes_ret writes_lift writes_read_file writes_print
  writes_makedirs : writes.
#[local] Hint Extern 1 (writes_within _ (write_file _ _)) =>
  apply writes_write_file; vm_compute; set_solver : writes.
#[local] Hint Extern 1 (writes_within _ (open_w _)) =>
  apply writes_open_w; vm_compute; set_solver : writes.
#[local] Hint Extern 1 (writes_within _ (put_contents _ _)) =>
  apply writes_put_contents; vm_compute; set_solver : writes.

(** Every step of a chain of binds writes within [paths]. *)
Ltac writes_steps :=
  repeat first
    [ solve [auto with writes]
    | apply writes_bind; [| intros ?]
    | progress (repeat match goal with
                       | x : (_ * _)%type |- _ => destruct x
                       | x : unit |- _ => destruct x
                       end) ].

Lemma read_csv_writes path : writes_within [] (read_csv path).
Proof.
  unfold read_csv. apply writes_bind; [auto with writes |].
  intros []; auto with writes.
Qed.

Lemma load_and_explore_data_writes : writes_within [] load_and_explore_data.
Proof.
  unfold load_and_explore_data.
  apply writes_bind; [apply read_csv_writes |]. intros ?. writes_steps.
Qed.

Lemma lift_inv {A} (r r' : result A) (w w' : world) :
  lift r w = (r', w') -> r' = r /\ w' = w.
Proof. unfold lift. intros H. by inversion H. Qed.

Lemma feature_engineering_writes df :
  writes_within encoder_artifacts (feature_engineering df).
Proof.
  intros w r w' H. unfold feature_engineering in H.
  unfold bind at 1 in H.
  match type of H with
  | context [lift ?pure w] => destruct pure as [[df1 encs1]|e] eqn:Hpure
  end; unfold lift at 1 in H; simpl in H.
  - invert_ok Hpure.
    repeat match goal with
    | x : (DataFrame * list (string * LabelEncoder))%type |- _ => destruct x
    | E : encode_column _ _ = Ok _ |- _ =>
        apply encode_column_inv in E as (? & ? & ? & ? & ? & ?)
    end.
    inversion Hpure; subst; clear Hpure. simpl in H.
    revert w r w' H. fold (writes_within (A := DataFrame * list (string * LabelEncoder))
                             encoder_artifacts).
    writes_steps.
  - inversion H; subst. apply only_writes_refl.
Qed.

Lemma evaluate_model_writes model X_train X_test y_train y_test feature_columns :
  writes_within later_artifacts
    (evaluate_model model X_train X_test y_train y_test feature_columns).
Proof. unfold evaluate_model. writes_steps. Qed.

Lemma save_scaler_and_model_writes scaler model feature_columns metrics :
  writes_within later_artifacts
    (save_scaler_and_model scaler model feature_columns metrics).
Proof. unfold save_scaler_and_model. writes_steps. Qed.

Lemma onnx_load_writes paths path : writes_within paths (onnx_load path).
Proof.
  unfold onnx_load. apply writes_bind; [auto with writes |].
  intros []; auto with writes.
Qed.

#[local] Hint Resolve onnx_load_writes : writes.

Lemma convert_to_onnx_writes model feature_columns :
  writes_within [MODELS_DIR ++ "/fraud_detection.onnx"]
    (convert_to_onnx model feature_columns).
Proof.
  unfold convert_to_onnx.
  do 3 (apply writes_bind; [auto with writes | intros _]).
  destruct (negb ONNX_AVAILABLE); [writes_steps |].
  apply writes_try_except; [| intros e]; writes_steps.
Qed.

Lemma main_ok_inv w w' :
  main w = (Ok tt, w') ->
  exists w0 df0 w1 df encoders w2 X y feature_columns X_train X_test y_train y_test
         scaler X_train_scaled X_test_scaled model metrics w3 w4 onnx_success,
    create_dirs w = (Ok tt, w0) /\
    load_and_explore_data w0 = (Ok df0, w1) /\
    feature_engineering df0 w1 = (Ok (df, encoders), w2) /\
    prepare_features df = Ok (X, y, feature_columns) /\
    train_test_split X y TEST_SIZE RANDOM_STATE y = Ok (X_train, X_test, y_train, y_test) /\
    StandardScaler_fit_transform StandardScaler_new X_train = Ok (scaler, X_train_scaled) /\
    StandardScaler_transform scaler X_test = Ok X_test_scaled /\
    train_model X_train_scaled y_train = Ok model /\
    evaluate_model model X_train_scaled X_test_scaled y_train y_test feature_columns w2
      = (Ok metrics, w3) /\
    save_scaler_and_model scaler model feature_columns metrics w3 = (Ok tt, w4) /\
    convert_to_onnx model feature_columns w4 = (Ok onnx_success, w').
Proof.
  intros H. unfold main in H.
  repeat first
    [ apply bind_ok_inv in H as (? & ? & ? & H)
    | match type of H with
      | context [match ?x with pair _ _ => _ end] => destruct x
      end ].
  repeat match goal with
  | E : lift _ _ = (Ok _, _) |- _ => apply lift_ok_inv in E as [E ->]
  | x : unit |- _ => destruct x
  end.
  apply ret_inv in H as [_ ->].
  repeat eexists; eassumption.
Qed.

(** ** The artifacts of a successful run *)

Lemma save_scaler_and_model_ok_inv scaler model feature_columns evaluation w w' :
  save_scaler_and_model scaler model feature_columns evaluation w = (Ok tt, w') ->
  exists scaler_mean scaler_scale,
    mean_ scaler = Some scaler_mean /\
    scale_ scaler = Some scaler_scale /\
    fs w' !! (MODELS_DIR ++ "/scaler.pkl") = Some (PickledScaler scaler) /\
    fs w' !! (MODELS_DIR ++ "/scaler_params.json") =
      Some (JsonScalerParams {| means := scaler_mean;
                                stds := scaler_scale;
                                params_n_features := length feature_columns |}) /\
    exists metadata,
      fs w' !! (MODELS_DIR ++ "/model_metadata.json") = Some (JsonMetadata metadata) /\
      n_features metadata = length feature_columns /\
      feature_names metadata = feature_columns /\
      metrics metadata = evaluation.
Proof.
  unfold save_scaler_and_model. intros H.
  apply bind_ok_inv in H as ([] & w1 & H1 & H).
  apply bind_ok_inv in H as ([] & w2 & H2 & H).
  apply bind_ok_inv in H as (scaler_mean & w3 & H3 & H).
  apply bind_ok_inv in H as (scaler_scale & w4 & H4 & H).
  apply bind_ok_inv in H as ([] & w5 & H5 & H).
  apply write_file_ok_inv in H1 as [_ ->], H2 as [_ ->], H5 as [_ ->], H as [_ ->].
  apply lift_ok_inv in H3 as [H3 ->], H4 as [H4 ->].
  exists scaler_mean, scaler_scale.
  destruct (mean_ scaler), (scale_ scaler); try discriminate.
  inversion H3; inversion H4; subst. simpl.
  split; [done |]. split; [done |].
  split; [by rewrite !lookup_insert_ne, lookup_insert_eq by (by vm_compute) |].
  split; [by rewrite !lookup_insert_ne, lookup_insert_eq by (by vm_compute) |].
  eexists. split; [apply lookup_insert_eq | done].
Qed.

Lemma save_scaler_and_model_model_file scaler model feature_columns evaluation w w' :
  save_scaler_and_model scaler model feature_columns evaluation w = (Ok tt, w') ->
  fs w' !! (MODELS_DIR ++ "/fraud_model.pkl") = Some (PickledModel model).
Proof.
  unfold save_scaler_and_model. intros H.
  apply bind_ok_inv in H as ([] & ? & Hw1 & H).
  apply bind_ok_inv in H as ([] & ? & Hw2 & H).
  apply bind_ok_inv in H as (? & ? & Hm & H).
  apply bind_ok_inv in H as (? & ? & Hs & H).
  apply bind_ok_inv in H as ([] & ? & Hw5 & H).
  apply write_file_ok_inv in Hw1 as [_ ->], Hw2 as [_ ->], Hw5 as [_ ->], H as [_ ->].
  apply lift_ok_inv in Hm as [_ ->], Hs as [_ ->]. simpl.
  repeat first
    [ apply lookup_insert_eq
    | etrans; [apply lookup_insert_ne; paths_differ |] ].
Qed.

Lemma convert_to_onnx_keeps model feature_columns w r w' p :
  convert_to_onnx model feature_columns w = (r, w') ->
  p <> MODELS_DIR ++ "/fraud_detection.onnx" ->
  fs w' !! p = fs w !! p.
Proof.
  intros H Hp. apply convert_to_onnx_writes in H as (_ & _ & H).
  apply H. by intros ->%list_elem_of_singleton.
Qed.

Lemma df_getitems_ok_inv (names : list string) (df : DataFrame) (X : list column) :
  df_getitems names df = Ok X -> rmapM (fun name => df_getitem name df) names = Ok X.
Proof. unfold df_getitems. by destruct (missing_columns names df). Qed.

Lemma missing_columns_nil (names : list string) (df : DataFrame) :
  missing_columns names df = [] <-> forall name, name ∈ names -> is_Some (dict_lookup name df).
Proof.
  unfold missing_columns. induction names as [|n names IH]; simpl.
  - split; [intros _ name Hname; by apply elem_of_nil in Hname | done].
  - rewrite filter_cons. destruct (decide (dict_lookup n df = None)) as [Hn|Hn].
    + split; [done |]. intros H. destruct (H n) as [c Hc]; [by left | congruence].
    + rewrite IH. split.
      * intros H name [-> | Hname]%elem_of_cons; [| by apply H].
        by destruct (dict_lookup n df); [eexists |].
      * intros H name Hname. apply H. by right.
Qed.

Lemma rmapM_getitem_present (df : DataFrame) (names : list string) (X : list column) :
  rmapM (fun name => df_getitem name df) names = Ok X ->
  forall name, name ∈ names -> is_Some (dict_lookup name df).
Proof.
  revert X. induction names as [|n names IH]; simpl; intros X H name Hname.
  - by apply elem_of_nil in Hname.
  - apply rbind_ok_inv in H as (c & Hc & H).
    apply rbind_ok_inv in H as (X' & HX' & _).
    apply elem_of_cons in Hname as [-> | Hname]; [| by eapply IH].
    apply df_getitem_ok in Hc. eauto.
Qed.

Lemma df_getitems_ok (names : list string) (df : DataFrame) (X : list column) :
  rmapM (fun name => df_getitem name df) names = Ok X -> df_getitems names df = Ok X.
Proof.
  intros H. unfold df_getitems.
  by rewrite (proj2 (missing_columns_nil names df) (rmapM_getitem_present _ _ _ H)).
Qed.

Lemma prepare_features_inv df X y feature_columns :
  prepare_features df = Ok (X, y, feature_columns) ->
  rmapM (fun name => df_getitem name df) feature_columns = Ok X /\
  df_getitem "is_fraud" df = Ok y /\
  length feature_columns = 16%nat /\
  length X = 16%nat.
Proof.
  unfold prepare_features. intros H.
  apply rbind_ok_inv in H as (X' & HX & H).
  apply rbind_ok_inv in H as (y' & Hy & H).
  apply df_getitems_ok_inv in HX.
  inversion H; subst. repeat split; try done.
  by apply rmapM_length in HX.
Qed.

Lemma prepare_features_columns df df' X X' y y' feature_columns feature_columns' :
  prepare_features df = Ok (X, y, feature_columns) ->
  prepare_features df' = Ok (X', y', feature_columns') ->
  feature_columns' = feature_columns.
Proof.
  unfold prepare_features. intros H H'.
  apply rbind_ok_inv in H as (? & _ & H), H' as (? & _ & H').
  apply rbind_ok_inv in H as (? & _ & H), H' as (? & _ & H').
  inversion H; inversion H'; by subst.
Qed.

(** C1: the ordered list of 16 feature names from which [prepare_features]
    builds the matrix is, element for element and in the same order, the
    feature_names list of the metadata document a run writes. *)
Theorem feature_names_match_training_order (w w' : world) :
  main w = (Ok tt, w') ->
  exists metadata,
    fs w' !! (MODELS_DIR ++ "/model_metadata.json") = Some (JsonMetadata metadata) /\
    length (feature_names metadata) = 16%nat /\
    n_features metadata = 16%nat /\
    forall df X y feature_columns,
      prepare_features df = Ok (X, y, feature_columns) ->
      feature_columns = feature_names metadata /\
      rmapM (fun name => df_getitem name df) (feature_names metadata) = Ok X.
Proof.
  intros H. apply main_ok_inv in H.
  destruct H as (w0 & df0 & w1 & df & encoders & w2 & X & y & fc & X_train & X_test
                 & y_train & y_test & scaler & Xs_train & Xs_test & model & metrics
                 & w3 & w4 & b
                 & _ & _ & _ & Hprep & _ & _ & _ & _ & _ & Hsave & Honnx).
  apply save_scaler_and_model_ok_inv in Hsave
    as (_ & _ & _ & _ & _ & _ & metadata & Hfile & Hn & Hnames & _).
  pose proof (prepare_features_inv _ _ _ _ Hprep) as (_ & _ & Hlen & _).
  exists metadata. split; [|split; [|split]].
  - rewrite (convert_to_onnx_keeps _ _ _ _ _ _ Honnx); [done | paths_differ].
  - by rewrite Hnames.
  - by rewrite Hn.
  - intros df1 X1 y1 fc1 Hprep1.
    pose proof (prepare_features_columns _ _ _ _ _ _ _ _ Hprep1 Hprep) as E.
    rewrite Hnames, E.
    split; [done |]. by apply prepare_features_inv in Hprep1 as [? _].
Qed.

Lemma train_test_split_inv X y test_size seed stratify X_train X_test y_train y_test :
  train_test_split X y test_size seed stratify = Ok (X_train, X_test, y_train, y_test) ->
  exists train test,
    train_test_indices test_size seed (column_labels stratify) (n_samples X)
      = Ok (train, test) /\
    X_train = column_take train <$> X /\ X_test = column_take test <$> X /\
    y_train = column_take train y /\ y_test = column_take test y.
Proof.
  unfold train_test_split. intros H.
  destruct (negb _); [discriminate |].
  apply rbind_ok_inv in H as ([train test] & Hidx & H).
  inversion H; subst. eauto 10.
Qed.

Lemma check_array_length X cols : check_array X = Ok cols -> length cols = length X.
Proof.
  unfold check_array. intros H.
  apply rbind_ok_inv in H as (cols' & Hcols & H).
  destruct (n_samples X =? 0)%nat; [discriminate |].
  inversion H; subst. by apply rmapM_length in Hcols.
Qed.

Lemma StandardScaler_fit_inv X scaler :
  StandardScaler_fit X = Ok scaler ->
  exists cols,
    check_array X = Ok cols /\
    mean_ scaler = Some (np_mean <$> cols) /\
    scale_ scaler = Some (np_scale <$> cols).
Proof.
  unfold StandardScaler_fit. intros H.
  apply rbind_ok_inv in H as (cols & Hcols & H).
  inversion H; subst. eauto.
Qed.

Lemma StandardScaler_fit_transform_inv scaler0 X scaler Xs :
  StandardScaler_fit_transform scaler0 X = Ok (scaler, Xs) ->
  StandardScaler_fit X = Ok scaler /\ StandardScaler_transform scaler X = Ok Xs.
Proof.
  unfold StandardScaler_fit_transform. intros H.
  apply rbind_ok_inv in H as (scaler' & Hfit & H).
  apply rbind_ok_inv in H as (Xs' & Htransform & H).
  by inversion H; subst.
Qed.

Lemma StandardScaler_transform_inv scaler X Xs scaler_mean scaler_scale :
  mean_ scaler = Some scaler_mean ->
  scale_ scaler = Some scaler_scale ->
  StandardScaler_transform scaler X = Ok Xs ->
  exists cols,
    check_array X = Ok cols /\
    Xs = zip_with (fun col ms => standardize ms.1 ms.2 col) cols
           (zip scaler_mean scaler_scale).
Proof.
  unfold StandardScaler_transform. intros -> -> H.
  apply rbind_ok_inv in H as (cols & Hcols & H).
  destruct (_ =? _)%nat; [| discriminate].
  inversion H; subst. eauto.
Qed.

(** C10: in the scaler-parameters document a run writes, the means and the
    stds each have as many entries as the n_features field says, which is
    the length of the selected feature-column list, 16. *)
Theorem scaler_params_consistent (w w' : world) :
  main w = (Ok tt, w') ->
  exists params,
    fs w' !! (MODELS_DIR ++ "/scaler_params.json") = Some (JsonScalerParams params) /\
    length (means params) = params_n_features params /\
    length (stds params) = params_n_features params /\
    params_n_features params = 16%nat /\
    forall df X y feature_columns,
      prepare_features df = Ok (X, y, feature_columns) ->
      params_n_features params = length feature_columns.
Proof.
  intros H. apply main_ok_inv in H.
  destruct H as (w0 & df0 & w1 & df & encoders & w2 & X & y & fc & X_train & X_test
                 & y_train & y_test & scaler & Xs_train & Xs_test & model & evaluation
                 & w3 & w4 & b
                 & _ & _ & _ & Hprep & Hsplit & Hfit & _ & _ & _ & Hsave & Honnx).
  apply save_scaler_and_model_ok_inv in Hsave
    as (scaler_mean & scaler_scale & Hmean & Hscale & _ & Hfile & _).
  apply prepare_features_inv in Hprep as Hprep'. destruct Hprep' as (_ & _ & Hlen & HlenX).
  apply train_test_split_inv in Hsplit as (train & test & _ & -> & _).
  apply StandardScaler_fit_transform_inv in Hfit as [Hfit _].
  apply StandardScaler_fit_inv in Hfit as (cols & Hcols & Hmean' & Hscale').
  apply check_array_length in Hcols. rewrite length_fmap, HlenX in Hcols.
  rewrite Hmean in Hmean'. rewrite Hscale in Hscale'.
  inversion Hmean'; inversion Hscale'; subst.
  eexists. split; [|split; [|split; [|split]]].
  - rewrite (convert_to_onnx_keeps _ _ _ _ _ _ Honnx); [done | paths_differ].
  - simpl. by rewrite length_fmap, Hcols, Hlen.
  - simpl. by rewrite length_fmap, Hcols, Hlen.
  - done.
  - intros df1 X1 y1 fc1 Hprep1. simpl.
    by rewrite (prepare_features_columns _ _ _ _ _ _ _ _ Hprep1 Hprep).
Qed.

(** C5: in a run that completes, the scaler is fitted on the training
    partition alone: its means and standard deviations are those of the
    columns of the training partition, and they are what the run saves; the
    training and the test partition are both standardized with exactly
    these two lists, and these standardized matrices are the ones the model
    is trained on and evaluated on, with the metrics the run records. *)
Theorem scaler_fit_on_training_partition (w w' : world) :
  main w = (Ok tt, w') ->
  exists X_train X_test y_train y_test scaler train_cols test_cols params
         X_train_scaled X_test_scaled model evaluation metadata w2 w3,
    main_partitions w X_train X_test y_train y_test /\
    StandardScaler_fit X_train = Ok scaler /\
    check_array X_train = Ok train_cols /\
    mean_ scaler = Some (np_mean <$> train_cols) /\
    scale_ scaler = Some (np_scale <$> train_cols) /\
    fs w' !! (MODELS_DIR ++ "/scaler.pkl") = Some (PickledScaler scaler) /\
    fs w' !! (MODELS_DIR ++ "/scaler_params.json") = Some (JsonScalerParams params) /\
    means params = np_mean <$> train_cols /\
    stds params = np_scale <$> train_cols /\
    check_array X_test = Ok test_cols /\
    X_train_scaled =
      zip_with (fun col ms => standardize ms.1 ms.2 col) train_cols
        (zip (np_mean <$> train_cols) (np_scale <$> train_cols)) /\
    X_test_scaled =
      zip_with (fun col ms => standardize ms.1 ms.2 col) test_cols
        (zip (np_mean <$> train_cols) (np_scale <$> train_cols)) /\
    StandardScaler_transform scaler X_test = Ok X_test_scaled /\
    train_model X_train_scaled y_train = Ok model /\
    evaluate_model model X_train_scaled X_test_scaled y_train y_test
      (feature_names metadata) w2 = (Ok evaluation, w3) /\
    fs w' !! (MODELS_DIR ++ "/fraud_model.pkl") = Some (PickledModel model) /\
    fs w' !! (MODELS_DIR ++ "/model_metadata.json") = Some (JsonMetadata metadata) /\
    metrics metadata = evaluation.
Proof.
  intros H. apply main_ok_inv in H.
  destruct H as (w0 & df0 & w1 & df & encoders & w2 & X & y & fc & X_train & X_test
                 & y_train & y_test & scaler & Xs_train & Xs_test & model & evaluation
                 & w3 & w4 & b
                 & Hdirs & Hload & Hfe & Hprep & Hsplit & Hfit & Htest & Htrain & Heval
                 & Hsave & Honnx).
  pose proof (save_scaler_and_model_model_file _ _ _ _ _ _ Hsave) as Hmodel.
  apply save_scaler_and_model_ok_inv in Hsave
    as (scaler_mean & scaler_scale & Hmean & Hscale & Hpkl & Hfile
        & metadata & Hmeta & _ & Hnames & Hmetrics).
  apply StandardScaler_fit_transform_inv in Hfit as [Hfit Htrain_scaled].
  apply StandardScaler_fit_inv in Hfit as Hfit'.
  destruct Hfit' as (train_cols & Hcols & Hmean' & Hscale').
  destruct (StandardScaler_transform_inv _ _ _ _ _ Hmean' Hscale' Htest)
    as (test_cols & Htest_cols & Etest).
  destruct (StandardScaler_transform_inv _ _ _ _ _ Hmean' Hscale' Htrain_scaled)
    as (train_cols' & Hcols' & Etrain).
  rewrite Hcols in Hcols'. inversion Hcols'; subst train_cols'.
  rewrite Hmean in Hmean'. rewrite Hscale in Hscale'.
  inversion Hmean'; inversion Hscale'; subst scaler_mean scaler_scale.
  exists X_train, X_test, y_train, y_test, scaler, train_cols, test_cols,
    {| means := np_mean <$> train_cols;
       stds := np_scale <$> train_cols;
       params_n_features := length fc |},
    Xs_train, Xs_test, model, evaluation, metadata, w2, w3.
  split; [unfold main_partitions; eauto 15 |].
  do 4 (split; [done |]).
  split; [rewrite (convert_to_onnx_keeps _ _ _ _ _ _ Honnx); [done | paths_differ] |].
  split; [rewrite (convert_to_onnx_keeps _ _ _ _ _ _ Honnx); [done | paths_differ] |].
  do 7 (split; [done |]).
  split; [by rewrite Hnames |].
  split; [rewrite (convert_to_onnx_keeps _ _ _ _ _ _ Honnx); [done | paths_differ] |].
  split; [rewrite (convert_to_onnx_keeps _ _ _ _ _ _ Honnx); [done | paths_differ] |].
  done.
Qed.

(** ** The ONNX step *)

Lemma print_inv text w r w' :
  print text w = (r, w') ->
  w' = w /\
  ((r = Ok tt /\ stdout_accepts w text = true) \/
   (r = Raise (UnicodeEncodeError text) /\ stdout_accepts w text = false)).
Proof.
  unfold print. destruct (stdout_accepts w text); intros [= <- <-]; auto.
Qed.

Lemma print_ok_inv text w a w' : print text w = (Ok a, w') -> w' = w.
Proof. by intros [-> _]%print_inv. Qed.

Lemma try_except_ok_inv {A} (body : M world A) (handler : exn -> M world A) w a w' :
  try_except body handler w = (Ok a, w') ->
  body w = (Ok a, w') \/ exists e w1, body w = (Raise e, w1) /\ handler e w1 = (Ok a, w').
Proof.
  unfold try_except. destruct (body w) as [[a'|e] w1]; [by left | right; eauto].
Qed.

Lemma print_accepted text w : stdout_accepts w text = true -> print text w = (Ok tt, w).
Proof. unfold print. by intros ->. Qed.

Lemma console_ret {A} (a : A) : console_raises (ret a).
Proof. by intros w e w'. Qed.

Lemma console_print text : console_raises (print text).
Proof.
  intros w e w' H. apply print_inv in H as (_ & [[[=] _] | [[= ->] H]]). eauto.
Qed.

Lemma console_bind {A B} paths (m : M world A) (k : A -> M world B) :
  writes_within paths m -> console_raises m -> (forall a, console_raises (k a)) ->
  console_raises (bind m k).
Proof.
  intros Hw Hm Hk w e w' H. unfold bind in H.
  destruct (m w) as [[a|e'] w1] eqn:E.
  - apply Hw in E as (_ & Hc & _). apply Hk in H as (text & -> & H).
    exists text. by rewrite <- Hc.
  - inversion H; subst. by eapply Hm.
Qed.

Lemma console_try_except {A} paths (m : M world A) (h : exn -> M world A) :
  writes_within paths m -> (forall e, console_raises (h e)) ->
  console_raises (try_except m h).
Proof.
  intros Hw Hh w e w' H. unfold try_except in H.
  destruct (m w) as [[a|e'] w1] eqn:E; [discriminate |].
  apply Hw in E as (_ & Hc & _). apply Hh in H as (text & -> & H).
  exists text. by rewrite <- Hc.
Qed.

Lemma convert_to_onnx_console model feature_columns :
  console_raises (convert_to_onnx model feature_columns).
Proof.
  unfold convert_to_onnx.
  do 3 (apply (console_bind []); [apply writes_print | apply console_print | intros _]).
  destruct (negb ONNX_AVAILABLE).
  - do 2 (apply (console_bind []); [apply writes_print | apply console_print | intros _]).
    apply console_ret.
  - apply (console_try_except [MODELS_DIR ++ "/fraud_detection.onnx"]); [writes_steps |].
    intros e. apply (console_bind []); [apply writes_print | apply console_print |].
    intros _. apply console_ret.
Qed.

Lemma console_raises_error {A} (m : M world A) :
  console_raises m -> raises_only_M console_error m.
Proof. intros Hm w e w' H. apply Hm in H as (text & -> & _). by exists text. Qed.

(** Every [print] in sight goes through, on a console that accepts it. *)
Ltac accepted Hacc :=
  repeat (rewrite Hacc;
          cbv beta iota zeta delta [fs write_protected dirs stdout_accepts]).

(** The run of [convert_to_onnx] on a console that encodes every text. *)
Lemma convert_to_onnx_accepted model feature_columns w :
  console_accepts_all w ->
  exists (b : bool) (w' : world),
    convert_to_onnx model feature_columns w = (Ok b, w') /\
    (ONNX_AVAILABLE = false -> b = false /\ w' = w) /\
    (b = true <->
       ONNX_AVAILABLE = true /\
       ((MODELS_DIR ++ "/fraud_detection.onnx") ∉ write_protected w) /\
       exists onnx_model serialized onnx_model_check,
         convert_sklearn model
           [("float_input", FloatTensorType [None; Some (length feature_columns)])] 12
           = Ok onnx_model /\
         SerializeToString onnx_model = Ok serialized /\
         onnx_parse serialized = Ok onnx_model_check /\
         check_model onnx_model_check = Ok tt).
Proof.
  intros Hacc. destruct w as [files protected directories accepts].
  unfold console_accepts_all in Hacc. simpl in Hacc.
  unfold convert_to_onnx.
  cbv beta iota zeta delta
    [bind lift ret try_except open_w put_contents onnx_load read_file print
     fs write_protected dirs stdout_accepts].
  accepted Hacc.
  destruct ONNX_AVAILABLE; simpl.
  2: { accepted Hacc. eexists false, _. repeat split; try done. by intros [? _]. }
  accepted Hacc.
  destruct (convert_sklearn _ _ _) as [onnx_model|e1] eqn:E1.
  2: { accepted Hacc. eexists false, _. repeat split; try done.
       by intros (_ & _ & ? & ? & ? & ? & _). }
  destruct (decide (_ ∈ _)) as [Hin|Hnotin].
  { accepted Hacc. eexists false, _. repeat split; try done. by intros (_ & ? & _). }
  destruct (SerializeToString onnx_model) as [serialized|e2] eqn:E2.
  2: { accepted Hacc. eexists false, _. repeat split; try done.
       intros (_ & _ & ? & ? & ? & [= <-] & E & _). congruence. }
  accepted Hacc. rewrite lookup_insert_eq.
  destruct (onnx_parse serialized) as [onnx_model_check|e3] eqn:E3.
  2: { accepted Hacc. eexists false, _. repeat split; try done.
       intros (_ & _ & ? & ? & ? & [= <-] & E & E' & _). congruence. }
  destruct (check_model onnx_model_check) as [[]|e4] eqn:E4.
  - accepted Hacc. eexists true, _. repeat split; try done. eauto 10.
  - accepted Hacc. eexists false, _. repeat split; try done.
    intros (_ & _ & ? & ? & ? & [= <-] & E & E' & E'').
    rewrite E2 in E. inversion E; subst. rewrite E3 in E'. inversion E'; subst. congruence.
Qed.

Lemma convert_to_onnx_unavailable_inv model feature_columns w r w' :
  ONNX_AVAILABLE = false ->
  convert_to_onnx model feature_columns w = (r, w') ->
  w' = w /\ r <> Ok true.
Proof.
  intros Hav. unfold convert_to_onnx. rewrite Hav. simpl.
  cbv beta iota delta [bind ret print].
  repeat match goal with
  | |- context [stdout_accepts w ?t] => destruct (stdout_accepts w t)
  end; by intros [= <- <-].
Qed.


(** ** Errors of feature engineering *)

Lemma extends_refl df : extends df df.
Proof. by intros k. Qed.

Lemma dict_lookup_set_None {V} (k k' : string) (v : V) (d : list (string * V)) :
  dict_lookup k' (dict_set k v d) = None -> dict_lookup k' d = None.
Proof.
  induction d as [|[k0 v0] d IH]; simpl; [done |].
  destruct (String.eqb k0 k) eqn:E; simpl.
  - apply String.eqb_eq in E as ->. by destruct (String.eqb k k').
  - destruct (String.eqb k0 k'); [done | apply IH].
Qed.

Lemma extends_setitem df d k c : extends df d -> extends df (df_setitem k c d).
Proof. intros H k' Hk'. apply dict_lookup_set_None in Hk'. by apply H. Qed.

Lemma raises_ok {A} Q (a : A) : raises_only Q (Ok a).
Proof. by intros e. Qed.

Lemma raises_rbind {A B} Q (r : result A) (k : A -> result B) :
  raises_only Q r -> (forall a, r = Ok a -> raises_only Q (k a)) ->
  raises_only Q (rbind r k).
Proof.
  intros Hr Hk e. destruct r as [a|e']; simpl.
  - by apply Hk.
  - intros [= ->]. by apply Hr.
Qed.

Lemma raises_weaken {A} (Q Q' : exn -> Prop) (r : result A) :
  (forall e, Q e -> Q' e) -> raises_only Q r -> raises_only Q' r.
Proof. intros HQ Hr e He. by apply HQ, Hr. Qed.

Lemma no_KeyError_missing df e : no_KeyError e -> names_missing_column df e.
Proof. intros H k ->. by destruct (H k). Qed.

Lemma raises_getitem df d name :
  extends df d -> raises_only (names_missing_column df) (df_getitem name d).
Proof.
  intros Hext e. unfold df_getitem.
  destruct (dict_lookup name d) eqn:E; [done |].
  intros [= <-] k [= <-]. by apply Hext.
Qed.

Lemma raises_rmapM {A B} Q (f : A -> result B) (l : list A) :
  (forall x, raises_only Q (f x)) -> raises_only Q (rmapM f l).
Proof.
  intros Hf. induction l as [|x l IH]; simpl; [apply raises_ok |].
  apply raises_rbind; [apply Hf |]. intros y _.
  apply raises_rbind; [apply IH |]. intros ys _. apply raises_ok.
Qed.

Lemma as_float_raises c : raises_only no_KeyError (as_float c).
Proof. destruct c as [l|l|[|s l]]; intros e [= <-]. by intros k. Qed.

Lemma np_ufunc_raises f c : raises_only no_KeyError (np_ufunc f c).
Proof. apply raises_rbind; [apply as_float_raises | intros; apply raises_ok]. Qed.

Lemma scalar_mul_raises k c : raises_only no_KeyError (scalar_mul k c).
Proof. apply raises_rbind; [apply as_float_raises | intros; apply raises_ok]. Qed.

Lemma div_scalar_raises c k : raises_only no_KeyError (div_scalar c k).
Proof. apply raises_rbind; [apply as_float_raises | intros; apply raises_ok]. Qed.

Lemma col_ge_raises c k : raises_only no_KeyError (col_ge c k).
Proof. destruct c as [l|l|[|s l]]; intros e [= <-]. by intros ?. Qed.

Lemma col_le_raises c k : raises_only no_KeyError (col_le c k).
Proof. destruct c as [l|l|[|s l]]; intros e [= <-]. by intros ?. Qed.

Lemma col_binop_raises iop fop name a b :
  raises_only no_KeyError (col_binop iop fop name a b).
Proof.
  destruct a as [x|x|[|s x]], b as [y|y|[|t y]]; intros e [= <-]; by intros ?.
Qed.

Lemma LabelEncoder_fit_transform_raises le c :
  raises_only no_KeyError (LabelEncoder_fit_transform le c).
Proof.
  unfold LabelEncoder_fit_transform.
  apply raises_rbind; [| intros; apply raises_ok].
  unfold LabelEncoder_transform. simpl. apply raises_rmapM.
  intros x e. unfold transform_label. destruct (index_of _ _); intros [= <-]. by intros ?.
Qed.

Lemma encode_column_raises df col d encoders :
  extends df d ->
  raises_only (names_missing_column df) (encode_column col (d, encoders)).
Proof.
  intros Hext. unfold encode_column.
  apply raises_rbind; [by apply raises_getitem |]. intros c _.
  apply raises_rbind.
  - eapply raises_weaken; [apply no_KeyError_missing | apply LabelEncoder_fit_transform_raises].
  - intros [le codes] _. apply raises_ok.
Qed.

Lemma encode_column_extends df col d encoders d' encoders' :
  extends df d -> encode_column col (d, encoders) = Ok (d', encoders') -> extends df d'.
Proof.
  intros Hext H. apply encode_column_inv in H as (c & codes & _ & _ & -> & _).
  by apply extends_setitem.
Qed.

Lemma raisesM_ret {A} Q (a : A) : raises_only_M Q (ret a).
Proof. by intros w e w'. Qed.

Lemma raisesM_lift {A} Q (r : result A) : raises_only Q r -> raises_only_M Q (lift r).
Proof. intros Hr w e w' [= ->]. by apply Hr. Qed.

Lemma raisesM_bind {A B} Q (m : M world A) (k : A -> M world B) :
  raises_only_M Q m -> (forall a w w', m w = (Ok a, w') -> raises_only_M Q (k a)) ->
  raises_only_M Q (bind m k).
Proof.
  intros Hm Hk w e w' H. unfold bind in H.
  destruct (m w) as [[a|e'] w1] eqn:E.
  - by eapply Hk.
  - inversion H; subst. by eapply Hm.
Qed.

Lemma write_file_raises path f : raises_only_M no_KeyError (write_file path f).
Proof.
  intros w e w' H. unfold write_file, bind, open_w, put_contents in H.
  destruct (decide _); inversion H; subst. by intros ?.
Qed.

Lemma for_each_raises {A} Q (f : A -> M world unit) (l : list A) :
  (forall x, raises_only_M Q (f x)) -> raises_only_M Q (for_each f l).
Proof.
  intros Hf. induction l as [|x l IH]; simpl; [apply raisesM_ret |].
  apply raisesM_bind; [apply Hf | by intros].
Qed.

Ltac extends_solver :=
  repeat apply extends_setitem; first [assumption | apply extends_refl].

(** Every step of a chain of pure binds raises within the stated errors. *)
Ltac raises_steps :=
  repeat first
    [ apply raises_ok
    | apply raises_rbind;
      [ first
          [ apply raises_getitem; extends_solver
          | eapply raises_weaken;
            [ apply no_KeyError_missing
            | first [ apply np_ufunc_raises | apply scalar_mul_raises
                    | apply div_scalar_raises | apply col_ge_raises
                    | apply col_le_raises | apply col_binop_raises ] ] ]
      | intros ? ?; cbv beta zeta ] ].

Lemma encode_columns_raises df cols d encoders :
  extends df d ->
  raises_only (names_missing_column df) (rfoldlM encode_column cols (d, encoders)).
Proof.
  revert d encoders. induction cols as [|col cols IH]; simpl; intros d encoders Hext.
  - apply raises_ok.
  - apply raises_rbind; [by apply encode_column_raises |].
    intros [d' encoders'] H. eapply IH, encode_column_extends; eassumption.
Qed.

Lemma encode_columns_extends df cols d encoders d' encoders' :
  extends df d ->
  rfoldlM encode_column cols (d, encoders) = Ok (d', encoders') -> extends df d'.
Proof.
  revert d encoders. induction cols as [|col cols IH]; simpl; intros d encoders Hext H.
  - by inversion H; subst.
  - apply rbind_ok_inv in H as ([d1 encoders1] & H1 & H).
    eapply IH; [| exact H]. eapply encode_column_extends; eassumption.
Qed.

Lemma raisesM_weaken {A} (Q Q' : exn -> Prop) (m : M world A) :
  (forall e, Q e -> Q' e) -> raises_only_M Q m -> raises_only_M Q' m.
Proof. intros HQ Hm w e w' H. by eapply HQ, Hm. Qed.

Lemma feature_engineering_raises df :
  raises_only_M (names_missing_column df) (feature_engineering df).
Proof.
  unfold feature_engineering.
  apply raisesM_bind.
  - apply raisesM_lift. raises_steps. apply encode_columns_raises. extends_solver.
  - intros [df1 encoders] w w' Hpure.
    assert (Hext : extends df df1).
    { invert_pure Hpure. invert_ok Hpure.
      repeat match goal with
      | x : (DataFrame * list (string * LabelEncoder))%type |- _ => destruct x
      end.
      inversion Hpure; subst.
      repeat (eapply encode_column_extends; [| eassumption]).
      extends_solver. }
    apply raisesM_bind.
    + apply for_each_raises. intros [name encoder].
      eapply raisesM_weaken; [apply no_KeyError_missing | apply write_file_raises].
    + intros _ _ _ _. apply raisesM_bind; [| intros; apply raisesM_ret].
      apply raisesM_lift. raises_steps.
Qed.

Lemma feature_engineering_reads df w df' encoders w' name :
  feature_engineering df w = (Ok (df', encoders), w') ->
  name ∈ ["amount"; "hour"; "transaction_type"; "merchant_category"; "country";
          "device_risk_score"; "ip_risk_score"] ->
  is_Some (dict_lookup name df).
Proof.
  intros H Hname. fe_invert H.
  repeat match goal with
  | E : df_getitem _ _ = Ok _ |- _ => apply df_getitem_ok in E
  end.
  repeat (apply elem_of_cons in Hname as [-> | Hname]); eauto.
  by apply elem_of_nil in Hname.
Qed.

(** ** Runs that abort *)

Lemma create_dirs_inv w r w0 :
  create_dirs w = (r, w0) ->
  fs w0 = fs w /\ write_protected w0 = write_protected w /\
  stdout_accepts w0 = stdout_accepts w /\
  (forall e, r = Raise e -> w0 = w /\ no_KeyError e).
Proof.
  unfold create_dirs, makedirs.
  repeat case_decide; intros [= <- <-];
    (split; [done |]); (split; [done |]); (split; [done |]);
    intros e' [= <-]; (split; [done |]); by intros k.
Qed.

Lemma load_and_explore_data_inv df w r w' :
  fs w !! DATA_FILE = Some (CsvTable df) ->
  load_and_explore_data w = (r, w') ->
  w' = w /\
  match r with
  | Ok df0 => df0 = df /\ is_Some (dict_lookup "is_fraud" df)
  | Raise e => names_missing_column df e
  end.
Proof.
  intros Hfile. unfold load_and_explore_data, read_csv.
  cbv beta iota delta [bind lift ret read_file]. rewrite Hfile.
  unfold df_getitem. destruct (dict_lookup "is_fraud" df) as [c|] eqn:E.
  - destruct (fraud_percentage c) as [[]|e] eqn:E'; intros [= <- <-]; split; eauto.
    intros k ->. by destruct c as [?|?|[|??]].
  - intros [= <- <-]. split; [done |]. by intros k [= <-].
Qed.

Lemma load_and_explore_data_unlabelled df w :
  fs w !! DATA_FILE = Some (CsvTable df) ->
  dict_lookup "is_fraud" df = None ->
  load_and_explore_data w = (Raise (KeyError "is_fraud"), w).
Proof.
  intros Hfile Hcol. unfold load_and_explore_data, read_csv.
  cbv beta iota delta [bind lift ret read_file]. rewrite Hfile.
  unfold df_getitem. by rewrite Hcol.
Qed.

Lemma load_and_explore_data_labelled df w label :
  fs w !! DATA_FILE = Some (CsvTable df) ->
  dict_lookup "is_fraud" df = Some label -> numeric label ->
  load_and_explore_data w = (Ok df, w).
Proof.
  intros Hfile Hcol Hnum. unfold load_and_explore_data, read_csv.
  cbv beta iota delta [bind lift ret read_file]. rewrite Hfile.
  unfold df_getitem. rewrite Hcol. by destruct label.
Qed.

Lemma main_create_dirs_raises w e w0 :
  create_dirs w = (Raise e, w0) -> main w = (Raise e, w0).
Proof. intros H. unfold main. unfold bind at 1. by rewrite H. Qed.

Lemma main_load_raises w w0 e w1 :
  create_dirs w = (Ok tt, w0) ->
  load_and_explore_data w0 = (Raise e, w1) -> main w = (Raise e, w1).
Proof.
  intros H0 H. unfold main. unfold bind at 1. rewrite H0.
  unfold bind at 1. by rewrite H.
Qed.

Lemma main_feature_engineering_raises w w0 df0 w1 e w2 :
  create_dirs w = (Ok tt, w0) ->
  load_and_explore_data w0 = (Ok df0, w1) ->
  feature_engineering df0 w1 = (Raise e, w2) ->
  main w = (Raise e, w2).
Proof.
  intros H0 H H'. unfold main. unfold bind at 1. rewrite H0.
  unfold bind at 1. rewrite H. unfold bind at 1. by rewrite H'.
Qed.

Lemma later_artifacts_not_encoders p :
  p ∈ later_artifacts -> p ∉ encoder_artifacts.
Proof.
  unfold later_artifacts, encoder_artifacts. intros Hp He.
  repeat (apply elem_of_cons in Hp as [-> | Hp]);
    try (by apply elem_of_nil in Hp);
    repeat (apply elem_of_cons in He as [He | He]);
    try (by apply elem_of_nil in He);
    vm_compute in He; discriminate He.
Qed.

Lemma feature_engineering_fails df w name :
  name ∈ ["amount"; "hour"; "transaction_type"; "merchant_category"; "country";
          "device_risk_score"; "ip_risk_score"] ->
  dict_lookup name df = None ->
  exists e w', feature_engineering df w = (Raise e, w') /\ names_missing_column df e.
Proof.
  intros Hname Hcol.
  destruct (feature_engineering df w) as [[[df' encoders]|e] w'] eqn:E.
  - destruct (feature_engineering_reads _ _ _ _ _ _ E Hname) as [c Hc]. congruence.
  - exists e, w'. split; [done |]. by eapply feature_engineering_raises.
Qed.

(** *** The error of a table that is well formed but for one column *)

Lemma df_getitem_Some (k : string) (df : DataFrame) (c : column) :
  dict_lookup k df = Some c -> df_getitem k df = Ok c.
Proof. apply df_getitem_ok. Qed.

Lemma df_getitem_None (k : string) (df : DataFrame) :
  dict_lookup k df = None -> df_getitem k df = Raise (KeyError k).
Proof. unfold df_getitem. by intros ->. Qed.

Lemma rmapM_total {A B} (f : A -> result B) (l : list A) :
  (forall x, x ∈ l -> exists y, f x = Ok y) -> exists l', rmapM f l = Ok l'.
Proof.
  induction l as [|x l IH]; simpl; intros H; [by eexists |].
  destruct (H x) as [y Hy]; [by left |].
  destruct IH as [l' Hl']; [intros x' Hx'; apply H; by right |].
  rewrite Hy, Hl'. simpl. by eexists.
Qed.

Lemma LabelEncoder_fit_transform_strings (le : LabelEncoder) (strs : list string) :
  exists codes,
    LabelEncoder_fit_transform le (Object strs) = Ok (LabelEncoder_fit (Object strs), codes).
Proof.
  unfold LabelEncoder_fit_transform, LabelEncoder_transform. simpl.
  destruct (rmapM_total (transform_label (np_unique (LStr <$> strs))) (LStr <$> strs))
    as [codes Hcodes].
  - intros x Hx. unfold transform_label.
    destruct (index_of_elem x (np_unique (LStr <$> strs))) as [i ->]; [| | by eexists].
    + apply list_elem_of_fmap in Hx as (s & -> & _). apply String.eqb_refl.
    + by apply elem_of_np_unique; [apply Forall_exact_strings |].
  - rewrite Hcodes. by eexists.
Qed.

Lemma encoders_in_order (le1 le2 le3 : LabelEncoder) :
  dict_set "country" le3
    (dict_set "merchant_category" le2 (dict_set "transaction_type" le1 []))
  = [("transaction_type", le1); ("merchant_category", le2); ("country", le3)].
Proof. reflexivity. Qed.

(** What the table has, from its well-formedness: a numeric column of
    either dtype, a column of strings and its encoding. *)
Ltac have_numeric Hnum name :=
  try (let col := fresh "col" in
       let Hcol := fresh "Hcol" in
       let Hn := fresh "Hn" in
       destruct (Hnum name ltac:(vm_compute; repeat constructor) ltac:(discriminate))
         as (col & Hcol & Hn);
       apply df_getitem_Some in Hcol;
       destruct col; [ | | contradiction]).

Ltac have_column Hnum name :=
  try (let col := fresh "col" in
       let Hcol := fresh "Hcol" in
       destruct (Hnum name ltac:(vm_compute; repeat constructor) ltac:(discriminate))
         as (col & Hcol & _);
       apply df_getitem_Some in Hcol).

Ltac have_strings Hcat name :=
  try (let strs := fresh "strs" in
       let Hcol := fresh "Hcol" in
       let codes := fresh "codes" in
       let Hcodes := fresh "Hcodes" in
       destruct (Hcat name ltac:(vm_compute; repeat constructor) ltac:(discriminate))
         as (strs & Hcol);
       apply df_getitem_Some in Hcol;
       destruct (LabelEncoder_fit_transform_strings LabelEncoder_new strs)
         as (codes & Hcodes)).

(** The pure steps of [feature_engineering], run on what the table has. *)
Ltac fe_run :=
  repeat first
    [ rewrite df_getitem_setitem_ne by reflexivity
    | match goal with
      | H : df_getitem _ _ = _ |- _ => rewrite H
      | H : LabelEncoder_fit_transform _ _ = _ |- _ => rewrite H
      end
    | progress cbn [rbind np_ufunc scalar_mul div_scalar as_float col_ge col_le
                    rfoldlM encode_column] ].

Lemma feature_engineering_missing_early df c w0 :
  well_formed_except c df ->
  dict_lookup c df = None ->
  c ∈ ["amount"; "hour"; "transaction_type"; "merchant_category"; "country"] ->
  feature_engineering df w0 = (Raise (KeyError c), w0).
Proof.
  intros [Hnum Hcat] Hc Hin. apply df_getitem_None in Hc.
  unfold feature_engineering.
  repeat (apply elem_of_cons in Hin as [-> | Hin]); [ .. | by apply elem_of_nil in Hin];
    have_numeric Hnum "amount"; have_numeric Hnum "hour";
    have_strings Hcat "transaction_type"; have_strings Hcat "merchant_category";
    have_strings Hcat "country";
    fe_run; reflexivity.
Qed.

Lemma feature_engineering_missing_late df c w0 :
  well_formed_except c df ->
  dict_lookup c df = None ->
  c ∈ ["device_risk_score"; "ip_risk_score"] ->
  (forall p, p ∈ encoder_artifacts -> p ∉ write_protected w0) ->
  exists w1, feature_engineering df w0 = (Raise (KeyError c), w1).
Proof.
  intros [Hnum Hcat] Hc Hin Hwr. apply df_getitem_None in Hc.
  destruct w0 as [files protected directories accepts]. simpl in Hwr.
  unfold feature_engineering.
  repeat (apply elem_of_cons in Hin as [-> | Hin]); [ .. | by apply elem_of_nil in Hin];
    have_numeric Hnum "amount"; have_numeric Hnum "hour";
    have_column Hnum "device_risk_score"; have_column Hnum "ip_risk_score";
    have_strings Hcat "transaction_type"; have_strings Hcat "merchant_category";
    have_strings Hcat "country";
    unfold bind at 1, lift at 1; fe_run; rewrite encoders_in_order;
    cbv beta iota zeta delta
      [for_each write_file bind ret open_w put_contents fs write_protected dirs
       stdout_accepts];
    rewrite !decide_False by (apply Hwr; vm_compute; repeat constructor);
    unfold lift; fe_run; by eexists.
Qed.


(** ** What a run writes, and when *)

Ltac path_not_in :=
  let H := fresh "H" in
  intros H; vm_compute in H;
  repeat (apply elem_of_cons in H as [H | H]; [discriminate H |]);
  by apply elem_of_nil in H.

Ltac paths_subset :=
  let p := fresh "p" in
  let Hp := fresh "Hp" in
  intros p Hp; unfold encoder_artifacts, later_artifacts in *;
  rewrite ?elem_of_app, ?elem_of_cons, ?elem_of_nil in *; tauto.

Lemma evaluate_model_writes_importance model X_train X_test y_train y_test feature_columns :
  writes_within [MODELS_DIR ++ "/feature_importance.csv"]
    (evaluate_model model X_train X_test y_train y_test feature_columns).
Proof. unfold evaluate_model. writes_steps. Qed.

Lemma save_scaler_and_model_writes_four scaler model feature_columns evaluation :
  writes_within [MODELS_DIR ++ "/scaler.pkl"; MODELS_DIR ++ "/fraud_model.pkl";
                 MODELS_DIR ++ "/scaler_params.json"; MODELS_DIR ++ "/model_metadata.json"]
    (save_scaler_and_model scaler model feature_columns evaluation).
Proof. unfold save_scaler_and_model. writes_steps. Qed.

Lemma main_writes : writes_within (encoder_artifacts ++ later_artifacts)%list main.
Proof.
  unfold main, create_dirs.
  repeat first
    [ solve [auto with writes]
    | solve [eapply writes_weaken; [| apply load_and_explore_data_writes]; paths_subset]
    | solve [eapply writes_weaken; [| apply feature_engineering_writes]; paths_subset]
    | solve [eapply writes_weaken; [| apply evaluate_model_writes]; paths_subset]
    | solve [eapply writes_weaken; [| apply save_scaler_and_model_writes]; paths_subset]
    | solve [eapply writes_weaken; [| apply convert_to_onnx_writes]; paths_subset]
    | apply writes_bind; [| intros ?]
    | progress (repeat match goal with
                       | x : (_ * _)%type |- _ => destruct x
                       | x : unit |- _ => destruct x
                       end) ].
Qed.

(** X1: whatever its outcome, a run changes no file other than the three
    encoder files and the six files of the later steps; the dataset it
    reads is never written, and no permission changes. *)
Theorem main_writes_only_artifacts (w : world) :
  write_protected (main w).2 = write_protected w /\
  (forall p, p ∉ (encoder_artifacts ++ later_artifacts)%list ->
     fs (main w).2 !! p = fs w !! p) /\
  fs (main w).2 !! DATA_FILE = fs w !! DATA_FILE.
Proof.
  destruct (main w) as [r w'] eqn:E. apply main_writes in E as (Hp & _ & Hf).
  simpl. split; [done |]. split; [done |]. apply Hf. path_not_in.
Qed.


Lemma untouched_frame {A} paths p (m : M world A) :
  writes_within paths m -> p ∉ paths -> untouched_on_raise p m.
Proof. intros Hm Hp w e w' H. apply Hm in H as (_ & _ & H). by apply H. Qed.

Lemma untouched_bind {A B} paths p (m : M world A) (k : A -> M world B) :
  writes_within paths m -> p ∉ paths ->
  (forall a, untouched_on_raise p (k a)) ->
  untouched_on_raise p (bind m k).
Proof.
  intros Hm Hp Hk w e w' H. unfold bind in H.
  destruct (m w) as [[a|e'] w1] eqn:E.
  - apply Hk in H. apply Hm in E as (_ & _ & E). rewrite H. by apply E.
  - inversion H; subst. apply Hm in E as (_ & _ & E). by apply E.
Qed.

Lemma untouched_write_file p path f : untouched_on_raise p (write_file path f).
Proof.
  intros w e w' H. unfold write_file, bind, open_w, put_contents in H.
  destruct (decide _); by inversion H.
Qed.

Lemma save_scaler_and_model_untouched p scaler model feature_columns evaluation :
  p = MODELS_DIR ++ "/model_metadata.json" \/ p = MODELS_DIR ++ "/fraud_detection.onnx" ->
  untouched_on_raise p (save_scaler_and_model scaler model feature_columns evaluation).
Proof.
  intros Hp.
  assert (H1 : p ∉ [MODELS_DIR ++ "/scaler.pkl"])
    by (destruct Hp as [-> | ->]; path_not_in).
  assert (H2 : p ∉ [MODELS_DIR ++ "/fraud_model.pkl"])
    by (destruct Hp as [-> | ->]; path_not_in).
  assert (H3 : p ∉ [MODELS_DIR ++ "/scaler_params.json"])
    by (destruct Hp as [-> | ->]; path_not_in).
  clear Hp. unfold save_scaler_and_model.
  eapply untouched_bind; [apply writes_write_file, list_elem_of_singleton; reflexivity
                         | exact H1 |]. intros _.
  eapply untouched_bind; [apply writes_write_file, list_elem_of_singleton; reflexivity
                         | exact H2 |]. intros _.
  eapply (untouched_bind []); [apply writes_lift | apply not_elem_of_nil |]. intros ?.
  eapply (untouched_bind []); [apply writes_lift | apply not_elem_of_nil |]. intros ?.
  eapply untouched_bind; [apply writes_write_file, list_elem_of_singleton; reflexivity
                         | exact H3 |]. intros _.
  apply untouched_write_file.
Qed.

Lemma untouched_unless_frame {A} (Q : exn -> Prop) paths p (m : M world A) :
  writes_within paths m -> p ∉ paths -> untouched_unless Q p m.
Proof. intros Hm Hp w e w' H _. apply Hm in H as (_ & _ & H). by apply H. Qed.

Lemma untouched_unless_bind {A B} (Q : exn -> Prop) paths p
    (m : M world A) (k : A -> M world B) :
  writes_within paths m -> p ∉ paths ->
  (forall a, untouched_unless Q p (k a)) ->
  untouched_unless Q p (bind m k).
Proof.
  intros Hm Hp Hk w e w' H HQ. unfold bind in H.
  destruct (m w) as [[a|e'] w1] eqn:E.
  - apply (Hk a w1 e w') in H as ->; [| done]. apply Hm in E as (_ & _ & E). by apply E.
  - inversion H; subst. apply Hm in E as (_ & _ & E). by apply E.
Qed.

Lemma untouched_unless_last {A B} (Q : exn -> Prop) p (m : M world A) (k : A -> M world B) :
  untouched_on_raise p m ->
  (forall a, raises_only_M Q (k a)) ->
  untouched_unless Q p (bind m k).
Proof.
  intros Hm Hk w e w' H HQ. unfold bind in H.
  destruct (m w) as [[a|e'] w1] eqn:E.
  - destruct HQ. by eapply Hk.
  - inversion H; subst. by eapply Hm.
Qed.

Lemma main_untouched p :
  p = MODELS_DIR ++ "/model_metadata.json" \/ p = MODELS_DIR ++ "/fraud_detection.onnx" ->
  untouched_unless console_error p main.
Proof.
  intros Hp. unfold main, create_dirs.
  eapply (untouched_unless_bind _ []); [auto with writes | apply not_elem_of_nil |].
  intros _.
  eapply (untouched_unless_bind _ []);
    [apply load_and_explore_data_writes | apply not_elem_of_nil |]. intros df0.
  eapply untouched_unless_bind;
    [apply feature_engineering_writes | destruct Hp as [-> | ->]; path_not_in |].
  intros [df encoders].
  eapply (untouched_unless_bind _ []); [auto with writes | apply not_elem_of_nil |].
  intros [[X y] feature_columns].
  eapply (untouched_unless_bind _ []); [auto with writes | apply not_elem_of_nil |].
  intros [[[X_train X_test] y_train] y_test].
  eapply (untouched_unless_bind _ []); [auto with writes | apply not_elem_of_nil |].
  intros [scaler X_train_scaled].
  eapply (untouched_unless_bind _ []); [auto with writes | apply not_elem_of_nil |].
  intros X_test_scaled.
  eapply (untouched_unless_bind _ []); [auto with writes | apply not_elem_of_nil |].
  intros model.
  eapply untouched_unless_bind;
    [apply evaluate_model_writes_importance | destruct Hp as [-> | ->]; path_not_in |].
  intros evaluation.
  apply untouched_unless_last; [by apply save_scaler_and_model_untouched |].
  intros []. apply raisesM_bind; [| intros; apply raisesM_ret].
  apply console_raises_error, convert_to_onnx_console.
Qed.


(** ** More on feature engineering *)

(** The file a write left at a path, through the writes that followed. *)
Ltac lookup_written :=
  repeat first
    [ apply lookup_insert_eq
    | etrans; [apply lookup_insert_ne; paths_differ |] ].

(** X4: a successful [feature_engineering] returns one encoder per
    categorical column, fitted on that column of the input table, and has
    pickled exactly these three encoders; no other file has changed. *)
Theorem feature_engineering_saves_encoders
    (df df' : DataFrame) (encs : list (string * LabelEncoder)) (w w' : world) :
  feature_engineering df w = (Ok (df', encs), w') ->
  exists transaction_type merchant_category country,
    dict_lookup "transaction_type" df = Some transaction_type /\
    dict_lookup "merchant_category" df = Some merchant_category /\
    dict_lookup "country" df = Some country /\
    encs = [("transaction_type", LabelEncoder_fit transaction_type);
            ("merchant_category", LabelEncoder_fit merchant_category);
            ("country", LabelEncoder_fit country)] /\
    fs w' !! (MODELS_DIR ++ "/encoder_transaction_type.pkl")
      = Some (PickledEncoder (LabelEncoder_fit transaction_type)) /\
    fs w' !! (MODELS_DIR ++ "/encoder_merchant_category.pkl")
      = Some (PickledEncoder (LabelEncoder_fit merchant_category)) /\
    fs w' !! (MODELS_DIR ++ "/encoder_country.pkl")
      = Some (PickledEncoder (LabelEncoder_fit country)) /\
    forall p, p ∉ encoder_artifacts -> fs w' !! p = fs w !! p.
Proof.
  intros H. pose proof (feature_engineering_writes _ _ _ _ H) as (_ & _ & Hframe).
  fe_invert H.
  apply bind_ok_inv in Hsave as ([] & ws1 & Hw1 & Hsave).
  apply bind_ok_inv in Hsave as ([] & ws2 & Hw2 & Hsave).
  apply bind_ok_inv in Hsave as ([] & ws3 & Hw3 & Hsave).
  apply ret_inv in Hsave as [_ ->].
  apply write_file_ok_inv in Hw1 as [_ ->], Hw2 as [_ ->], Hw3 as [_ ->].
  repeat match goal with
  | E : df_getitem _ _ = Ok _ |- _ => apply df_getitem_ok in E
  end.
  do 3 eexists. repeat split; try eassumption; simpl; lookup_written.
Qed.

(** X5: [feature_engineering] only adds columns: every column of the
    input table whose name is not one of the twelve engineered names is in
    the output unchanged, and the twelve engineered columns are all there. *)
Theorem feature_engineering_keeps_columns
    (df df' : DataFrame) (encs : list (string * LabelEncoder)) (w w' : world) :
  feature_engineering df w = (Ok (df', encs), w') ->
  (forall name, name ∉ engineered_columns -> dict_lookup name df' = dict_lookup name df) /\
  (forall name, name ∈ engineered_columns -> is_Some (dict_lookup name df')).
Proof.
  intros H. fe_invert H. unfold df_setitem. split.
  - intros name Hname.
    repeat (rewrite dict_lookup_set_ne;
            [| apply String.eqb_neq; intros <-; apply Hname;
               vm_compute; repeat constructor ]).
    done.
  - intros name Hname. unfold engineered_columns in Hname.
    repeat (apply elem_of_cons in Hname as [-> | Hname]);
      [ rewrite ?dict_lookup_set_ne by reflexivity; rewrite dict_lookup_set_eq; eauto ..
      | by apply elem_of_nil in Hname ].
Qed.

Lemma transform_inverse (classes : list label) (strs : list string) (codes : list Z) :
  rmapM (transform_label classes) (LStr <$> strs) = Ok codes ->
  rmapM (inverse_label classes) codes = Ok (LStr <$> strs) /\
  Forall (fun code => 0 <= code < Z.of_nat (length classes)) codes.
Proof.
  revert codes. induction strs as [|s strs IH]; simpl; intros codes H.
  - inversion H; subst. by split.
  - apply rbind_ok_inv in H as (code & Hcode & H).
    apply rbind_ok_inv in H as (codes' & Hcodes & H).
    inversion H; subst. destruct (IH _ Hcodes) as [IH1 IH2].
    unfold transform_label in Hcode.
    destruct (index_of (LStr s) classes) as [i|] eqn:Hi; [| discriminate].
    inversion Hcode; subst.
    apply index_of_Some in Hi as (y & Hy & Heq).
    apply exact_label_str in Heq as ->.
    split.
    + simpl. unfold inverse_label at 1.
      destruct (Z.of_nat i <? 0) eqn:E; [apply Z.ltb_lt in E; lia |].
      by rewrite Nat2Z.id, Hy, IH1.
    + constructor; [| done]. apply lookup_lt_Some in Hy. lia.
Qed.

(** X6: the encoded column [feature_engineering] adds for a categorical
    column of strings decodes, through the encoder it returns, to the
    original column, row by row; every code is an index into the encoder's
    classes. *)
Theorem encoded_column_decodes
    (df df' : DataFrame) (encs : list (string * LabelEncoder)) (w w' : world)
    (col : string) (strs : list string) :
  feature_engineering df w = (Ok (df', encs), w') ->
  col ∈ ["transaction_type"; "merchant_category"; "country"] ->
  dict_lookup col df = Some (Object strs) ->
  exists le classes codes,
    dict_lookup col encs = Some le /\
    classes_ le = Some classes /\
    dict_lookup (col ++ "_encoded") df' = Some (Int64 codes) /\
    length codes = length strs /\
    LabelEncoder_inverse_transform le codes = Ok (LStr <$> strs) /\
    Forall (fun code => 0 <= code < Z.of_nat (length classes)) codes.
Proof.
  intros H Hcol Hstrs. fe_invert H.
  repeat (apply elem_of_cons in Hcol as [-> | Hcol]);
    [ | | | by apply elem_of_nil in Hcol ];
    same_column Hstrs;
    match goal with
    | E : LabelEncoder_transform (LabelEncoder_fit (Object strs)) (Object strs) = Ok ?codes
      |- _ =>
        exists (LabelEncoder_fit (Object strs)), (np_unique (LStr <$> strs)), codes;
        pose proof (rmapM_length _ _ _ E) as Hlen;
        apply transform_inverse in E as [E1 E2]
    end;
    (split; [reflexivity |]); (split; [reflexivity |]);
    (split; [unfold df_setitem;
             rewrite ?dict_lookup_set_ne by reflexivity; apply dict_lookup_set_eq |]);
    (split; [simpl in Hlen; by rewrite Hlen, length_fmap |]); by split.
Qed.

(** X7: when one of the five columns read before the encoders are saved
    (amount, hour and the three categorical columns) is missing,
    [feature_engineering] raises without having written anything. *)
Theorem feature_engineering_fails_before_writing
    (df : DataFrame) (w : world) (name : string) :
  name ∈ ["amount"; "hour"; "transaction_type"; "merchant_category"; "country"] ->
  dict_lookup name df = None ->
  exists e, feature_engineering df w = (Raise e, w).
Proof.
  intros Hname Hcol. unfold feature_engineering. unfold bind at 1.
  match goal with
  | |- context [lift ?pure w] => destruct pure as [[df1 encs1]|e] eqn:Hpure
  end; unfold lift at 1; [| by eexists].
  exfalso. invert_ok Hpure.
  repeat match goal with
  | x : (DataFrame * list (string * LabelEncoder))%type |- _ => destruct x
  | E : encode_column _ _ = Ok _ |- _ =>
      apply encode_column_inv in E as (? & ? & ? & ? & ? & ?)
  end.
  subst. rewrite ?df_getitem_setitem_ne in * by reflexivity.
  repeat match goal with
  | E : df_getitem _ _ = Ok _ |- _ => apply df_getitem_ok in E
  end.
  repeat (apply elem_of_cons in Hname as [-> | Hname]); try congruence.
  by apply elem_of_nil in Hname.
Qed.

Lemma raises_getitem_among names name d :
  name ∈ names -> raises_only (raises_key_among names) (df_getitem name d).
Proof.
  intros Hin e. unfold df_getitem. destruct (dict_lookup name d); [done |].
  by intros [= <-] k [= <-].
Qed.

Lemma no_KeyError_among names e : no_KeyError e -> raises_key_among names e.
Proof. intros H k ->. by destruct (H k). Qed.

Lemma encode_column_raises_among names col st :
  col ∈ names -> raises_only (raises_key_among names) (encode_column col st).
Proof.
  intros Hin. destruct st as [d encoders]. unfold encode_column.
  apply raises_rbind; [by apply raises_getitem_among |]. intros c _.
  apply raises_rbind.
  - eapply raises_weaken; [apply no_KeyError_among | apply LabelEncoder_fit_transform_raises].
  - intros [le codes] _. apply raises_ok.
Qed.

Ltac name_among := vm_compute; repeat constructor.

(** Every step of the chain before the encoders are saved raises, if a
    [KeyError], one that names a column read there. *)
Ltac raises_steps_among :=
  repeat first
    [ apply raises_ok
    | apply raises_rbind;
      [ first
          [ apply raises_getitem_among; name_among
          | apply encode_column_raises_among; name_among
          | eapply raises_weaken;
            [ apply no_KeyError_among
            | first [ apply np_ufunc_raises | apply scalar_mul_raises
                    | apply div_scalar_raises | apply col_ge_raises
                    | apply col_le_raises | apply col_binop_raises ] ] ]
      | intros ? ?; cbv beta zeta ] ].

(** X8: a [feature_engineering] that ends in a [KeyError] for one of the
    two risk-score columns has already fitted and pickled the three
    encoders: these columns are read after the encoders are saved. *)
Theorem feature_engineering_late_failure
    (df : DataFrame) (w w' : world) (k : string) :
  feature_engineering df w = (Raise (KeyError k), w') ->
  k ∈ ["device_risk_score"; "ip_risk_score"] ->
  dict_lookup k df = None /\
  exists transaction_type merchant_category country,
    dict_lookup "transaction_type" df = Some transaction_type /\
    dict_lookup "merchant_category" df = Some merchant_category /\
    dict_lookup "country" df = Some country /\
    fs w' !! (MODELS_DIR ++ "/encoder_transaction_type.pkl")
      = Some (PickledEncoder (LabelEncoder_fit transaction_type)) /\
    fs w' !! (MODELS_DIR ++ "/encoder_merchant_category.pkl")
      = Some (PickledEncoder (LabelEncoder_fit merchant_category)) /\
    fs w' !! (MODELS_DIR ++ "/encoder_country.pkl")
      = Some (PickledEncoder (LabelEncoder_fit country)).
Proof.
  intros H Hk.
  split; [by eapply (feature_engineering_raises df w _ w' H) |].
  unfold feature_engineering in H. unfold bind at 1 in H.
  match type of H with
  | context [lift ?pure w] =>
      assert (Hearly : raises_only
                (raises_key_among ["amount"; "hour"; "transaction_type";
                                   "merchant_category"; "country"]) pure)
        by (raises_steps_among; simpl; raises_steps_among);
      destruct pure as [[df1 encs1]|e] eqn:Hpure
  end; unfold lift at 1 in H; simpl in H.
  2: { inversion H; subst. specialize (Hearly _ eq_refl _ eq_refl).
       exfalso. revert Hearly.
       repeat (apply elem_of_cons in Hk as [-> | Hk]);
         [path_not_in .. | by apply elem_of_nil in Hk]. }
  clear Hearly. invert_ok Hpure.
  repeat match goal with
  | x : (DataFrame * list (string * LabelEncoder))%type |- _ => destruct x
  | E : encode_column _ _ = Ok _ |- _ =>
      apply encode_column_inv in E as (? & ? & ? & ? & ? & ?)
  end.
  inversion Hpure; subst; clear Hpure. simpl in H.
  rewrite ?df_getitem_setitem_ne in * by reflexivity.
  repeat match goal with
  | E : df_getitem _ _ = Ok _ |- _ => apply df_getitem_ok in E
  end.
  unfold bind at 1 in H.
  match type of H with
  | context [match ?saves w with _ => _ end] =>
      assert (Hsaves : raises_only_M no_KeyError saves)
        by (repeat (apply raisesM_bind; [apply write_file_raises | intros _ _ _ _]);
            apply raisesM_ret);
      destruct (saves w) as [[[]|e] ws] eqn:Hs
  end.
  2: { inversion H; subst. apply Hsaves in Hs. by destruct (Hs k). }
  clear Hsaves.
  apply bind_ok_inv in Hs as ([] & ws1 & Hw1 & Hs).
  apply bind_ok_inv in Hs as ([] & ws2 & Hw2 & Hs).
  apply bind_ok_inv in Hs as ([] & ws3 & Hw3 & Hs).
  apply ret_inv in Hs as [_ ->].
  apply write_file_ok_inv in Hw1 as [_ ->], Hw2 as [_ ->], Hw3 as [_ ->].
  unfold bind at 1, lift at 1 in H.
  match type of H with
  | context [match ?risk with Ok _ => _ | Raise _ => _ end] => destruct risk
  end; inversion H; subst.
  do 3 eexists. repeat split; try eassumption; simpl; lookup_written.
Qed.

(** ** Feature selection *)

Lemma rmapM_getitem_total (df : DataFrame) (names : list string) :
  (forall name, name ∈ names -> is_Some (dict_lookup name df)) ->
  exists X, rmapM (fun name => df_getitem name df) names = Ok X.
Proof.
  induction names as [|n names IH]; simpl; intros H; [by eexists |].
  destruct (H n) as [c Hc]; [by left |].
  destruct IH as [X HX]; [intros name Hname; apply H; by right |].
  apply df_getitem_ok in Hc. rewrite Hc, HX. simpl. by eexists.
Qed.

Lemma df_getitems_raises (names : list string) (df : DataFrame) (e : exn) :
  df_getitems names df = Raise e ->
  missing_columns names df <> [] /\
  e = KeyError (not_in_index names (missing_columns names df)).
Proof.
  unfold df_getitems. destruct (missing_columns names df) as [|name missing] eqn:E.
  - intros H. pose proof (proj1 (missing_columns_nil names df) E) as Hall.
    destruct (rmapM_getitem_total df names Hall) as [X HX]. congruence.
  - by intros [= <-].
Qed.


(** X10: on the table a successful [feature_engineering] returns,
    [prepare_features] succeeds whenever the input table has its label
    column: the label vector is that column, and the four raw features of
    the matrix are the input's own columns. *)
Theorem prepare_features_after_engineering
    (df df' : DataFrame) (encs : list (string * LabelEncoder)) (w w' : world)
    (label : column) :
  feature_engineering df w = (Ok (df', encs), w') ->
  dict_lookup "is_fraud" df = Some label ->
  exists X feature_columns,
    prepare_features df' = Ok (X, label, feature_columns) /\
    length X = 16%nat /\
    X !! 0%nat = dict_lookup "amount" df /\
    X !! 3%nat = dict_lookup "hour" df /\
    X !! 11%nat = dict_lookup "device_risk_score" df /\
    X !! 12%nat = dict_lookup "ip_risk_score" df.
Proof.
  intros H Hlabel. fe_invert H. apply df_getitem_ok in Hlabel.
  unfold prepare_features.
  erewrite df_getitems_ok.
  2: { cbn [rmapM].
       repeat first
         [ rewrite df_getitem_setitem_eq
         | rewrite df_getitem_setitem_ne by reflexivity ].
       repeat match goal with
       | E : df_getitem ?k df = Ok ?c |- context [df_getitem ?k df] => rewrite E
       end.
       cbn [rbind]. reflexivity. }
  cbn [rbind].
  rewrite !df_getitem_setitem_ne by reflexivity. rewrite Hlabel. cbn [rbind].
  repeat match goal with
  | E : df_getitem _ df = Ok _ |- _ => apply df_getitem_ok in E
  end.
  do 2 eexists. split; [reflexivity |]. by repeat split.
Qed.

(** ** Evaluation *)

Lemma bind_lift_raise_unchanged {A B} (r : result A) (k : A -> M world B) :
  (forall a w e w', k a w = (Raise e, w') -> w' = w) ->
  forall w e w', bind (lift r) k w = (Raise e, w') -> w' = w.
Proof.
  intros Hk w e w'. unfold bind, lift. destruct r as [a|e']; [apply Hk |].
  by intros [= _ <-].
Qed.

Lemma write_file_raise_unchanged path f w e w' :
  write_file path f w = (Raise e, w') -> w' = w /\ e = PermissionError path.
Proof.
  unfold write_file, bind, open_w, put_contents.
  destruct (decide _); [| discriminate]. by intros [= <- <-].
Qed.

Lemma omap_lookup_length {A B} (l1 : list A) (l2 : list B) (order : list nat) :
  length l1 = length l2 ->
  length (omap (fun i => l1 !! i) order) = length (omap (fun i => l2 !! i) order).
Proof.
  intros Hlen. induction order as [|i order IH]; simpl; [done |].
  destruct (l1 !! i) as [x|] eqn:E1, (l2 !! i) as [y|] eqn:E2; simpl.
  - f_equal. exact IH.
  - apply lookup_lt_Some in E1. apply lookup_ge_None in E2. lia.
  - apply lookup_ge_None in E1. apply lookup_lt_Some in E2. lia.
  - exact IH.
Qed.

(** X11: an [evaluate_model] that raises has written nothing: the
    importance table is written only after every metric has been computed. *)
Theorem evaluate_model_raises_unchanged
    (model : RandomForestClassifier) (X_train X_test : matrix) (y_train y_test : column)
    (feature_columns : list string) (w w' : world) (e : exn) :
  evaluate_model model X_train X_test y_train y_test feature_columns w = (Raise e, w') ->
  w' = w.
Proof.
  revert w e w'. unfold evaluate_model.
  repeat (apply bind_lift_raise_unchanged; intros ?).
  intros w e w' H. unfold bind in H.
  destruct (write_file _ _ w) as [[[]|e'] w1] eqn:E; [discriminate |].
  inversion H; subst. by apply write_file_raise_unchanged in E as [-> _].
Qed.

(** X12: a successful [evaluate_model] has written the importance table,
    a feature column and an importance column of the same length; the
    feature_importance records of the metrics are the rows of that table,
    every feature in it is one of the feature columns, the model has one
    importance per feature column, and the confusion matrix has the four
    entries of a two-class problem. *)
Theorem evaluate_model_importance_table
    (model : RandomForestClassifier) (X_train X_test : matrix) (y_train y_test : column)
    (feature_columns : list string) (w w' : world) (evaluation : Metrics) :
  evaluate_model model X_train X_test y_train y_test feature_columns w
    = (Ok evaluation, w') ->
  exists features importances,
    fs w' !! (MODELS_DIR ++ "/feature_importance.csv")
      = Some (CsvTable [("feature", Object features); ("importance", Float64 importances)]) /\
    feature_importance evaluation = zip features importances /\
    length features = length importances /\
    (forall name, name ∈ features -> name ∈ feature_columns) /\
    length (feature_importances_ model) = length feature_columns /\
    (forall i j, (i < 2)%nat -> (j < 2)%nat ->
       exists v, cm_at (metrics_confusion_matrix evaluation) i j = Ok v).
Proof.
  intros H. unfold evaluate_model in H.
  repeat match type of H with
  | bind (lift _) _ _ = _ =>
      let E := fresh "E" in
      apply bind_ok_inv in H as (? & ? & E & H); apply lift_ok_inv in E as [E ->]
  end.
  apply bind_ok_inv in H as ([] & w1 & Hwrite & H).
  apply write_file_ok_inv in Hwrite as [_ ->].
  apply ret_inv in H as [-> ->].
  match goal with
  | E : (if (length feature_columns =? _)%nat then _ else _) = Ok _ |- _ =>
      destruct (length feature_columns =? length (feature_importances_ model))%nat eqn:Hlen;
      [apply Nat.eqb_eq in Hlen; clear E | discriminate E]
  end.
  do 2 eexists. split; [apply lookup_insert_eq |]. simpl.
  split; [reflexivity |]. split; [by apply omap_lookup_length |].
  split; [| split; [done |]].
  - intros name (i & _ & Hi)%list_elem_of_omap. by eapply list_elem_of_lookup_2.
  - intros i j Hi Hj.
    destruct i as [|[|i]], j as [|[|j]]; try lia; eauto.
Qed.

(** ** Export *)


(** X14: after a successful [save_scaler_and_model] the two JSON documents
    agree on the number of features, which is the number of feature names
    in the metadata; the model file holds the model it was given; the
    hyperparameters in the metadata are those [train_model] fits with; and
    only the four files of this step have changed. *)
Theorem save_documents_agree
    (scaler : StandardScaler) (model : RandomForestClassifier)
    (feature_columns : list string) (evaluation : Metrics) (w w' : world) :
  save_scaler_and_model scaler model feature_columns evaluation w = (Ok tt, w') ->
  exists params metadata,
    fs w' !! (MODELS_DIR ++ "/scaler_params.json") = Some (JsonScalerParams params) /\
    fs w' !! (MODELS_DIR ++ "/model_metadata.json") = Some (JsonMetadata metadata) /\
    fs w' !! (MODELS_DIR ++ "/fraud_model.pkl") = Some (PickledModel model) /\
    params_n_features params = n_features metadata /\
    n_features metadata = length (feature_names metadata) /\
    mean_ scaler = Some (means params) /\
    scale_ scaler = Some (stds params) /\
    (forall X y,
       train_model X y =
         rf_fit {| n_estimators := config_n_estimators (model_config metadata);
                   max_depth := config_max_depth (model_config metadata);
                   min_samples_split := config_min_samples_split (model_config metadata);
                   min_samples_leaf := config_min_samples_leaf (model_config metadata);
                   random_state := RANDOM_STATE;
                   n_jobs := -1;
                   class_weight := "balanced";
                   verbose := 1 |} X y) /\
    (forall p, p ∉ [MODELS_DIR ++ "/scaler.pkl"; MODELS_DIR ++ "/fraud_model.pkl";
                    MODELS_DIR ++ "/scaler_params.json";
                    MODELS_DIR ++ "/model_metadata.json"] ->
       fs w' !! p = fs w !! p).
Proof.
  intros H.
  pose proof (save_scaler_and_model_writes_four _ _ _ _ _ _ _ H) as (_ & _ & Hframe).
  unfold save_scaler_and_model in H.
  apply bind_ok_inv in H as ([] & w1 & Hw1 & H).
  apply bind_ok_inv in H as ([] & w2 & Hw2 & H).
  apply bind_ok_inv in H as (scaler_mean & w3 & Hm & H).
  apply bind_ok_inv in H as (scaler_scale & w4 & Hs & H).
  apply bind_ok_inv in H as ([] & w5 & Hw5 & H).
  apply write_file_ok_inv in Hw1 as [_ ->], Hw2 as [_ ->], Hw5 as [_ ->], H as [_ ->].
  apply lift_ok_inv in Hm as [Hm ->], Hs as [Hs ->].
  destruct (mean_ scaler), (scale_ scaler); try discriminate.
  inversion Hm; inversion Hs; subst.
  do 2 eexists. simpl.
  split; [lookup_written |]. split; [lookup_written |]. split; [lookup_written |].
  repeat split; try reflexivity. exact Hframe.
Qed.

(** ** ONNX export in detail *)

(** X15: when the model converts but cannot be serialized, the ONNX file
    has already been opened for writing: on a console that encodes every
    text the step answers [False], and it leaves an empty file, whatever
    the file held before. *)
Theorem convert_to_onnx_serialization_failure
    (model : RandomForestClassifier) (feature_columns : list string) (w : world)
    (onnx_model : ModelProto) (e : exn) :
  ONNX_AVAILABLE = true ->
  convert_sklearn model
    [("float_input", FloatTensorType [None; Some (length feature_columns)])] 12
    = Ok onnx_model ->
  (MODELS_DIR ++ "/fraud_detection.onnx") ∉ write_protected w ->
  SerializeToString onnx_model = Raise e ->
  console_accepts_all w ->
  exists w',
    convert_to_onnx model feature_columns w = (Ok false, w') /\
    fs w' !! (MODELS_DIR ++ "/fraud_detection.onnx") = Some (Bytes []).
Proof.
  intros Havailable Hconvert Hpath Hserialize Hacc.
  destruct w as [files protected directories accepts].
  unfold console_accepts_all in Hacc. simpl in Hacc, Hpath.
  unfold convert_to_onnx. rewrite Havailable. simpl.
  cbv beta iota zeta delta
    [bind lift ret try_except open_w put_contents onnx_load read_file print
     fs write_protected dirs stdout_accepts].
  accepted Hacc. rewrite Hconvert, decide_False by exact Hpath. rewrite Hserialize.
  accepted Hacc. eexists. split; [reflexivity |]. apply lookup_insert_eq.
Qed.

(** X16: when the exported bytes do not load or do not pass the checker,
    the export stays on disk; on a console that encodes every text the step
    answers [False]. *)
Theorem convert_to_onnx_validation_failure
    (model : RandomForestClassifier) (feature_columns : list string) (w : world)
    (onnx_model : ModelProto) (serialized : list Byte.byte) :
  ONNX_AVAILABLE = true ->
  convert_sklearn model
    [("float_input", FloatTensorType [None; Some (length feature_columns)])] 12
    = Ok onnx_model ->
  (MODELS_DIR ++ "/fraud_detection.onnx") ∉ write_protected w ->
  SerializeToString onnx_model = Ok serialized ->
  (forall onnx_model_check,
     onnx_parse serialized = Ok onnx_model_check -> check_model onnx_model_check <> Ok tt) ->
  console_accepts_all w ->
  exists w',
    convert_to_onnx model feature_columns w = (Ok false, w') /\
    fs w' !! (MODELS_DIR ++ "/fraud_detection.onnx") = Some (Bytes serialized).
Proof.
  intros Havailable Hconvert Hpath Hserialize Hinvalid Hacc.
  destruct w as [files protected directories accepts].
  unfold console_accepts_all in Hacc. simpl in Hacc, Hpath.
  unfold convert_to_onnx. rewrite Havailable. simpl.
  cbv beta iota zeta delta
    [bind lift ret try_except open_w put_contents onnx_load read_file print
     fs write_protected dirs stdout_accepts].
  accepted Hacc. rewrite Hconvert, decide_False by exact Hpath. rewrite Hserialize.
  accepted Hacc. rewrite lookup_insert_eq.
  destruct (onnx_parse serialized) as [onnx_model_check|e] eqn:Hparse.
  - specialize (Hinvalid _ eq_refl).
    destruct (check_model onnx_model_check) as [[]|e]; [done |].
    accepted Hacc. eexists. split; [reflexivity |]. apply lookup_insert_eq.
  - accepted Hacc. eexists. split; [reflexivity |]. apply lookup_insert_eq.
Qed.

(** X17: when the step answers [True], the ONNX file holds the serialized
    conversion of the model, declared for a float input of as many columns
    as there are feature names, and these bytes load and pass the checker. *)
Theorem convert_to_onnx_success_file
    (model : RandomForestClassifier) (feature_columns : list string) (w w' : world) :
  convert_to_onnx model feature_columns w = (Ok true, w') ->
  exists onnx_model serialized onnx_model_check,
    convert_sklearn model
      [("float_input", FloatTensorType [None; Some (length feature_columns)])] 12
      = Ok onnx_model /\
    SerializeToString onnx_model = Ok serialized /\
    fs w' !! (MODELS_DIR ++ "/fraud_detection.onnx") = Some (Bytes serialized) /\
    onnx_parse serialized = Ok onnx_model_check /\
    check_model onnx_model_check = Ok tt.
Proof.
  intros H. unfold convert_to_onnx in H.
  do 3 (apply bind_ok_inv in H as ([] & ? & Hp & H); apply print_ok_inv in Hp as ->).
  destruct ONNX_AVAILABLE; simpl in H.
  2: { do 2 (apply bind_ok_inv in H as ([] & ? & Hp & H); apply print_ok_inv in Hp as ->).
       by apply ret_inv in H as [? _]. }
  apply try_except_ok_inv in H as [H | (e & w1 & _ & H)].
  2: { apply bind_ok_inv in H as ([] & ? & _ & H). by apply ret_inv in H as [? _]. }
  apply bind_ok_inv in H as ([] & ? & Hp & H); apply print_ok_inv in Hp as ->.
  apply bind_ok_inv in H as (onnx_model & ? & Hconvert & H).
  apply lift_ok_inv in Hconvert as [Hconvert ->].
  apply bind_ok_inv in H as ([] & w1 & Hopen & H).
  apply bind_ok_inv in H as (serialized & ? & Hserialize & H).
  apply lift_ok_inv in Hserialize as [Hserialize ->].
  apply bind_ok_inv in H as ([] & w2 & Hput & H).
  apply bind_ok_inv in H as ([] & ? & Hp & H); apply print_ok_inv in Hp as ->.
  apply bind_ok_inv in H as (onnx_model_check & w3 & Hload & H).
  apply bind_ok_inv in H as ([] & ? & Hcheck & H).
  apply lift_ok_inv in Hcheck as [Hcheck ->].
  apply bind_ok_inv in H as ([] & ? & Hp & H); apply print_ok_inv in Hp as ->.
  apply ret_inv in H as [_ ->].
  unfold put_contents in Hput. inversion Hput; subst w2; clear Hput.
  unfold onnx_load, bind, read_file, lift in Hload. simpl in Hload.
  rewrite lookup_insert_eq in Hload. inversion Hload; subst w3.
  exists onnx_model, serialized, onnx_model_check.
  repeat split; try done. apply lookup_insert_eq.
Qed.

(** ** The artifacts of a complete run *)

Lemma feature_engineering_ok_files df w df' encs w' p :
  feature_engineering df w = (Ok (df', encs), w') ->
  p ∈ encoder_artifacts ->
  exists le, fs w' !! p = Some (PickledEncoder le).
Proof.
  intros H Hp. fe_invert H.
  apply bind_ok_inv in Hsave as ([] & ws1 & Hw1 & Hsave).
  apply bind_ok_inv in Hsave as ([] & ws2 & Hw2 & Hsave).
  apply bind_ok_inv in Hsave as ([] & ws3 & Hw3 & Hsave).
  apply ret_inv in Hsave as [_ ->].
  apply write_file_ok_inv in Hw1 as [_ ->], Hw2 as [_ ->], Hw3 as [_ ->].
  unfold encoder_artifacts in Hp.
  repeat (apply elem_of_cons in Hp as [-> | Hp]);
    [eexists; simpl; lookup_written .. | by apply elem_of_nil in Hp].
Qed.

Lemma evaluate_model_ok_table model X_train X_test y_train y_test feature_columns
    w evaluation w' :
  evaluate_model model X_train X_test y_train y_test feature_columns w
    = (Ok evaluation, w') ->
  exists table, fs w' !! (MODELS_DIR ++ "/feature_importance.csv") = Some (CsvTable table).
Proof.
  intros H. unfold evaluate_model in H.
  repeat match type of H with
  | bind (lift _) _ _ = _ =>
      let E := fresh "E" in
      apply bind_ok_inv in H as (? & ? & E & H); apply lift_ok_inv in E as [E ->]
  end.
  apply bind_ok_inv in H as ([] & w1 & Hwrite & H).
  apply write_file_ok_inv in Hwrite as [_ ->].
  apply ret_inv in H as [_ ->]. eexists. apply lookup_insert_eq.
Qed.

(** X18: after a run that completes, the model file holds the model
    trained on the standardized training partition, the metrics in the
    metadata are those [evaluate_model] computed for that model on the
    standardized training and test partitions, and the three encoder files
    and the importance table are still in place. *)
Theorem main_success_artifacts (w w' : world) :
  main w = (Ok tt, w') ->
  exists X_train X_test y_train y_test scaler X_train_scaled X_test_scaled
         model evaluation metadata w2 w3,
    main_partitions w X_train X_test y_train y_test /\
    StandardScaler_fit_transform StandardScaler_new X_train = Ok (scaler, X_train_scaled) /\
    StandardScaler_transform scaler X_test = Ok X_test_scaled /\
    train_model X_train_scaled y_train = Ok model /\
    evaluate_model model X_train_scaled X_test_scaled y_train y_test
      (feature_names metadata) w2 = (Ok evaluation, w3) /\
    fs w' !! (MODELS_DIR ++ "/fraud_model.pkl") = Some (PickledModel model) /\
    fs w' !! (MODELS_DIR ++ "/model_metadata.json") = Some (JsonMetadata metadata) /\
    metrics metadata = evaluation /\
    (forall p, p ∈ encoder_artifacts ->
       exists le, fs w' !! p = Some (PickledEncoder le)) /\
    (exists table,
       fs w' !! (MODELS_DIR ++ "/feature_importance.csv") = Some (CsvTable table)).
Proof.
  intros H. apply main_ok_inv in H.
  destruct H as (w0 & df0 & w1 & df & encoders & w2 & X & y & fc & X_train & X_test
                 & y_train & y_test & scaler & Xs_train & Xs_test & model & evaluation
                 & w3 & w4 & b
                 & Hdirs & Hload & Hfe & Hprep & Hsplit & Hfit & Htest & Htrain & Heval
                 & Hsave & Honnx).
  pose proof (evaluate_model_writes_importance _ _ _ _ _ _ _ _ _ Heval) as (_ & _ & Feval).
  pose proof (save_scaler_and_model_writes_four _ _ _ _ _ _ _ Hsave) as (_ & _ & Fsave).
  pose proof (convert_to_onnx_writes _ _ _ _ _ Honnx) as (_ & _ & Fonnx).
  apply evaluate_model_ok_table in Heval as Htable. destruct Htable as [table Htable].
  apply save_scaler_and_model_ok_inv in Hsave as Hsaved.
  destruct Hsaved as (_ & _ & _ & _ & _ & _ & metadata & Hmeta & _ & Hnames & Hmetrics).
  assert (Hmodel : fs w4 !! (MODELS_DIR ++ "/fraud_model.pkl") = Some (PickledModel model)).
  { unfold save_scaler_and_model in Hsave.
    apply bind_ok_inv in Hsave as ([] & ? & Hw1 & Hsave).
    apply bind_ok_inv in Hsave as ([] & ? & Hw2 & Hsave).
    apply bind_ok_inv in Hsave as (? & ? & Hm & Hsave).
    apply bind_ok_inv in Hsave as (? & ? & Hs & Hsave).
    apply bind_ok_inv in Hsave as ([] & ? & Hw5 & Hsave).
    apply write_file_ok_inv in Hw1 as [_ ->], Hw2 as [_ ->], Hw5 as [_ ->],
      Hsave as [_ ->].
    apply lift_ok_inv in Hm as [_ ->], Hs as [_ ->]. simpl. lookup_written. }
  exists X_train, X_test, y_train, y_test, scaler, Xs_train, Xs_test,
    model, evaluation, metadata, w2, w3.
  split; [unfold main_partitions; eauto 15 |].
  do 3 (split; [done |]). split; [by rewrite Hnames |].
  split; [by rewrite Fonnx by path_not_in |].
  split; [by rewrite Fonnx by path_not_in |].
  split; [done |]. split.
  - intros p Hp.
    destruct (feature_engineering_ok_files _ _ _ _ _ p Hfe Hp) as [le Hle].
    exists le. rewrite Fonnx, Fsave, Feval; [done | ..];
      unfold encoder_artifacts in Hp;
      repeat (apply elem_of_cons in Hp as [-> | Hp]);
      try (by apply elem_of_nil in Hp); path_not_in.
  - exists table. by rewrite Fonnx, Fsave by path_not_in.
Qed.

(** ** The loader *)

(** X19: [load_and_explore_data] never changes the file system; when it
    returns a table, that table is the content of the dataset file and has
    a label column. *)
Theorem load_and_explore_data_reads_only (w w' : world) (r : result DataFrame) :
  load_and_explore_data w = (r, w') ->
  w' = w /\
  forall df, r = Ok df ->
    fs w !! DATA_FILE = Some (CsvTable df) /\ is_Some (dict_lookup "is_fraud" df).
Proof.
  unfold load_and_explore_data, read_csv.
  cbv beta iota delta [bind lift ret read_file].
  destruct (fs w !! DATA_FILE) as [[df0| | | | | |]|] eqn:Hfile;
    try (intros [= <- <-]; split; [done | by intros ? [=]]).
  unfold df_getitem. destruct (dict_lookup "is_fraud" df0) as [c|] eqn:Hc.
  - destruct (fraud_percentage c) as [[]|e]; intros [= <- <-];
      (split; [done |]); intros df [=]; subst; eauto.
  - intros [= <- <-]. split; [done | by intros ? [=]].
Qed.

(** ** Row counts *)

Lemma as_float_len c l : as_float c = Ok l -> length l = column_len c.
Proof.
  destruct c as [x|x|[|s x]]; intros [= <-]; simpl; by rewrite ?length_fmap.
Qed.

Lemma np_ufunc_len f c c' : np_ufunc f c = Ok c' -> column_len c' = column_len c.
Proof.
  unfold np_ufunc. intros H. apply rbind_ok_inv in H as (l & Hl & [= <-]).
  simpl. rewrite length_fmap. by apply as_float_len.
Qed.

Lemma scalar_mul_len k c c' : scalar_mul k c = Ok c' -> column_len c' = column_len c.
Proof.
  unfold scalar_mul. intros H. apply rbind_ok_inv in H as (l & Hl & [= <-]).
  simpl. rewrite length_fmap. by apply as_float_len.
Qed.

Lemma div_scalar_len k c c' : div_scalar c k = Ok c' -> column_len c' = column_len c.
Proof.
  unfold div_scalar. intros H. apply rbind_ok_inv in H as (l & Hl & [= <-]).
  simpl. rewrite length_fmap. by apply as_float_len.
Qed.

Lemma col_ge_len c k l : col_ge c k = Ok l -> length l = column_len c.
Proof.
  destruct c as [x|x|[|s x]]; intros [= <-]; simpl; by rewrite ?length_fmap.
Qed.

Lemma col_le_len c k l : col_le c k = Ok l -> length l = column_len c.
Proof.
  destruct c as [x|x|[|s x]]; intros [= <-]; simpl; by rewrite ?length_fmap.
Qed.

Lemma col_binop_len iop fop name a b c :
  col_binop iop fop name a b = Ok c ->
  column_len b = column_len a -> column_len c = column_len a.
Proof.
  destruct a as [x|x|[|s x]], b as [y|y|[|t y]]; simpl; intros [= <-] Hlen; simpl;
    rewrite ?length_zip_with, ?length_fmap; simpl in *; lia.
Qed.

Lemma LabelEncoder_transform_len le c codes :
  LabelEncoder_transform le c = Ok codes -> length codes = column_len c.
Proof.
  unfold LabelEncoder_transform. destruct (classes_ le); [| discriminate].
  intros H%rmapM_length. rewrite H.
  destruct c; simpl; by rewrite length_fmap.
Qed.

(** X20: [feature_engineering] keeps the table rectangular: when the
    seven raw columns it reads all have [n] rows, each of the twelve columns
    it adds has [n] rows. *)
Theorem feature_engineering_row_count
    (df df' : DataFrame) (encs : list (string * LabelEncoder)) (w w' : world) (n : nat) :
  feature_engineering df w = (Ok (df', encs), w') ->
  (forall name c,
     name ∈ ["amount"; "hour"; "transaction_type"; "merchant_category"; "country";
             "device_risk_score"; "ip_risk_score"] ->
     dict_lookup name df = Some c -> column_len c = n) ->
  forall name, name ∈ engineered_columns ->
    exists c, dict_lookup name df' = Some c /\ column_len c = n.
Proof.
  intros H Hrows. fe_invert H. clear Hsave.
  repeat match goal with
  | E : df_getitem ?k df = Ok ?c |- _ =>
      apply df_getitem_ok in E; apply Hrows in E; [| vm_compute; by repeat constructor]
  end.
  repeat match goal with
  | E : np_ufunc _ ?c = Ok _, L : column_len ?c = n |- _ =>
      apply np_ufunc_len in E; rewrite L in E
  | E : scalar_mul _ ?c = Ok _, L : column_len ?c = n |- _ =>
      apply scalar_mul_len in E; rewrite L in E
  | E : div_scalar ?c _ = Ok _, L : column_len ?c = n |- _ =>
      apply div_scalar_len in E; rewrite L in E
  | E : col_ge ?c _ = Ok _, L : column_len ?c = n |- _ =>
      apply col_ge_len in E; rewrite L in E
  | E : col_le ?c _ = Ok _, L : column_len ?c = n |- _ =>
      apply col_le_len in E; rewrite L in E
  | E : col_mul ?a ?b = Ok _, La : column_len ?a = n, Lb : column_len ?b = n |- _ =>
      apply col_binop_len in E; [rewrite La in E | congruence]
  | E : col_add ?a ?b = Ok _, La : column_len ?a = n, Lb : column_len ?b = n |- _ =>
      apply col_binop_len in E; [rewrite La in E | congruence]
  | E : col_max ?a ?b = Ok _, La : column_len ?a = n, Lb : column_len ?b = n |- _ =>
      apply col_binop_len in E; [rewrite La in E | congruence]
  | E : LabelEncoder_transform _ ?c = Ok _, L : column_len ?c = n |- _ =>
      apply LabelEncoder_transform_len in E; rewrite L in E
  end.
  intros name Hname. unfold engineered_columns in Hname. unfold df_setitem.
  repeat (apply elem_of_cons in Hname as [-> | Hname]);
    [ rewrite ?dict_lookup_set_ne by reflexivity; rewrite dict_lookup_set_eq;
      eexists; (split; [reflexivity |]);
      unfold astype_int, col_or, col_and; simpl;
      rewrite ?length_fmap, ?length_zip_with; first [assumption | lia] ..
    | by apply elem_of_nil in Hname ].
Qed.

End Properties.

(** * The statements at sample inputs *)

Section Samples.
Import Sample.
#[local] Existing Instance sk_ok.

Lemma feature_engineering_derived_columns_witness :
  exists amount hour product total total_float maximum,
    value_float (np := sym_numpy) (LFloat (SInt 9800)) = Some amount /\
    value_float (np := sym_numpy) (LInt 23) = Some hour /\
    row_value "amount_log" 2 engineered = Some (LFloat (np_log1p amount)) /\
    row_value "amount_sqrt" 2 engineered = Some (LFloat (np_sqrt amount)) /\
    row_value "hour_sin" 2 engineered =
      Some (LFloat (np_sin (fdiv (fmul (fmul (of_int 2) np_pi) hour) (of_int 24)))) /\
    row_value "hour_cos" 2 engineered =
      Some (LFloat (np_cos (fdiv (fmul (fmul (of_int 2) np_pi) hour) (of_int 24)))) /\
    row_value "is_night" 2 engineered =
      Some (LInt (if value_ge (np := sym_numpy) (LInt 23) 0
                     && value_le (np := sym_numpy) (LInt 23) 6
                     || value_ge (np := sym_numpy) (LInt 23) 22 then 1 else 0)) /\
    row_value "is_business_hours" 2 engineered =
      Some (LInt (if value_ge (np := sym_numpy) (LInt 23) 9
                     && value_le (np := sym_numpy) (LInt 23) 17 then 1 else 0)) /\
    value_binop Z.mul fmul (LFloat (SInt 9)) (LFloat (SInt 8)) = Some product /\
    row_value "risk_score_product" 2 engineered = Some product /\
    value_binop Z.add fadd (LFloat (SInt 9)) (LFloat (SInt 8)) = Some total /\
    value_float total = Some total_float /\
    row_value "risk_score_avg" 2 engineered = Some (LFloat (fdiv total_float (of_int 2))) /\
    value_binop Z.max fmax (LFloat (SInt 9)) (LFloat (SInt 8)) = Some maximum /\
    row_value "risk_score_max" 2 engineered = Some maximum.
Proof.
  eapply (feature_engineering_derived_columns (np := sym_numpy)
            transactions engineered _ (disk transactions) _ 2%nat);
    reflexivity.
Defined.

(** The derived columns of the row in numbers. *)
Example derived_columns_of_a_row :
  row_float "amount_log" 2 engineered = Some (SLog1p (SInt 9800)) /\
  row_float "hour_sin" 2 engineered =
    Some (SSin (SDiv (SMul (SMul (SInt 2) SPi) (SInt 23)) (SInt 24))) /\
  row_int "is_night" 2 engineered = Some 1 /\
  row_int "is_business_hours" 2 engineered = Some 0 /\
  row_float "risk_score_product" 2 engineered = Some (SMul (SInt 9) (SInt 8)) /\
  row_float "risk_score_avg" 2 engineered = Some (SDiv (SAdd (SInt 9) (SInt 8)) (SInt 2)) /\
  row_float "risk_score_max" 2 engineered = Some (SMax (SInt 9) (SInt 8)).
Proof. by repeat split. Qed.

(** At hour -1 the claim's condition (hour <= 6 or hour >= 22) holds and
    is_night is 0: the code also asks for 0 <= hour.  With the int64 risk
    scores 2^62 and 2^62 the product column holds 0 and the average column
    holds -2^63 / 2: int64 arithmetic has wrapped around. *)
Lemma derived_columns_differ_from_claim :
  (exists encs w',
     feature_engineering negative_hour (disk negative_hour)
       = (Ok (engineered_negative_hour, encs), w')) /\
  row_int "hour" 0 engineered_negative_hour = Some (-1) /\
  ~ (row_int "is_night" 0 engineered_negative_hour = Some 1 <-> (-1 <= 6 \/ -1 >= 22)) /\
  (exists encs w',
     feature_engineering large_scores (disk large_scores)
       = (Ok (engineered_large_scores, encs), w')) /\
  row_int "device_risk_score" 0 engineered_large_scores = Some (2 ^ 62) /\
  row_int "ip_risk_score" 0 engineered_large_scores = Some (2 ^ 62) /\
  row_int "risk_score_product" 0 engineered_large_scores = Some 0 /\
  2 ^ 62 * 2 ^ 62 <> 0 /\
  row_float "risk_score_avg" 0 engineered_large_scores
    = Some (SDiv (SInt (- 2 ^ 63)) (SInt 2)) /\
  2 ^ 62 + 2 ^ 62 <> - 2 ^ 63.
Proof.
  split; [by repeat eexists |]. split; [done |]. split.
  { intros [_ H]. assert (E : -1 <= 6 \/ -1 >= 22) by lia.
    apply H in E. vm_compute in E. discriminate E. }
  split; [by repeat eexists |].
  repeat split; try reflexivity; lia.
Qed.

Lemma night_and_business_hours_exclusive_witness :
  exists n b,
    row_int "is_night" 1 engineered = Some n /\
    row_int "is_business_hours" 1 engineered = Some b /\
    (n = 0 \/ n = 1) /\ (b = 0 \/ b = 1) /\
    ~ (n = 1 /\ b = 1).
Proof.
  eapply (night_and_business_hours_exclusive (np := sym_numpy)
           transactions engineered encoders (disk transactions) _ [3; 10; 23; 14; 7] 1 10);
    [reflexivity | reflexivity | reflexivity | lia].
Defined.

Lemma label_encoder_round_trip_witness :
  exists le,
    dict_lookup "country" encoders = Some le /\
    (forall s, s ∈ ["TN"; "FR"; "TN"; "TN"; "DE"] ->
       exists i, LabelEncoder_transform le (Object [s]) = Ok [i] /\
                 LabelEncoder_inverse_transform le [i] = Ok [LStr s]) /\
    (forall s, s ∉ ["TN"; "FR"; "TN"; "TN"; "DE"] ->
       exists msg, LabelEncoder_transform le (Object [s]) = Raise (ValueError msg)).
Proof.
  eapply (label_encoder_round_trip (np := sym_numpy)
           transactions engineered encoders (disk transactions) _ "country");
    [reflexivity | repeat constructor | reflexivity].
Defined.

Lemma run_result {A W} (x : result A * W) (a : A) : x.1 = Ok a -> x = (Ok a, x.2).
Proof. destruct x as [r w]. simpl. by intros ->. Qed.

Lemma feature_names_match_training_order_witness :
  exists metadata,
    fs final !! (MODELS_DIR ++ "/model_metadata.json") = Some (JsonMetadata metadata) /\
    length (feature_names metadata) = 16%nat /\
    n_features metadata = 16%nat /\
    forall df X y feature_columns,
      prepare_features df = Ok (X, y, feature_columns) ->
      feature_columns = feature_names metadata /\
      rmapM (fun name => df_getitem name df) (feature_names metadata) = Ok X.
Proof.
  apply (feature_names_match_training_order (disk transactions) final).
  apply run_result. vm_compute. reflexivity.
Defined.

Lemma scaler_params_consistent_witness :
  exists params,
    fs final !! (MODELS_DIR ++ "/scaler_params.json") = Some (JsonScalerParams params) /\
    length (means params) = params_n_features params /\
    length (stds params) = params_n_features params /\
    params_n_features params = 16%nat /\
    forall df X y feature_columns,
      prepare_features df = Ok (X, y, feature_columns) ->
      params_n_features params = length feature_columns.
Proof.
  apply (scaler_params_consistent (disk transactions) final).
  apply run_result. vm_compute. reflexivity.
Defined.

Lemma scaler_fit_on_training_partition_witness :
  exists X_train X_test y_train y_test scaler train_cols test_cols params
         X_train_scaled X_test_scaled model evaluation metadata w2 w3,
    main_partitions (disk transactions) X_train X_test y_train y_test /\
    StandardScaler_fit X_train = Ok scaler /\
    check_array X_train = Ok train_cols /\
    mean_ scaler = Some (np_mean <$> train_cols) /\
    scale_ scaler = Some (np_scale <$> train_cols) /\
    fs final !! (MODELS_DIR ++ "/scaler.pkl") = Some (PickledScaler scaler) /\
    fs final !! (MODELS_DIR ++ "/scaler_params.json") = Some (JsonScalerParams params) /\
    means params = np_mean <$> train_cols /\
    stds params = np_scale <$> train_cols /\
    check_array X_test = Ok test_cols /\
    X_train_scaled =
      zip_with (fun col ms => standardize ms.1 ms.2 col) train_cols
        (zip (np_mean <$> train_cols) (np_scale <$> train_cols)) /\
    X_test_scaled =
      zip_with (fun col ms => standardize ms.1 ms.2 col) test_cols
        (zip (np_mean <$> train_cols) (np_scale <$> train_cols)) /\
    StandardScaler_transform scaler X_test = Ok X_test_scaled /\
    train_model X_train_scaled y_train = Ok model /\
    evaluate_model model X_train_scaled X_test_scaled y_train y_test
      (feature_names metadata) w2 = (Ok evaluation, w3) /\
    fs final !! (MODELS_DIR ++ "/fraud_model.pkl") = Some (PickledModel model) /\
    fs final !! (MODELS_DIR ++ "/model_metadata.json") = Some (JsonMetadata metadata) /\
    metrics metadata = evaluation.
Proof.
  apply (scaler_fit_on_training_partition (disk transactions) final).
  apply run_result. vm_compute. reflexivity.
Defined.


Lemma no_amount_well_formed : well_formed_except "amount" no_amount.
Proof.
  split; intros name Hname Hne;
    repeat (apply elem_of_cons in Hname as [-> | Hname]);
    try (by apply elem_of_nil in Hname); try done;
    eexists; (split; [reflexivity | exact I]) || reflexivity.
Qed.


(** When another column is malformed, the error is that column's: the
    amount is read before the country. *)
Example feature_engineering_garbled :
  dict_lookup "country" garbled = None /\
  feature_engineering garbled (disk garbled)
    = (Raise (TypeError "ufunc does not support str"), disk garbled).
Proof. by split. Qed.

(** The selection on the raw table: one [KeyError] for the twelve
    engineered columns. *)
Example prepare_features_raw_table :
  prepare_features transactions =
    Raise (KeyError ("['amount_log', 'amount_sqrt', 'hour_sin', 'hour_cos', 'is_night', "
                     ++ "'is_business_hours', 'transaction_type_encoded', "
                     ++ "'merchant_category_encoded', 'country_encoded', "
                     ++ "'risk_score_product', 'risk_score_avg', 'risk_score_max'] "
                     ++ "not in index")).
Proof. reflexivity. Qed.

(** With the converter missing the step answers [False] and writes
    nothing; with an export the checker refuses it answers [False] too. *)
Example convert_to_onnx_unavailable :
  convert_to_onnx (sk := stub_sklearn false true) 16%nat []
    (disk (sk := stub_sklearn false true) transactions)
  = (Ok false, disk (sk := stub_sklearn false true) transactions).
Proof. reflexivity. Qed.

Example convert_to_onnx_invalid_export :
  (convert_to_onnx (sk := stub_sklearn true false) 16%nat []
     (disk (sk := stub_sklearn true false) transactions)).1 = Ok false.
Proof. reflexivity. Qed.

Lemma run_raised {A W} (x : result A * W) (e : exn) : x.1 = Raise e -> x = (Raise e, x.2).
Proof. destruct x as [r w]. simpl. by intros ->. Qed.




(** The run without a dataset in numbers: the directory is made, the
    loader raises. *)
Example main_missing_dataset_run :
  (main (sk := sk_ok) blank).1 = Raise (FileNotFoundError DATA_FILE) /\
  dirs no_dataset = {[ MODELS_DIR ]} ∪ ∅ /\ fs no_dataset = ∅.
Proof. by repeat split. Qed.


Lemma feature_engineering_saves_encoders_witness :
  exists transaction_type merchant_category country,
    dict_lookup "transaction_type" transactions = Some transaction_type /\
    dict_lookup "merchant_category" transactions = Some merchant_category /\
    dict_lookup "country" transactions = Some country /\
    encoders = [("transaction_type", LabelEncoder_fit transaction_type);
                ("merchant_category", LabelEncoder_fit merchant_category);
                ("country", LabelEncoder_fit country)] /\
    fs engineered_world !! (MODELS_DIR ++ "/encoder_transaction_type.pkl")
      = Some (PickledEncoder (LabelEncoder_fit transaction_type)) /\
    fs engineered_world !! (MODELS_DIR ++ "/encoder_merchant_category.pkl")
      = Some (PickledEncoder (LabelEncoder_fit merchant_category)) /\
    fs engineered_world !! (MODELS_DIR ++ "/encoder_country.pkl")
      = Some (PickledEncoder (LabelEncoder_fit country)) /\
    forall p, p ∉ encoder_artifacts ->
      fs engineered_world !! p = fs (disk transactions) !! p.
Proof.
  apply (feature_engineering_saves_encoders (np := sym_numpy)
           transactions engineered encoders (disk transactions) engineered_world).
  apply run_result. vm_compute. reflexivity.
Defined.

Lemma feature_engineering_keeps_columns_witness :
  (forall name, name ∉ engineered_columns ->
     dict_lookup name engineered = dict_lookup name transactions) /\
  (forall name, name ∈ engineered_columns -> is_Some (dict_lookup name engineered)).
Proof.
  apply (feature_engineering_keeps_columns (np := sym_numpy)
           transactions engineered encoders (disk transactions) engineered_world).
  apply run_result. vm_compute. reflexivity.
Defined.

Lemma encoded_column_decodes_witness :
  exists le classes codes,
    dict_lookup "country" encoders = Some le /\
    classes_ le = Some classes /\
    dict_lookup ("country" ++ "_encoded") engineered = Some (Int64 codes) /\
    length codes = length ["TN"; "FR"; "TN"; "TN"; "DE"] /\
    LabelEncoder_inverse_transform le codes = Ok (LStr <$> ["TN"; "FR"; "TN"; "TN"; "DE"]) /\
    Forall (fun code => 0 <= code < Z.of_nat (length classes)) codes.
Proof.
  apply (encoded_column_decodes (np := sym_numpy)
           transactions engineered encoders (disk transactions) engineered_world "country");
    [apply run_result; vm_compute; reflexivity | repeat constructor | reflexivity].
Defined.

Lemma feature_engineering_fails_before_writing_witness :
  exists e, feature_engineering no_amount (disk no_amount) = (Raise e, disk no_amount).
Proof.
  apply (feature_engineering_fails_before_writing (np := sym_numpy)
           no_amount (disk no_amount) "amount");
    [repeat constructor | reflexivity].
Defined.

Lemma feature_engineering_late_failure_witness :
  dict_lookup "device_risk_score" no_device = None /\
  exists transaction_type merchant_category country,
    dict_lookup "transaction_type" no_device = Some transaction_type /\
    dict_lookup "merchant_category" no_device = Some merchant_category /\
    dict_lookup "country" no_device = Some country /\
    fs no_device_world !! (MODELS_DIR ++ "/encoder_transaction_type.pkl")
      = Some (PickledEncoder (LabelEncoder_fit transaction_type)) /\
    fs no_device_world !! (MODELS_DIR ++ "/encoder_merchant_category.pkl")
      = Some (PickledEncoder (LabelEncoder_fit merchant_category)) /\
    fs no_device_world !! (MODELS_DIR ++ "/encoder_country.pkl")
      = Some (PickledEncoder (LabelEncoder_fit country)).
Proof.
  apply (feature_engineering_late_failure (np := sym_numpy)
           no_device (disk no_device) no_device_world "device_risk_score");
    [apply run_raised; vm_compute; reflexivity | repeat constructor].
Defined.

Lemma prepare_features_after_engineering_witness :
  exists X feature_columns,
    prepare_features engineered = Ok (X, Int64 [0; 0; 1; 0; 0], feature_columns) /\
    length X = 16%nat /\
    X !! 0%nat = dict_lookup "amount" transactions /\
    X !! 3%nat = dict_lookup "hour" transactions /\
    X !! 11%nat = dict_lookup "device_risk_score" transactions /\
    X !! 12%nat = dict_lookup "ip_risk_score" transactions.
Proof.
  apply (prepare_features_after_engineering (np := sym_numpy)
           transactions engineered encoders (disk transactions) engineered_world);
    [apply run_result; vm_compute; reflexivity | reflexivity].
Defined.

Lemma evaluate_model_raises_unchanged_witness :
  (evaluate_model (sk := sk_ok) 2%nat [[SInt 1]; [SInt 2]] [[SInt 1]; [SInt 2]]
     (Int64 [0]) (Int64 [0]) ["amount"; "hour"] locked).2 = locked.
Proof.
  eapply (evaluate_model_raises_unchanged (np := sym_numpy) (sk := sk_ok)
            2%nat [[SInt 1]; [SInt 2]] [[SInt 1]; [SInt 2]]
            (Int64 [0]) (Int64 [0]) ["amount"; "hour"] locked _
            (PermissionError (MODELS_DIR ++ "/feature_importance.csv"))).
  apply run_raised. vm_compute. reflexivity.
Defined.

Lemma evaluate_model_importance_table_witness :
  exists features importances,
    fs evaluated.2 !! (MODELS_DIR ++ "/feature_importance.csv")
      = Some (CsvTable [("feature", Object features); ("importance", Float64 importances)]) /\
    feature_importance
      {| train_accuracy := SInt 1; test_accuracy := SInt 1; roc_auc := SInt 0;
         metrics_confusion_matrix := [[1; 0]; [0; 0]];
         feature_importance := [("amount", SInt 0); ("hour", SInt 0)] |}
      = zip features importances /\
    length features = length importances /\
    (forall name, name ∈ features -> name ∈ ["amount"; "hour"]) /\
    length (feature_importances_ (Sklearn := sk_ok) 2%nat) = length ["amount"; "hour"] /\
    (forall i j, (i < 2)%nat -> (j < 2)%nat ->
       exists v, cm_at [[1; 0]; [0; 0]] i j = Ok v).
Proof.
  apply (evaluate_model_importance_table (np := sym_numpy) (sk := sk_ok)
           2%nat [[SInt 1]; [SInt 2]] [[SInt 1]; [SInt 2]]
           (Int64 [0]) (Int64 [0]) ["amount"; "hour"] blank evaluated.2).
  apply (run_result evaluated). vm_compute. reflexivity.
Defined.


Lemma save_documents_agree_witness :
  exists params metadata,
    fs saved !! (MODELS_DIR ++ "/scaler_params.json") = Some (JsonScalerParams params) /\
    fs saved !! (MODELS_DIR ++ "/model_metadata.json") = Some (JsonMetadata metadata) /\
    fs saved !! (MODELS_DIR ++ "/fraud_model.pkl") = Some (PickledModel 1%nat) /\
    params_n_features params = n_features metadata /\
    n_features metadata = length (feature_names metadata) /\
    mean_ fitted = Some (means params) /\
    scale_ fitted = Some (stds params) /\
    (forall X y,
       train_model X y =
         rf_fit {| n_estimators := config_n_estimators (model_config metadata);
                   max_depth := config_max_depth (model_config metadata);
                   min_samples_split := config_min_samples_split (model_config metadata);
                   min_samples_leaf := config_min_samples_leaf (model_config metadata);
                   random_state := RANDOM_STATE;
                   n_jobs := -1;
                   class_weight := "balanced";
                   verbose := 1 |} X y) /\
    (forall p, p ∉ [MODELS_DIR ++ "/scaler.pkl"; MODELS_DIR ++ "/fraud_model.pkl";
                    MODELS_DIR ++ "/scaler_params.json";
                    MODELS_DIR ++ "/model_metadata.json"] ->
       fs saved !! p = fs blank !! p).
Proof.
  apply (save_documents_agree (np := sym_numpy) (sk := sk_ok)
           fitted 1%nat ["amount"] sample_metrics blank saved).
  apply run_result. vm_compute. reflexivity.
Defined.

Lemma convert_to_onnx_serialization_failure_witness :
  exists w',
    convert_to_onnx (sk := stub_unserializable) 16%nat ["amount"]
      (blank (sk := stub_unserializable)) = (Ok false, w') /\
    fs w' !! (MODELS_DIR ++ "/fraud_detection.onnx") = Some (Bytes []).
Proof.
  apply (convert_to_onnx_serialization_failure (np := sym_numpy)
           (sk := stub_unserializable) 16%nat ["amount"] blank 16%nat
           (LibraryError "EncodeError"));
    [reflexivity | reflexivity | apply not_elem_of_empty | reflexivity
    | intros text; reflexivity].
Defined.

Lemma convert_to_onnx_validation_failure_witness :
  exists w',
    convert_to_onnx (sk := stub_sklearn true false) 3%nat ["amount"]
      (blank (sk := stub_sklearn true false)) = (Ok false, w') /\
    fs w' !! (MODELS_DIR ++ "/fraud_detection.onnx")
      = Some (Bytes [Byte.x00; Byte.x00; Byte.x00]).
Proof.
  apply (convert_to_onnx_validation_failure (np := sym_numpy)
           (sk := stub_sklearn true false) 3%nat ["amount"] blank 3%nat);
    [reflexivity | reflexivity | apply not_elem_of_empty | reflexivity
    | intros ? _; discriminate | intros text; reflexivity].
Defined.

Lemma convert_to_onnx_success_file_witness :
  exists onnx_model serialized onnx_model_check,
    convert_sklearn (Sklearn := sk_ok) 3%nat
      [("float_input", FloatTensorType [None; Some (length ["amount"])])] 12
      = Ok onnx_model /\
    SerializeToString onnx_model = Ok serialized /\
    fs (convert_to_onnx (sk := sk_ok) 3%nat ["amount"] blank).2
      !! (MODELS_DIR ++ "/fraud_detection.onnx") = Some (Bytes serialized) /\
    onnx_parse serialized = Ok onnx_model_check /\
    check_model onnx_model_check = Ok tt.
Proof.
  apply (convert_to_onnx_success_file (np := sym_numpy) (sk := sk_ok)
           3%nat ["amount"] blank).
  apply run_result. vm_compute. reflexivity.
Defined.

Lemma main_success_artifacts_witness :
  exists X_train X_test y_train y_test scaler X_train_scaled X_test_scaled
         model evaluation metadata w2 w3,
    main_partitions (disk transactions) X_train X_test y_train y_test /\
    StandardScaler_fit_transform StandardScaler_new X_train = Ok (scaler, X_train_scaled) /\
    StandardScaler_transform scaler X_test = Ok X_test_scaled /\
    train_model X_train_scaled y_train = Ok model /\
    evaluate_model model X_train_scaled X_test_scaled y_train y_test
      (feature_names metadata) w2 = (Ok evaluation, w3) /\
    fs final !! (MODELS_DIR ++ "/fraud_model.pkl") = Some (PickledModel model) /\
    fs final !! (MODELS_DIR ++ "/model_metadata.json") = Some (JsonMetadata metadata) /\
    metrics metadata = evaluation /\
    (forall p, p ∈ encoder_artifacts ->
       exists le, fs final !! p = Some (PickledEncoder le)) /\
    (exists table,
       fs final !! (MODELS_DIR ++ "/feature_importance.csv") = Some (CsvTable table)).
Proof.
  apply (main_success_artifacts (disk transactions) final).
  apply run_result. vm_compute. reflexivity.
Defined.

Lemma load_and_explore_data_reads_only_witness :
  (load_and_explore_data (disk transactions)).2 = disk transactions /\
  forall df, (load_and_explore_data (disk transactions)).1 = Ok df ->
    fs (disk transactions) !! DATA_FILE = Some (CsvTable df) /\
    is_Some (dict_lookup "is_fraud" df).
Proof.
  apply (load_and_explore_data_reads_only (np := sym_numpy) (sk := sk_ok)
           (disk transactions)).
  by destruct (load_and_explore_data (disk transactions)).
Defined.

Lemma feature_engineering_row_count_witness :
  exists c, dict_lookup "risk_score_max" engineered = Some c /\ column_len c = 5%nat.
Proof.
  apply (feature_engineering_row_count (np := sym_numpy)
           transactions engineered encoders (disk transactions) engineered_world 5).
  - apply run_result. vm_compute. reflexivity.
  - intros name c Hname.
    repeat (apply elem_of_cons in Hname as [-> | Hname]);
      [intros [= <-]; reflexivity .. | by apply elem_of_nil in Hname].
  - vm_compute. repeat constructor.
Defined.

End Samples.
